(** * Airbnb listings transform: record cleaning and feature engineering

    A shallow embedding of the transform Lambda of the repository
    (src/lambda_1/airbnb-transform.py and its two instrumented variants,
    airbnb-transform-scale.py and aribnb-transform-arm64.py) together with
    the properties of the cleaning pipeline.

    Modelling conventions.
    - A Python [str] is a [string]; a character is a code point below 256
      (the Latin-1 block of Unicode), so character classes such as
      [str.isspace], [str.isdigit] and [\d] are the restrictions of the
      Unicode ones to that block.
    - A Python [float] is a binary64 number, [spec_float] with precision 53
      and maximal exponent 1024; conversions from decimal text and [round]
      are correctly rounded (round half to even), as in CPython.
    - A Python [int] is a [Z].
    - A raised exception is the [Raise] branch of [result]; [try/except]
      blocks are matches on it.
    - A [dict] read only through [get] is a [gmap]; a [dict] whose key order
      is observable (the cleaned record) is an association list. *)

From Stdlib Require Import ZArith Lia Bool List Ascii String.
From Stdlib Require Import Floats.SpecFloat.
From Stdlib Require Import Sorting.Sorted Sorting.Permutation.
From stdpp Require Import base option gmap strings.

Local Open Scope string_scope.
Local Open Scope Z_scope.

(** ** Exceptions and the error monad *)

Inductive exn : Type :=
  | AttributeError
  | ValueError
  | OverflowError
  | ZeroDivisionError
  | KeyError
  | TypeError.

Inductive result (A : Type) : Type :=
  | Ok (a : A)
  | Raise (e : exn).
Arguments Ok {A} a.
Arguments Raise {A} e.

#[global] Instance result_ret : MRet result := fun _ a => Ok a.
#[global] Instance result_bind : MBind result := fun _ _ f m =>
  match m with
  | Ok a => f a
  | Raise e => Raise e
  end.

Definition is_ok {A} (r : result A) : bool :=
  match r with Ok _ => true | Raise _ => false end.

(** [try: r except: d] is [try: return r / except: return d]. *)
Definition try_except {A} (r : result A) (d : A) : A :=
  match r with Ok a => a | Raise _ => d end.

Fixpoint mapM_result {A B} (f : A -> result B) (l : list A) : result (list B) :=
  match l with
  | [] => Ok []
  | x :: l' =>
      match f x with
      | Ok y =>
          match mapM_result f l' with
          | Ok ys => Ok (y :: ys)
          | Raise e => Raise e
          end
      | Raise e => Raise e
      end
  end.

(** ** Characters *)

Module Char.

Definition code (c : ascii) : Z := Z.of_N (N_of_ascii c).

Definition between (lo hi : Z) (c : ascii) : bool :=
  (lo <=? code c) && (code c <=? hi).

(** [str.isspace] on one character, also the class [\s] of [re] on [str]
    patterns and the default set of [str.strip]. *)
Definition isspace (c : ascii) : bool :=
  between 9 13 c || between 28 32 c || (code c =? 133) || (code c =? 160).

(** The decimal digits (category Nd): the class [\d] of [re]. *)
Definition isdecimal (c : ascii) : bool := between 48 57 c.

(** [str.isdigit] on one character: the decimal digits and the superscript
    digits two, three and one. *)
Definition isdigit (c : ascii) : bool :=
  isdecimal c || (code c =? 178) || (code c =? 179) || (code c =? 185).

(** The value of a decimal digit. *)
Definition digit_value (c : ascii) : Z := code c - 48.

(** [str.lower] on one character. *)
Definition lower (c : ascii) : ascii :=
  if between 65 90 c || (between 192 222 c && negb (code c =? 215))
  then ascii_of_N (N_of_ascii c + 32)
  else c.

(** The white space that [float] and [int] accept around a numeral: the
    six ASCII ones, and the two Latin-1 spaces, which the conversion maps
    to a blank first. *)
Definition isspace_num (c : ascii) : bool :=
  between 9 13 c || (code c =? 32) || (code c =? 133) || (code c =? 160).

End Char.

(** ** Strings *)

Module Str.

Fixpoint all (p : ascii -> bool) (s : string) : bool :=
  match s with
  | EmptyString => true
  | String c s' => p c && all p s'
  end.

Fixpoint map (f : ascii -> ascii) (s : string) : string :=
  match s with
  | EmptyString => EmptyString
  | String c s' => String (f c) (map f s')
  end.

Fixpoint filter (p : ascii -> bool) (s : string) : string :=
  match s with
  | EmptyString => EmptyString
  | String c s' => if p c then String c (filter p s') else filter p s'
  end.

Fixpoint count (p : ascii -> bool) (s : string) : nat :=
  match s with
  | EmptyString => O
  | String c s' => if p c then S (count p s') else count p s'
  end.

Definition is_empty (s : string) : bool :=
  match s with EmptyString => true | _ => false end.

(** [s.lstrip(chars)] and [s.rstrip(chars)] with the set given as a
    predicate. *)
Fixpoint lstrip_by (p : ascii -> bool) (s : string) : string :=
  match s with
  | EmptyString => EmptyString
  | String c s' => if p c then lstrip_by p s' else s
  end.

Fixpoint rstrip_by (p : ascii -> bool) (s : string) : string :=
  match s with
  | EmptyString => EmptyString
  | String c s' =>
      let r := rstrip_by p s' in
      if is_empty r && p c then EmptyString else String c r
  end.

Definition strip_by (p : ascii -> bool) (s : string) : string :=
  rstrip_by p (lstrip_by p s).

(** [s.strip()] *)
Definition strip (s : string) : string := strip_by Char.isspace s.

Fixpoint mem (c : ascii) (chars : string) : bool :=
  match chars with
  | EmptyString => false
  | String d chars' => Ascii.eqb c d || mem c chars'
  end.

(** [s.strip(chars)] *)
Definition strip_chars (chars : string) (s : string) : string :=
  strip_by (fun c => mem c chars) s.

(** [s.split(sep)] for a one-character separator: never the empty list. *)
Fixpoint split (sep : ascii) (s : string) : list string :=
  match s with
  | EmptyString => [EmptyString]
  | String c s' =>
      if Ascii.eqb c sep then EmptyString :: split sep s'
      else
        match split sep s' with
        | [] => [String c EmptyString]
        | w :: ws => String c w :: ws
        end
  end.

(** [s.lower()] *)
Definition lower (s : string) : string := map Char.lower s.

(** [s.replace(c, '')] for a one-character [c]. *)
Definition remove (c : ascii) (s : string) : string :=
  filter (fun d => negb (Ascii.eqb d c)) s.

Fixpoint take (n : nat) (s : string) : string :=
  match n, s with
  | S n', String c s' => String c (take n' s')
  | _, _ => EmptyString
  end.

Definition len (s : string) : Z := Z.of_nat (String.length s).

(** [s[:k]], with the negative bounds of Python's slices. *)
Definition slice_to (k : Z) (s : string) : string :=
  if k <? 0 then take (Z.to_nat (Z.max 0 (len s + k))) s
  else take (Z.to_nat k) s.

Fixpoint is_prefix (p s : string) : bool :=
  match p, s with
  | EmptyString, _ => true
  | String a p', String b s' => Ascii.eqb a b && is_prefix p' s'
  | String _ _, EmptyString => false
  end.

(** [p in s] *)
Fixpoint contains (p s : string) : bool :=
  match s with
  | EmptyString => is_empty p
  | String _ s' => is_prefix p s || contains p s'
  end.

(** [re.sub(r'[class]+', ' ', s)]: every maximal run of characters of the
    class becomes one blank. [in_run] tells that the previous character
    was of the class. *)
Fixpoint sub_runs_from (p : ascii -> bool) (in_run : bool) (s : string) : string :=
  match s with
  | EmptyString => EmptyString
  | String c s' =>
      if p c then
        if in_run then sub_runs_from p true s'
        else String " " (sub_runs_from p true s')
      else String c (sub_runs_from p false s')
  end.

Definition sub_runs (p : ascii -> bool) (s : string) : string :=
  sub_runs_from p false s.

(** [s.isdigit()] *)
Definition isdigit (s : string) : bool :=
  negb (is_empty s) && all Char.isdigit s.

Fixpoint repeat (c : ascii) (n : nat) : string :=
  match n with
  | O => EmptyString
  | S n' => String c (repeat c n')
  end.

End Str.

(** ** Floating-point numbers (binary64) *)

Module PyFloat.

Definition prec : Z := 53.
Definition emax : Z := 1024.

Definition nan : spec_float := S754_nan.
Definition inf (s : bool) : spec_float := S754_infinity s.
Definition zero : spec_float := S754_zero false.

(** The integer nearest to [p / q], ties to even; [0 <= p], [0 < q]. *)
Definition div_half_even (p q : Z) : Z :=
  let d := p / q in
  let r := p mod q in
  match 2 * r ?= q with
  | Lt => d
  | Eq => if Z.even d then d else d + 1
  | Gt => d + 1
  end.

(** The integer part of the binary logarithm of [P / q], for
    [0 < q <= P]. *)
Definition log2_ratio (P q : Z) : Z :=
  let d := Z.log2 P - Z.log2 q in
  if q * 2 ^ d <=? P then d else d - 1.

(** The exponent of the float nearest to [P / q] in units of the least
    positive float: 52 below the binary logarithm, and 0 for the
    subnormal numbers. *)
Definition exponent_of (P q : Z) : Z :=
  if P <? q then 0 else Z.max (log2_ratio P q - 52) 0.

(** The ratio [p * 2^1074 / (q * 2^E)] with the common power of two
    cancelled. *)
Definition unit_ratio (p q E : Z) : Z * Z :=
  if E <=? 1074 then (p * 2 ^ (1074 - E), q) else (p, q * 2 ^ (E - 1074)).

(** The binary64 number nearest to [p / q], ties to even, with sign [s];
    [0 <= p] and [0 < q]. The value is counted in units of the least
    positive float, 2^-1074, so that every exponent is a natural number:
    the mantissa is the quotient by the unit of the exponent, rounded
    once, and a mantissa of 2^53 moves to the next exponent. Beyond the
    exponent 971 the result is infinite. *)
Definition round_ratio (s : bool) (p q : Z) : spec_float :=
  let P := p * 2 ^ 1074 in
  let E := exponent_of P q in
  if 2045 <? E then S754_infinity s
  else
    let '(a, b) := unit_ratio p q E in
    let m := div_half_even a b in
    let '(m, E) := if m =? 2 ^ 53 then (2 ^ 52, E + 1) else (m, E) in
    if 2045 <? E then S754_infinity s
    else
      match m with
      | Zpos mm => S754_finite s mm (E - 1074)
      | _ => S754_zero s
      end.

(** The binary64 number nearest to [d * 10^k], for [0 <= d]. *)
Definition of_decimal (s : bool) (d k : Z) : spec_float :=
  if 0 <=? k then round_ratio s (d * 10 ^ k) 1
  else round_ratio s d (10 ^ (- k)).

(** [float(n)] for an [int]: correctly rounded, [OverflowError] when the
    result would not be finite. *)
Definition of_int (n : Z) : result spec_float :=
  match round_ratio (n <? 0) (Z.abs n) 1 with
  | S754_infinity _ => Raise OverflowError
  | f => Ok f
  end.

(** [round(x, 2)]: the exact value of [x] is rounded, ties to even, to a
    decimal with two fractional digits, which is converted back to
    binary64. Infinities and NaN round to themselves. *)
Definition round2 (x : spec_float) : result spec_float :=
  match x with
  | S754_finite s m e =>
      let c :=
        if 0 <=? e then 100 * Zpos m * 2 ^ e
        else div_half_even (100 * Zpos m) (2 ^ (- e)) in
      match round_ratio s c 100 with
      | S754_infinity _ => Raise OverflowError
      | f => Ok f
      end
  | _ => Ok x
  end.

(** [int(x)]: truncation toward zero. *)
Definition to_int (x : spec_float) : result Z :=
  match x with
  | S754_zero _ => Ok 0
  | S754_infinity _ => Raise OverflowError
  | S754_nan => Raise ValueError
  | S754_finite s m e =>
      let a := if 0 <=? e then Zpos m * 2 ^ e else Zpos m / 2 ^ (- e) in
      Ok (if s then - a else a)
  end.

(** The exact comparison of a float with an [int], [None] for NaN. *)
Definition compare_int (x : spec_float) (n : Z) : option comparison :=
  match x with
  | S754_nan => None
  | S754_infinity s => Some (if s then Lt else Gt)
  | S754_zero _ => Some (0 ?= n)
  | S754_finite s m e =>
      let a := if s then Zneg m else Zpos m in
      Some (if 0 <=? e then a * 2 ^ e ?= n else a ?= n * 2 ^ (- e))
  end.

(** [x < n], [x <= n], [x > n], [x >= n]: all false on NaN. *)
Definition lt_int (x : spec_float) (n : Z) : bool :=
  match compare_int x n with Some Lt => true | _ => false end.
Definition le_int (x : spec_float) (n : Z) : bool :=
  match compare_int x n with Some (Lt | Eq) => true | _ => false end.
Definition gt_int (x : spec_float) (n : Z) : bool :=
  match compare_int x n with Some Gt => true | _ => false end.
Definition ge_int (x : spec_float) (n : Z) : bool :=
  match compare_int x n with Some (Gt | Eq) => true | _ => false end.

(** [x / n] for a float [x] and an [int] [n]. *)
Definition div_int (x : spec_float) (n : Z) : result spec_float :=
  y ← of_int n;
  match y with
  | S754_zero _ => Raise ZeroDivisionError
  | _ => Ok (SFdiv prec emax x y)
  end.

(** *** Reading a float: [float(s)] *)

Fixpoint span (p : ascii -> bool) (s : string) : string * string :=
  match s with
  | EmptyString => (EmptyString, EmptyString)
  | String c s' =>
      if p c then let '(a, b) := span p s' in (String c a, b)
      else (EmptyString, s)
  end.

Fixpoint digits_value (acc : Z) (s : string) : Z :=
  match s with
  | EmptyString => acc
  | String c s' => digits_value (10 * acc + Char.digit_value c) s'
  end.

Definition split_sign (s : string) : bool * string :=
  match s with
  | String "-" r => (true, r)
  | String "+" r => (false, r)
  | _ => (false, s)
  end.

(** Underscores may only stand between two digits. *)
Fixpoint underscores_ok (prev : option ascii) (s : string) : bool :=
  match s with
  | EmptyString => true
  | String c s' =>
      (if Ascii.eqb c "_" then
         match prev, s' with
         | Some a, String b _ => Char.isdecimal a && Char.isdecimal b
         | _, _ => false
         end
       else true) && underscores_ok (Some c) s'
  end.

(** The exponent part: empty, or [e] or [E], an optional sign and at
    least one digit. *)
Definition parse_exponent (s : string) : option Z :=
  match s with
  | EmptyString => Some 0
  | String c r =>
      if Ascii.eqb c "e" || Ascii.eqb c "E" then
        let '(neg, r1) := split_sign r in
        let '(ds, rest) := span Char.isdecimal r1 in
        if Str.is_empty ds || negb (Str.is_empty rest) then None
        else Some (if neg then - digits_value 0 ds else digits_value 0 ds)
      else None
  end.

(** The value [d * 10^k] read with sign [s] from [len] digits. Far
    outside the range of binary64 the result is known without computing
    the power of ten. *)
Definition of_digits (s : bool) (d k : Z) (len : nat) : spec_float :=
  if d =? 0 then S754_zero s
  else if 310 <? k then S754_infinity s
  else if k + Z.of_nat len <? - 330 then S754_zero s
  else of_decimal s d k.

Definition of_string (str : string) : result spec_float :=
  let t := Str.strip_by Char.isspace_num str in
  if negb (underscores_ok None t) then Raise ValueError
  else
    let '(neg, r) := split_sign (Str.remove "_" t) in
    let w := Str.lower r in
    if String.eqb w "inf" || String.eqb w "infinity" then Ok (S754_infinity neg)
    else if String.eqb w "nan" then Ok S754_nan
    else
      let '(ip, r1) := span Char.isdecimal r in
      let '(fp, r2) :=
        match r1 with
        | String "." r' => span Char.isdecimal r'
        | _ => (EmptyString, r1)
        end in
      if Str.is_empty ip && Str.is_empty fp then Raise ValueError
      else
        match parse_exponent r2 with
        | None => Raise ValueError
        | Some ex =>
            let ds := ip ++ fp in
            Ok (of_digits neg (digits_value 0 ds)
                  (ex - Str.len fp) (String.length ds))
        end.

End PyFloat.

(** ** Integers read from text: [int(s)] *)

Module PyInt.

Definition of_string (str : string) : result Z :=
  let t := Str.strip_by Char.isspace_num str in
  if negb (PyFloat.underscores_ok None t) then Raise ValueError
  else
    let '(neg, ds) := PyFloat.split_sign (Str.remove "_" t) in
    if Str.is_empty ds || negb (Str.all Char.isdecimal ds) then Raise ValueError
    else
      let n := PyFloat.digits_value 0 ds in
      Ok (if neg then - n else n).

End PyInt.

(** ** Values and dictionaries *)

(** A raw field of a row read by [csv.DictReader]: a [str], or [None] for a
    column that a short row leaves out. *)
Definition raw := option string.

(** A raw row. [row.get(k, d)] is [get row k d]: the default is used only
    when the column is not in the header at all. *)
Definition get (row : gmap string raw) (k : string) (d : string) : raw :=
  match row !! k with
  | Some v => v
  | None => Some d
  end.

(** The values stored in a cleaned record. *)
Inductive pyval : Type :=
  | VNone
  | VStr (s : string)
  | VInt (n : Z)
  | VFloat (x : spec_float).

Definition of_raw (v : raw) : pyval :=
  match v with
  | Some s => VStr s
  | None => VNone
  end.

(** [v.strip()]: [None] has no such attribute. *)
Definition strip_raw (v : raw) : result string :=
  match v with
  | Some s => Ok (Str.strip s)
  | None => Raise AttributeError
  end.

(** [not v] for a raw field. *)
Definition falsy (v : raw) : bool :=
  match v with
  | Some s => Str.is_empty s
  | None => true
  end.

(** A cleaned record: a [dict] in insertion order. *)
Definition record := list (string * pyval).

Fixpoint dict_get (r : record) (k : string) : option pyval :=
  match r with
  | [] => None
  | (k', v) :: r' => if String.eqb k' k then Some v else dict_get r' k
  end.

(** [r[k] = v]: in place for a key of the record, at the end otherwise. *)
Fixpoint dict_set (r : record) (k : string) (v : pyval) : record :=
  match r with
  | [] => [(k, v)]
  | (k', v') :: r' =>
      if String.eqb k' k then (k', v) :: r' else (k', v') :: dict_set r' k v
  end.

(** ** Field normalizers (the helper functions of the source) *)

(** The class [[\r\n\t]] of the first substitution of [clean_text]. *)
Definition is_crlftab (c : ascii) : bool :=
  (Char.code c =? 13) || (Char.code c =? 10) || (Char.code c =? 9).

Definition clean_text (text : raw) (max_length : option Z) : string :=
  match text with
  | None => ""
  | Some t =>
      if Str.is_empty t then ""
      else
        let t1 := Str.sub_runs is_crlftab t in
        let t2 := Str.sub_runs Char.isspace t1 in
        let t3 := Str.strip t2 in
        match max_length with
        | Some n =>
            if negb (n =? 0) && (n <? Str.len t3)
            then Str.slice_to (n - 3) t3 ++ "..."
            else t3
        | None => t3
        end
  end.

(** The characters that [clean_price] keeps: the class [[\d.]]. *)
Definition is_price_char (c : ascii) : bool :=
  Char.isdecimal c || Ascii.eqb c ".".

(** The body of the [try] block of [clean_price]. *)
Definition clean_price_try (price_str : string) : result spec_float :=
  let cleaned := Str.filter is_price_char price_str in
  if negb (Str.is_empty cleaned) then
    x ← PyFloat.of_string cleaned;
    PyFloat.round2 x
  else Ok PyFloat.zero.

Definition clean_price (price_str : raw) : spec_float :=
  if falsy price_str then PyFloat.zero
  else
    match price_str with
    | Some s => try_except (clean_price_try s) PyFloat.zero
    | None => PyFloat.zero
    end.

Definition is_na (value : raw) : bool :=
  match value with
  | Some s => String.eqb s "N/A"
  | None => false
  end.

Definition clean_float (value : raw) : spec_float :=
  if falsy value || is_na value then PyFloat.zero
  else
    match value with
    | Some s => try_except (PyFloat.of_string s) PyFloat.zero
    | None => PyFloat.zero
    end.

Definition clean_int (value : raw) : Z :=
  if falsy value || is_na value then 0
  else
    match value with
    | Some s => try_except (x ← PyFloat.of_string s; PyFloat.to_int x) 0
    | None => 0
    end.

Definition clean_percentage (percent_str : raw) : spec_float :=
  if falsy percent_str || is_na percent_str then PyFloat.zero
  else
    match percent_str with
    | Some s =>
        let cleaned := Str.strip (Str.remove "%" s) in
        try_except (PyFloat.of_string cleaned) PyFloat.zero
    | None => PyFloat.zero
    end.

(** [str(value)] for a raw field. *)
Definition str_of_raw (value : raw) : string :=
  match value with
  | Some s => s
  | None => "None"
  end.

Definition convert_boolean (value : raw) : Z :=
  let v := Str.lower (str_of_raw value) in
  if String.eqb v "t" || String.eqb v "true" || String.eqb v "1" || String.eqb v "yes"
  then 1 else 0.

Definition clean_amenities (amenities_str : raw) : Z :=
  match amenities_str with
  | None => 0
  | Some s =>
      if Str.is_empty s then 0
      else
        let cleaned := Str.strip_chars "{}" s in
        if negb (Str.is_empty cleaned) then
          let items := List.map Str.strip (Str.split "," cleaned) in
          Z.of_nat (List.length items)
        else 0
  end.

Definition simplify_room_type (room_type : raw) : string :=
  match room_type with
  | None => "Other"
  | Some s =>
      if Str.is_empty s then "Other"
      else
        let room_lower := Str.lower s in
        if Str.contains "entire" room_lower || Str.contains "apt" room_lower then "Entire"
        else if Str.contains "private" room_lower then "Private"
        else if Str.contains "shared" room_lower then "Shared"
        else "Other"
  end.

(** ** Categorizers *)

Definition categorize_price (price : spec_float) : string :=
  if PyFloat.le_int price 0 then "unknown"
  else if PyFloat.lt_int price 75 then "budget"
  else if PyFloat.lt_int price 150 then "moderate"
  else if PyFloat.lt_int price 300 then "expensive"
  else "luxury".

Definition categorize_reviews (count : Z) : string :=
  if count =? 0 then "no_reviews"
  else if count <? 5 then "few"
  else if count <? 20 then "moderate"
  else if count <? 50 then "many"
  else "very_popular".

Definition categorize_host (is_superhost : Z) (response_rate : spec_float) : string :=
  if negb (is_superhost =? 0) then "superhost"
  else if PyFloat.ge_int response_rate 90 then "responsive"
  else if PyFloat.ge_int response_rate 50 then "moderate"
  else "low_response".

Definition categorize_availability (days : Z) : string :=
  if days =? 0 then "not_available"
  else if days <? 30 then "rarely_available"
  else if days <? 180 then "occasionally_available"
  else if days <? 300 then "mostly_available"
  else "highly_available".

(** ** The record transformer and the pipeline driver *)

(** The outcome of one iteration of the row loop. *)
Inductive outcome : Type :=
  | Accepted (r : record)
  | Skipped
  | Errored (e : exn).

(** The counts reported by the handler. *)
Record metrics : Type := {
  raw_count : Z;
  clean_count : Z;
  removed_count : Z;
  error_count : Z
}.

Section Pipeline.

(** The date library: [reformat_date fmt s] is
    [datetime.strptime(s, fmt).strftime('%Y-%m-%d')], which raises when
    [s] does not match [fmt]. *)
Variable reformat_date : string -> string -> result string.

Fixpoint first_format (fmts : list string) (date_str : string) : string :=
  match fmts with
  | [] => date_str
  | fmt :: fmts' =>
      match reformat_date fmt date_str with
      | Ok d => d
      | Raise _ => first_format fmts' date_str
      end
  end.

Definition clean_date (date_str : raw) : string :=
  match date_str with
  | None => ""
  | Some s =>
      if Str.is_empty s then ""
      else first_format ["%Y/%m/%d"; "%Y-%m-%d"; "%m/%d/%Y"] s
  end.

(** [round(price / max(accommodates, 1), 2)] *)
Definition price_per_guest (price : spec_float) (accommodates : Z) : result spec_float :=
  q ← PyFloat.div_int price (Z.max accommodates 1);
  PyFloat.round2 q.

(** The dictionary display of the loop body; its entries are evaluated in
    order and the first exception leaves the display. *)
Definition build_record (row : gmap string raw) (price : spec_float) : result record :=
  id ← strip_raw (get row "id" "");
  host_id ← strip_raw (get row "host_id" "");
  neighbourhood ← strip_raw (get row "neighbourhood" "");
  neighbourhood_cleansed ← strip_raw (get row "neighbourhood_cleansed" "");
  neighbourhood_group_cleansed ← strip_raw (get row "neighbourhood_group_cleansed" "");
  city ← strip_raw (get row "city" "Seattle");
  state ← strip_raw (get row "state" "WA");
  zipcode ← strip_raw (get row "zipcode" "");
  ppg ← price_per_guest price (clean_int (get row "accommodates" "1"));
  Ok [
    ("id", VStr id);
    ("listing_url", of_raw (get row "listing_url" ""));
    ("last_scraped", of_raw (get row "last_scraped" ""));
    ("name", VStr (clean_text (get row "name" "") (Some 200)));
    ("description", VStr (clean_text (get row "description" "") (Some 1000)));
    ("property_type", of_raw (get row "property_type" "Unknown"));
    ("room_type", of_raw (get row "room_type" "Unknown"));
    ("host_id", VStr host_id);
    ("host_name", VStr (clean_text (get row "host_name" "") (Some 100)));
    ("host_since", VStr (clean_date (get row "host_since" "")));
    ("host_response_time", of_raw (get row "host_response_time" "N/A"));
    ("host_response_rate", VFloat (clean_percentage (get row "host_response_rate" "")));
    ("host_acceptance_rate", VFloat (clean_percentage (get row "host_acceptance_rate" "")));
    ("host_is_superhost", VInt (convert_boolean (get row "host_is_superhost" "f")));
    ("host_listings_count", VInt (clean_int (get row "host_listings_count" "0")));
    ("host_identity_verified", VInt (convert_boolean (get row "host_identity_verified" "f")));
    ("street", VStr (clean_text (get row "street" "") (Some 200)));
    ("neighbourhood", VStr neighbourhood);
    ("neighbourhood_cleansed", VStr neighbourhood_cleansed);
    ("neighbourhood_group_cleansed", VStr neighbourhood_group_cleansed);
    ("city", VStr city);
    ("state", VStr state);
    ("zipcode", VStr zipcode);
    ("latitude", VFloat (clean_float (get row "latitude" "0")));
    ("longitude", VFloat (clean_float (get row "longitude" "0")));
    ("is_location_exact", VInt (convert_boolean (get row "is_location_exact" "f")));
    ("accommodates", VInt (clean_int (get row "accommodates" "0")));
    ("bathrooms", VFloat (clean_float (get row "bathrooms" "0")));
    ("bedrooms", VInt (clean_int (get row "bedrooms" "0")));
    ("beds", VInt (clean_int (get row "beds" "0")));
    ("bed_type", of_raw (get row "bed_type" "Unknown"));
    ("amenities", VInt (clean_amenities (get row "amenities" "{}")));
    ("square_feet", VInt (clean_int (get row "square_feet" "0")));
    ("price", VFloat price);
    ("weekly_price", VFloat (clean_price (get row "weekly_price" "0")));
    ("monthly_price", VFloat (clean_price (get row "monthly_price" "0")));
    ("security_deposit", VFloat (clean_price (get row "security_deposit" "0")));
    ("cleaning_fee", VFloat (clean_price (get row "cleaning_fee" "0")));
    ("guests_included", VInt (clean_int (get row "guests_included" "1")));
    ("extra_people", VFloat (clean_price (get row "extra_people" "0")));
    ("minimum_nights", VInt (clean_int (get row "minimum_nights" "1")));
    ("maximum_nights", VInt (clean_int (get row "maximum_nights" "365")));
    ("instant_bookable", VInt (convert_boolean (get row "instant_bookable" "f")));
    ("cancellation_policy", of_raw (get row "cancellation_policy" "flexible"));
    ("has_availability", VInt (convert_boolean (get row "has_availability" "t")));
    ("availability_30", VInt (clean_int (get row "availability_30" "0")));
    ("availability_60", VInt (clean_int (get row "availability_60" "0")));
    ("availability_90", VInt (clean_int (get row "availability_90" "0")));
    ("availability_365", VInt (clean_int (get row "availability_365" "0")));
    ("number_of_reviews", VInt (clean_int (get row "number_of_reviews" "0")));
    ("first_review", VStr (clean_date (get row "first_review" "")));
    ("last_review", VStr (clean_date (get row "last_review" "")));
    ("review_scores_rating", VFloat (clean_float (get row "review_scores_rating" "0")));
    ("review_scores_accuracy", VFloat (clean_float (get row "review_scores_accuracy" "0")));
    ("review_scores_cleanliness", VFloat (clean_float (get row "review_scores_cleanliness" "0")));
    ("review_scores_checkin", VFloat (clean_float (get row "review_scores_checkin" "0")));
    ("review_scores_communication", VFloat (clean_float (get row "review_scores_communication" "0")));
    ("review_scores_location", VFloat (clean_float (get row "review_scores_location" "0")));
    ("review_scores_value", VFloat (clean_float (get row "review_scores_value" "0")));
    ("reviews_per_month", VFloat (clean_float (get row "reviews_per_month" "0")));
    ("price_category", VStr (categorize_price price));
    ("review_category", VStr (categorize_reviews (clean_int (get row "number_of_reviews" "0"))));
    ("host_category", VStr (categorize_host
                              (convert_boolean (get row "host_is_superhost" "f"))
                              (clean_percentage (get row "host_response_rate" ""))));
    ("availability_category", VStr (categorize_availability (clean_int (get row "availability_365" "0"))));
    ("room_type_simplified", VStr (simplify_room_type (get row "room_type" "")));
    ("is_professional_host", VInt (if 3 <? clean_int (get row "host_listings_count" "0") then 1 else 0));
    ("has_cleaning_fee", VInt (if PyFloat.gt_int (clean_price (get row "cleaning_fee" "0")) 0 then 1 else 0));
    ("price_per_guest", VFloat ppg)
  ].

(** The body of the [try] block of the row loop: [Ok None] is a
    [continue] before the record is built. *)
Definition transform_row (row : gmap string raw) : result (option record) :=
  id ← strip_raw (get row "id" "");
  blank ← (if Str.is_empty id
           then name ← strip_raw (get row "name" ""); Ok (Str.is_empty name)
           else Ok false);
  if (blank : bool) then Ok None
  else
    let price := clean_price (get row "price" "0") in
    if PyFloat.le_int price 0 || PyFloat.gt_int price 10000 then Ok None
    else
      id' ← strip_raw (get row "id" "");
      if Str.is_empty id' then Ok None
      else
        r ← build_record row price;
        Ok (Some r).

Definition process_row (row : gmap string raw) : outcome :=
  match transform_row row with
  | Ok (Some r) => Accepted r
  | Ok None => Skipped
  | Raise e => Errored e
  end.

(** One iteration of the loop on the pair [(cleaned_rows, error_count)]. *)
Definition loop_step (st : list record * Z) (row : gmap string raw) : list record * Z :=
  let '(cleaned_rows, errors) := st in
  match process_row row with
  | Accepted r => ((cleaned_rows ++ [r])%list, errors)
  | Skipped => (cleaned_rows, errors)
  | Errored _ => (cleaned_rows, errors + 1)
  end.

(** The row loop, from [cleaned_rows = []] and [error_count = 0]. *)
Definition transform_rows (raw_rows : list (gmap string raw)) : list record * Z :=
  fold_left loop_step raw_rows ([], 0).

(** The counts that the handler stores after the loop. *)
Definition run_metrics (raw_rows : list (gmap string raw)) : metrics :=
  let '(cleaned_rows, errors) := transform_rows raw_rows in
  let raw_n := Z.of_nat (List.length raw_rows) in
  let clean_n := Z.of_nat (List.length cleaned_rows) in
  {| raw_count := raw_n;
     clean_count := clean_n;
     removed_count := raw_n - clean_n;
     error_count := errors |}.

End Pipeline.

(** ** The handler of airbnb-transform.py *)

(** What the handler sees of the world: the object store, and the clock as
    the readings that successive calls of [datetime.now()] return. *)
Record world : Type := {
  objects : gmap (string * string) string;
  clock : nat -> Z;
  ticks : nat
}.

Definition now (w : world) : Z * world :=
  (clock w (ticks w),
   {| objects := objects w; clock := clock w; ticks := S (ticks w) |}).

Definition put_object (bucket key body : string) (w : world) : world :=
  {| objects := <[(bucket, key) := body]> (objects w);
     clock := clock w; ticks := ticks w |}.

Definition SOURCE_BUCKET : string := "airbnb-raw-data-han".
Definition SOURCE_KEY : string := "listings.csv".
Definition DEST_BUCKET : string := "airbnb-clean-data-han".

(** The response of the handler, with the rows it wrote. *)
Record response : Type := {
  statusCode : Z;
  output_key : option string;
  written_rows : list record;
  written_body : option string;
  counts : option metrics
}.

Section Handler.

Variable reformat_date : string -> string -> result string.
(** [list(csv.DictReader(StringIO(text)))] *)
Variable csv_rows : string -> list (gmap string raw).
(** The text that [csv.DictWriter] produces for the rows. *)
Variable csv_text : list record -> string.
(** [t.strftime('%Y%m%d_%H%M%S')] *)
Variable strftime : Z -> string.

Definition lambda_handler (w : world) : response * world :=
  let '(start_time, w1) := now w in
  match objects w1 !! (SOURCE_BUCKET, SOURCE_KEY) with
  | None =>
      ({| statusCode := 500; output_key := None; written_rows := [];
          written_body := None; counts := None |}, w1)
  | Some raw_data =>
      let raw_rows := csv_rows raw_data in
      let '(cleaned_rows, errors) := transform_rows reformat_date raw_rows in
      let m := run_metrics reformat_date raw_rows in
      match cleaned_rows with
      | _ :: _ =>
          let '(t, w2) := now w1 in
          let key := "clean_listings_" ++ strftime t ++ ".csv" in
          let csv_content := csv_text cleaned_rows in
          let w3 := put_object DEST_BUCKET key csv_content w2 in
          let '(end_time, w4) := now w3 in
          ({| statusCode := 200; output_key := Some key;
              written_rows := cleaned_rows;
              written_body := Some csv_content; counts := Some m |}, w4)
      | [] =>
          ({| statusCode := 400; output_key := None; written_rows := [];
              written_body := None; counts := Some m |}, w1)
      end
  end.

End Handler.

(** ** The post-processing stage of aribnb-transform-arm64.py *)

(** The sort key [int(x['id']) if x['id'].isdigit() else 0]. *)
Definition sort_key (x : record) : result Z :=
  match dict_get x "id" with
  | None => Raise KeyError
  | Some (VStr s) => if Str.isdigit s then PyInt.of_string s else Ok 0
  | Some _ => Raise AttributeError
  end.

(** [list.sort] is stable: an element goes before the first element whose
    key is not smaller, so it passes only elements of smaller key. The
    list is sorted from its end, which keeps earlier elements first among
    equal keys. *)
Fixpoint insert_by_key {A} (k : Z) (x : A) (l : list (Z * A)) : list (Z * A) :=
  match l with
  | [] => [(k, x)]
  | (k', y) :: l' =>
      if k' <? k then (k', y) :: insert_by_key k x l'
      else (k, x) :: l
  end.

Fixpoint sort_keyed {A} (l : list (Z * A)) : list (Z * A) :=
  match l with
  | [] => []
  | (k, x) :: l' => insert_by_key k x (sort_keyed l')
  end.

(** [rows.sort(key=...)]: the keys are computed first, and an exception of
    the key function leaves the sort before any element moves. *)
Definition sort_rows (rows : list record) : result (list record) :=
  keys ← mapM_result sort_key rows;
  Ok (List.map snd (sort_keyed (List.combine keys rows))).

(** [for i, row in enumerate(rows, start=i): row['sequential_id'] = i] *)
Fixpoint number_rows (i : Z) (rows : list record) : list record :=
  match rows with
  | [] => []
  | row :: rows' => dict_set row "sequential_id" (VInt i) :: number_rows (i + 1) rows'
  end.

(** The stage, which runs under [if cleaned_rows:]. *)
Definition postprocess (cleaned_rows : list record) : result (list record) :=
  match cleaned_rows with
  | [] => Ok []
  | _ :: _ =>
      sorted ← sort_rows cleaned_rows;
      Ok (number_rows 1 sorted)
  end.

(** ** The text of a float: [str(x)] and [repr(x)] *)

Module FloatRepr.

(** The character of a digit. *)
Definition digit_char (d : Z) : ascii := ascii_of_N (Z.to_N (48 + d)).

(** The numeral of [c] with [n] digits, for [0 <= c < 10^n]. *)
Fixpoint numeral (n : nat) (c : Z) : string :=
  match n with
  | O => EmptyString
  | S n' => String (digit_char (c / 10 ^ Z.of_nat n' mod 10)) (numeral n' c)
  end.

(** The number of digits of [c]: the least [n] from [n0] on with
    [c < 10^n]. *)
Fixpoint count_digits (fuel : nat) (c : Z) (n : nat) : nat :=
  if c <? 10 ^ Z.of_nat n then n
  else
    match fuel with
    | O => n
    | S fuel' => count_digits fuel' c (S n)
    end.

(** The decimal numeral of a natural number. *)
Definition decimal (c : Z) : string :=
  numeral (count_digits (Z.to_nat (Z.log2 c)) c 1) c.

(** [p / q < 10^d] *)
Definition below_pow10 (p q d : Z) : bool :=
  if 0 <=? d then p <? q * 10 ^ d else p * 10 ^ (- d) <? q.

(** The least [d] from [d0] on with [p / q < 10^d]. *)
Fixpoint point_from (fuel : nat) (p q d : Z) : Z :=
  if below_pow10 p q d then d
  else
    match fuel with
    | O => d
    | S fuel' => point_from fuel' p q (d + 1)
    end.

(** The position of the decimal point: the [d] with
    [10^(d-1) <= p / q < 10^d]. The search starts just below the
    estimate from the binary logarithms, or from the least position of
    a float, -330, when the estimate is too high. The greatest float is
    below 10^309. *)
Definition decimal_point (p q : Z) : Z :=
  let est := (Z.log2 p - Z.log2 q) * 30103 / 100000 - 1 in
  let d0 := Z.max (- 330) (Z.min 309 est) in
  if below_pow10 p q (d0 - 1) then point_from 700 p q (- 330)
  else point_from 700 p q d0.

(** The exact value of a positive float as a ratio. *)
Definition exact_ratio (m : positive) (e : Z) : Z * Z :=
  if 0 <=? e then (Zpos m * 2 ^ e, 1) else (Zpos m, 2 ^ (- e)).

Definition eqb (x y : spec_float) : bool :=
  match x, y with
  | S754_zero a, S754_zero b => Bool.eqb a b
  | S754_infinity a, S754_infinity b => Bool.eqb a b
  | S754_nan, S754_nan => true
  | S754_finite a m e, S754_finite b m' e' =>
      Bool.eqb a b && Pos.eqb m m' && (e =? e')
  | _, _ => false
  end.

(** The [n]-digit decimal that reads back as the positive float of
    mantissa [m] and exponent [e], the nearer one when both neighbours of
    the value do: the mantissa [c] of [c * 10^(d - n)]. *)
Definition candidate (m : positive) (e : Z) (d n : Z) : option Z :=
  let x := S754_finite false m e in
  let '(p, q) := exact_ratio m e in
  let k := d - n in
  let '(a, b) := if 0 <=? k then (p, q * 10 ^ k) else (p * 10 ^ (- k), q) in
  let lo := a / b in
  let r := a mod b in
  let lo_ok := eqb (PyFloat.of_decimal false lo k) x in
  let hi_ok := eqb (PyFloat.of_decimal false (lo + 1) k) x in
  if lo_ok && hi_ok then
    match 2 * r ?= b with
    | Lt => Some lo
    | Gt => Some (lo + 1)
    | Eq => Some (if Z.even lo then lo else lo + 1)
    end
  else if lo_ok then Some lo
  else if hi_ok then Some (lo + 1)
  else None.

(** The shortest decimal that reads back as the float: its mantissa and
    the exponent of ten, trying [n], [n + 1], ... digits. Seventeen
    digits always do, so the search ends long before the fuel. *)
Fixpoint shortest (fuel : nat) (m : positive) (e : Z) (d n : Z) : Z * Z :=
  match candidate m e d n with
  | Some c => (c, d - n)
  | None =>
      match fuel with
      | O => (0, 0)
      | S fuel' => shortest fuel' m e d (n + 1)
      end
  end.

(** The significant digits, without trailing zeros, and the position of
    the decimal point: the value is [0.digits * 10^point]. *)
Definition digits (m : positive) (e : Z) : string * Z :=
  let '(p, q) := exact_ratio m e in
  let d := decimal_point p q in
  let '(c, k) := shortest 800 m e d 1 in
  let s := decimal c in
  (Str.rstrip_by (fun ch => Ascii.eqb ch "0") s, k + Str.len s).

Fixpoint drop (n : nat) (s : string) : string :=
  match n, s with
  | S n', String _ s' => drop n' s'
  | _, _ => s
  end.

(** The exponent of the scientific form: a sign and at least two
    digits. *)
Definition exponent_text (x : Z) : string :=
  let a := decimal (Z.abs x) in
  (if x <? 0 then "-" else "+") ++ (if Str.len a <? 2 then "0" ++ a else a).

(** The layout of [repr]: scientific when the decimal point is more than
    16 places to the right or more than 4 to the left. *)
Definition layout (ds : string) (point : Z) : string :=
  let n := Str.len ds in
  if (point <=? - 4) || (16 <? point) then
    let frac := drop 1 ds in
    Str.take 1 ds ++ (if Str.is_empty frac then "" else "." ++ frac)
      ++ "e" ++ exponent_text (point - 1)
  else if point <=? 0 then
    "0." ++ Str.repeat "0" (Z.to_nat (- point)) ++ ds
  else if point <? n then
    Str.take (Z.to_nat point) ds ++ "." ++ drop (Z.to_nat point) ds
  else
    ds ++ Str.repeat "0" (Z.to_nat (point - n)) ++ ".0".

Definition repr (x : spec_float) : string :=
  match x with
  | S754_nan => "nan"
  | S754_infinity s => if s then "-inf" else "inf"
  | S754_zero s => if s then "-0.0" else "0.0"
  | S754_finite s m e =>
      let '(ds, point) := digits m e in
      (if s then "-" else "") ++ layout ds point
  end.

End FloatRepr.

(** ** The amenity counter in the words of the specification *)

Fixpoint ends_with (c : ascii) (s : string) : bool :=
  match s with
  | EmptyString => false
  | String d EmptyString => Ascii.eqb d c
  | String _ s' => ends_with c s'
  end.

(** In the words of the specification, to be compared with
    [clean_amenities]: a single pair of enclosing braces is removed. *)
Definition strip_brace_pair (s : string) : string :=
  match s with
  | String "{" s' =>
      if ends_with "}" s' then Str.take (Nat.pred (String.length s')) s' else s
  | _ => s
  end.

(** The count of the non-empty items, after trimming. *)
Definition spec_amenity_count (s : string) : Z :=
  let items := List.map Str.strip (Str.split "," (strip_brace_pair s)) in
  Z.of_nat (List.length (List.filter (fun item => negb (Str.is_empty item)) items)).


(** ** Predicates used in the statements *)

(** A text as [clean_text] leaves it before truncation: the only white
    space is the blank, and a blank stands between two other characters.
    [prev] tells that the previous character was white space. *)
Fixpoint spaced (prev : bool) (s : string) : bool :=
  match s with
  | EmptyString => negb prev
  | String c s' =>
      if Char.isspace c then Ascii.eqb c " " && negb prev && spaced true s'
      else spaced false s'
  end.

(** The text starts with a character that is not white space, and is
    otherwise as [spaced] says, except that it may end in a blank. *)
Fixpoint spaced_open (prev : bool) (s : string) : bool :=
  match s with
  | EmptyString => true
  | String c s' =>
      if Char.isspace c then Ascii.eqb c " " && negb prev && spaced_open true s'
      else spaced_open false s'
  end.

(** The result of [clean_text] for the text [t] and the limit [n]:
    bounded by the limit, exactly [n] long and ending in the ellipsis when
    the cleaned text was longer, and a fixed point of the cleaner. *)
Definition clean_text_spec (t : raw) (n : Z) : Prop :=
  let r := clean_text t (Some n) in
  Str.len r <= n
  /\ (n < Str.len (clean_text t None) ->
      Str.len r = n /\ r = Str.slice_to (n - 3) (clean_text t None) ++ "...")
  /\ clean_text (Some r) (Some n) = r.

(** The float is a number, infinite or not, of the given sign. *)
Definition has_sign (s : bool) (x : spec_float) : bool :=
  match x with
  | S754_zero s' | S754_infinity s' | S754_finite s' _ _ => Bool.eqb s s'
  | S754_nan => false
  end.

(** The text after the substitutions and the trimming of [clean_text]. *)
Definition normalized (t : string) : string :=
  Str.strip (Str.sub_runs Char.isspace (Str.sub_runs is_crlftab t)).

(** What an accepted record must carry: an [id] that is trimmed and not
    empty, and a [price] with [0 < price <= 10000]. *)
Definition valid_record (r : record) : Prop :=
  exists id price,
    dict_get r "id" = Some (VStr id)
    /\ Str.strip id = id /\ id <> ""
    /\ dict_get r "price" = Some (VFloat price)
    /\ PyFloat.gt_int price 0 = true
    /\ PyFloat.le_int price 10000 = true.

(** The conditions of the pre-validation on a raw row: the parsed price is
    within the bounds and the [id] is a text that is not blank. *)
Definition row_valid (row : gmap string raw) : bool :=
  let price := clean_price (get row "price" "0") in
  PyFloat.gt_int price 0 && PyFloat.le_int price 10000
  && match get row "id" "" with
     | Some s => negb (Str.is_empty (Str.strip s))
     | None => false
     end.

(** [price_per_guest] of the record is [round(price / max(accommodates, 1), 2)]
    for the [price] and the [accommodates] of the same record. *)
Definition price_per_guest_ok (r : record) : Prop :=
  exists price acc q ppg,
    dict_get r "price" = Some (VFloat price)
    /\ dict_get r "accommodates" = Some (VInt acc)
    /\ PyFloat.div_int price (Z.max acc 1) = Ok q
    /\ PyFloat.round2 q = Ok ppg
    /\ dict_get r "price_per_guest" = Some (VFloat ppg).

(** The three kinds of outcome. *)
Definition is_accepted (o : outcome) : bool :=
  match o with Accepted _ => true | _ => false end.
Definition is_skipped (o : outcome) : bool :=
  match o with Skipped => true | _ => false end.
Definition is_errored (o : outcome) : bool :=
  match o with Errored _ => true | _ => false end.

Section Outcomes.

Variable reformat_date : string -> string -> result string.

(** The records that the loop appends for a row: one or none. *)
Definition appended (row : gmap string raw) : list record :=
  match process_row reformat_date row with
  | Accepted r => [r]
  | _ => []
  end.

(** The number of rows with an outcome of the given kind. *)
Definition count_rows (kind : outcome -> bool) (rows : list (gmap string raw)) : Z :=
  Z.of_nat (List.length (List.filter (fun row => kind (process_row reformat_date row)) rows)).

(** How the counts move when one more row is processed. *)
Definition counts_step (rows : list (gmap string raw)) (row : gmap string raw) : Prop :=
  let m := run_metrics reformat_date rows in
  let m' := run_metrics reformat_date (rows ++ [row])%list in
  raw_count m' = raw_count m + 1
  /\ match process_row reformat_date row with
     | Accepted _ =>
         clean_count m' = clean_count m + 1
         /\ removed_count m' = removed_count m
         /\ error_count m' = error_count m
     | Skipped =>
         clean_count m' = clean_count m
         /\ removed_count m' = removed_count m + 1
         /\ error_count m' = error_count m
     | Errored _ =>
         clean_count m' = clean_count m
         /\ removed_count m' = removed_count m + 1
         /\ error_count m' = error_count m + 1
     end.

(** The claim that the rejections are counted apart from the errors, with
    [removed_count] as the count of rejections: a row that raises moves
    the count of errors only. *)
Definition rejections_apart_from_errors (rows : list (gmap string raw))
    (row : gmap string raw) : Prop :=
  let m := run_metrics reformat_date rows in
  let m' := run_metrics reformat_date (rows ++ [row])%list in
  match process_row reformat_date row with
  | Errored _ =>
      error_count m' = error_count m + 1 /\ removed_count m' = removed_count m
  | Skipped =>
      error_count m' = error_count m /\ removed_count m' = removed_count m + 1
  | Accepted _ =>
      error_count m' = error_count m /\ removed_count m' = removed_count m
  end.

End Outcomes.

(** The key under which a record is sorted, when the key function
    returns. *)
Definition key_of (r : record) : Z := try_except (sort_key r) 0.

(** The key function returns on every record of the list. *)
Definition keys_defined (rows : list record) : bool :=
  forallb (fun r => is_ok (sort_key r)) rows.

(** The record without its [sequential_id]. *)
Definition unnumbered (r : record) : record :=
  List.filter (fun kv => negb (String.eqb (fst kv) "sequential_id")) r.

(** The records of key [k], in the order of the list. *)
Definition of_key (k : Z) (rows : list record) : list record :=
  List.filter (fun r => key_of r =? k) rows.

(** The [sequential_id] values of the records, in the order of the list. *)
Definition sequential_ids (rows : list record) : list (option pyval) :=
  List.map (fun r => dict_get r "sequential_id") rows.

(** [VInt i; VInt (i + 1); ...], [n] of them. *)
Fixpoint counting_from (i : Z) (n : nat) : list (option pyval) :=
  match n with
  | O => []
  | S n' => Some (VInt i) :: counting_from (i + 1) n'
  end.

(** The order of the sort: by key. *)
Definition key_le {A} (a b : Z * A) : Prop := fst a <= fst b.

(** The records with their keys, as the sort sees them. *)
Definition tagged (rows : list record) : list (Z * record) :=
  List.map (fun r => (key_of r, r)) rows.

(** The number that a decimal numeral denotes as a float. *)
Definition float_lit (s : string) : spec_float :=
  try_except (PyFloat.of_string s) PyFloat.nan.

(** The currency parser returns [x] for the text of its own result [x]. *)
Definition reparses (x : spec_float) : Prop :=
  clean_price (Some (FloatRepr.repr x)) = x.

(** A result of the currency parser: zero, infinity, or the float nearest
    to a decimal [c / 100] with two fractional digits. *)
Definition two_decimals (x : spec_float) : Prop :=
  x = PyFloat.inf false \/ exists c, 0 <= c /\ x = PyFloat.round_ratio false c 100.

(** ** The nearest float *)

(** [m] is the integer nearest to [a / b] seen from above and from below,
    a tie going to an even [m]. *)
Definition near_above (a b m : Z) : Prop :=
  2 * (a - m * b) < b \/ (2 * (a - m * b) = b /\ Z.even m = true).
Definition near_below (a b m : Z) : Prop :=
  2 * (m * b - a) < b \/ (2 * (m * b - a) = b /\ Z.even m = true).

(** The mantissa [m] and the exponent [E], counted from the least one,
    of a positive binary64 number: 53 bits, or fewer at the exponent 0. *)
Definition canonical (m E : Z) : Prop :=
  0 <= E <= 2045 /\ ((2 ^ 52 <= m < 2 ^ 53) \/ (0 < m < 2 ^ 52 /\ E = 0)).

(** The float of mantissa [m] and exponent [E] is the one nearest to
    [P / q] units, ties to even. Below a power of two the floats are twice
    as dense, so the value may be a quarter of the unit below only. *)
Definition nearest (P q m E : Z) : Prop :=
  let b := q * 2 ^ E in
  near_above P b m
  /\ (if (m =? 2 ^ 52) && (0 <? E) then 4 * (m * b - P) <= b else near_below P b m).

(** The ratio [p / q] rounds to the float of mantissa [m] and exponent
    [E]. *)
Definition rounds_to (p q m E : Z) : Prop :=
  canonical m E /\ nearest (p * 2 ^ 1074) q m E.


(** ** Predicates on rows and records *)

(** The columns that the loop body strips: a short row, which
    [csv.DictReader] fills with [None], has no [strip]. *)
Definition stripped_columns : list string :=
  ["id"; "name"; "host_id"; "neighbourhood"; "neighbourhood_cleansed";
   "neighbourhood_group_cleansed"; "city"; "state"; "zipcode"].

(** The exception is the [AttributeError] of a stripped column that the
    row leaves out. *)
Definition short_row_error (row : gmap string raw) (e : exn) : Prop :=
  e = AttributeError /\ exists k, In k stripped_columns /\ row !! k = Some None.

(** The keys of a cleaned record, in the order of the dictionary
    display. *)
Definition record_keys : list string :=
  ["id"; "listing_url"; "last_scraped"; "name"; "description"; "property_type";
   "room_type"; "host_id"; "host_name"; "host_since"; "host_response_time";
   "host_response_rate"; "host_acceptance_rate"; "host_is_superhost";
   "host_listings_count"; "host_identity_verified"; "street"; "neighbourhood";
   "neighbourhood_cleansed"; "neighbourhood_group_cleansed"; "city"; "state";
   "zipcode"; "latitude"; "longitude"; "is_location_exact"; "accommodates";
   "bathrooms"; "bedrooms"; "beds"; "bed_type"; "amenities"; "square_feet";
   "price"; "weekly_price"; "monthly_price"; "security_deposit"; "cleaning_fee";
   "guests_included"; "extra_people"; "minimum_nights"; "maximum_nights";
   "instant_bookable"; "cancellation_policy"; "has_availability";
   "availability_30"; "availability_60"; "availability_90"; "availability_365";
   "number_of_reviews"; "first_review"; "last_review"; "review_scores_rating";
   "review_scores_accuracy"; "review_scores_cleanliness"; "review_scores_checkin";
   "review_scores_communication"; "review_scores_location"; "review_scores_value";
   "reviews_per_month"; "price_category"; "review_category"; "host_category";
   "availability_category"; "room_type_simplified"; "is_professional_host";
   "has_cleaning_fee"; "price_per_guest"].

(** A text of at most [n] characters as [clean_text] leaves it: empty,
    or with single blanks inside as its only white space. *)
Definition text_field (r : record) (n : Z) (k : string) : Prop :=
  exists s, dict_get r k = Some (VStr s)
            /\ Str.len s <= n /\ (s = "" \/ spaced true s = true).

(** A field that is 0 or 1. *)
Definition flag_field (r : record) (k : string) : Prop :=
  exists b, dict_get r k = Some (VInt b) /\ (b = 0 \/ b = 1).

(** An amount of money: a float that is not negative and not NaN, with
    two fractional digits, or infinite. *)
Definition amount_field (r : record) (k : string) : Prop :=
  exists x, dict_get r k = Some (VFloat x)
            /\ has_sign false x = true /\ two_decimals x.

(** A text without white space at its ends. *)
Definition stripped_field (r : record) (k : string) : Prop :=
  exists s, dict_get r k = Some (VStr s) /\ Str.strip s = s.

(** What every cleaned record carries: the 68 keys in their order, the
    bounded texts, the stripped texts, the flags, the amounts, the price
    per guest among them, and the count of amenities. *)
Definition record_schema (r : record) : Prop :=
  List.map fst r = record_keys
  /\ text_field r 200 "name" /\ text_field r 1000 "description"
  /\ text_field r 100 "host_name" /\ text_field r 200 "street"
  /\ Forall (stripped_field r)
       ["id"; "host_id"; "neighbourhood"; "neighbourhood_cleansed";
        "neighbourhood_group_cleansed"; "city"; "state"; "zipcode"]
  /\ Forall (flag_field r)
       ["host_is_superhost"; "host_identity_verified"; "is_location_exact";
        "instant_bookable"; "has_availability"; "is_professional_host";
        "has_cleaning_fee"]
  /\ Forall (amount_field r)
       ["price"; "weekly_price"; "monthly_price"; "security_deposit";
        "cleaning_fee"; "extra_people"; "price_per_guest"]
  /\ exists n, dict_get r "amenities" = Some (VInt n) /\ 0 <= n.

(** The engineered features of a record are those of its own cleaned
    fields, and the category of the price is never ["unknown"]. *)
Definition features_consistent (r : record) : Prop :=
  exists price reviews superhost rate days listings fee,
    dict_get r "price" = Some (VFloat price)
    /\ dict_get r "number_of_reviews" = Some (VInt reviews)
    /\ dict_get r "host_is_superhost" = Some (VInt superhost)
    /\ dict_get r "host_response_rate" = Some (VFloat rate)
    /\ dict_get r "availability_365" = Some (VInt days)
    /\ dict_get r "host_listings_count" = Some (VInt listings)
    /\ dict_get r "cleaning_fee" = Some (VFloat fee)
    /\ dict_get r "price_category" = Some (VStr (categorize_price price))
    /\ categorize_price price <> "unknown"
    /\ dict_get r "review_category" = Some (VStr (categorize_reviews reviews))
    /\ dict_get r "host_category" = Some (VStr (categorize_host superhost rate))
    /\ dict_get r "availability_category" = Some (VStr (categorize_availability days))
    /\ dict_get r "is_professional_host" = Some (VInt (if 3 <? listings then 1 else 0))
    /\ dict_get r "has_cleaning_fee" = Some (VInt (if PyFloat.gt_int fee 0 then 1 else 0)).



(** ** Tactics *)

(** Case analysis on the [strip] calls of a record display. *)
Ltac bind_cases :=
  repeat match goal with
  | |- context [strip_raw ?v] =>
      let s := fresh "s" in
      destruct v as [s|] eqn:?; cbn [strip_raw mbind result_bind];
      [|discriminate]
  end.

(** ** Concrete inputs *)

(** A date library that recognises no date, for rows without dates. *)
Definition no_dates : string -> string -> result string :=
  fun _ _ => Raise ValueError.

(** The three rows of the end-to-end example. *)
Definition listing_10 : gmap string raw :=
  <["price" := Some "$1,200.50"]> (<["id" := Some "10"]>
  (<["accommodates" := Some "4"]> (<["host_listings_count" := Some "5"]> ∅))).
Definition listing_11 : gmap string raw :=
  <["price" := Some "0"]> (<["id" := Some "11"]> ∅).
Definition listing_no_id : gmap string raw :=
  <["id" := Some ""]> (<["price" := Some "50"]> ∅).

(** What the end-to-end example expects, for a given [price_per_guest]:
    the first row alone is accepted, the other two are rejected and no row
    raises. *)
Definition end_to_end (D : string -> string -> result string) (ppg : string) : Prop :=
  exists r,
    transform_rows D [listing_10; listing_11; listing_no_id] = ([r], 0)
    /\ process_row D listing_10 = Accepted r
    /\ process_row D listing_11 = Skipped
    /\ process_row D listing_no_id = Skipped
    /\ dict_get r "price" = Some (VFloat (float_lit "1200.5"))
    /\ dict_get r "price_category" = Some (VStr "luxury")
    /\ dict_get r "is_professional_host" = Some (VInt 1)
    /\ dict_get r "price_per_guest" = Some (VFloat (float_lit ppg)).

(** A short row: the header has a column [host_id] that the row leaves
    out, so the reader stores [None] for it. *)
Definition short_row : gmap string raw :=
  <["id" := Some "7"]> (<["price" := Some "50"]> (<["host_id" := None]> ∅)).

(** A row whose [id] is the superscript digit two. *)
Definition superscript_row : gmap string raw :=
  <["id" := Some (String "178" "")]> (<["price" := Some "50"]> ∅).

(** A row with a plain [id]. *)
Definition plain_row (id : string) : gmap string raw :=
  <["id" := Some id]> (<["price" := Some "50"]> ∅).

(** * Examples: the model run on concrete inputs *)

Example strip_ex : Str.strip "  a b	 " = "a b".
Proof. reflexivity. Qed.

Example split_ex : Str.split "," "TV,,Wifi" = ["TV"; ""; "Wifi"].
Proof. reflexivity. Qed.

Example sub_runs_ex : Str.sub_runs Char.isspace "a  b 	c" = "a b c".
Proof. reflexivity. Qed.

Example float_of_string_ex1 :
  PyFloat.of_string "1200.50" = Ok (S754_finite false 5279854836580352 (-42)).
Proof. reflexivity. Qed.

Example float_of_string_ex2 : PyFloat.of_string "1.2.3" = Raise ValueError.
Proof. reflexivity. Qed.

Example float_round2_ex :
  (x ← PyFloat.of_string "2.675"; PyFloat.round2 x) = PyFloat.of_string "2.67".
Proof. reflexivity. Qed.

Example int_of_string_ex : PyInt.of_string "007" = Ok 7.
Proof. reflexivity. Qed.

Example clean_text_ex : clean_text (Some "  a
 b  ") (Some 200) = "a b".
Proof. reflexivity. Qed.

Example clean_int_ex : clean_int (Some "2.0") = 2 /\ clean_int (Some "abc") = 0.
Proof. split; reflexivity. Qed.

Example clean_percentage_ex : Some (clean_percentage (Some "85%")) = Some (try_except (PyFloat.of_string "85.0") PyFloat.zero).
Proof. reflexivity. Qed.

Example sort_rows_ex :
  sort_rows [[("id", VStr "10")]; [("id", VStr "x")]; [("id", VStr "9")]; [("id", VStr "")]]
  = Ok [[("id", VStr "x")]; [("id", VStr "")]; [("id", VStr "9")]; [("id", VStr "10")]].
Proof. reflexivity. Qed.

Example spec_amenity_count_ex :
  spec_amenity_count "{TV,,Wifi}" = 2 /\ spec_amenity_count "{TV,}" = 1
  /\ spec_amenity_count "" = 0 /\ spec_amenity_count "{}" = 0.
Proof. repeat split; reflexivity. Qed.

Example clean_price_reparses_ex :
  clean_price (Some "$1,200.50") = float_lit "1200.5"
  /\ FloatRepr.repr (clean_price (Some "$1,200.50")) = "1200.5"
  /\ reparses (clean_price (Some "$1,200.50")).
Proof. unfold reparses. repeat split; vm_compute; reflexivity. Qed.

(** * Properties *)

(** ** Strings *)

Section StringFacts.

Variable p : ascii -> bool.

Lemma split_nonempty sep s : Str.split sep s <> [].
Proof.
  destruct s as [|c s]; simpl; [discriminate|].
  destruct (Ascii.eqb c sep); [discriminate|].
  destruct (Str.split sep s); discriminate.
Qed.

(** A split has one item more than there are separators. *)
Lemma split_length sep s :
  List.length (Str.split sep s) = S (Str.count (fun c => Ascii.eqb c sep) s).
Proof.
  induction s as [|c s IH]; simpl; [reflexivity|].
  destruct (Ascii.eqb c sep); simpl; [now rewrite IH|].
  destruct (Str.split sep s) eqn:E; simpl in *; [discriminate|exact IH].
Qed.

Lemma lstrip_by_all s : Str.all p s = true -> Str.lstrip_by p s = "".
Proof.
  induction s as [|c s IH]; simpl; [reflexivity|].
  destruct (p c); simpl; [exact IH|discriminate].
Qed.

Lemma rstrip_by_all s : Str.all p s = true -> Str.rstrip_by p s = "".
Proof.
  induction s as [|c s IH]; simpl; [reflexivity|].
  destruct (p c); simpl; [|discriminate].
  intros H. rewrite (IH H). reflexivity.
Qed.

End StringFacts.

(** ** The amenity counter *)

(** What [clean_amenities] computes on a string: all braces at both ends
    are removed, and the items of the rest are counted, empty or not. *)
Lemma clean_amenities_counts_items (s : string) :
  clean_amenities (Some s) =
    let cleaned := Str.strip_chars "{}" s in
    if Str.is_empty cleaned then 0
    else Z.of_nat (S (Str.count (fun c => Ascii.eqb c ",") cleaned)).
Proof.
  unfold clean_amenities. destruct (Str.is_empty s) eqn:Es.
  - destruct s; [reflexivity|discriminate].
  - cbv zeta. destruct (Str.is_empty (Str.strip_chars "{}" s)); simpl; [reflexivity|].
    now rewrite length_map, split_length.
Qed.

(** ** The text cleaner *)

Section CleanText.

Local Abbreviation ws := Char.isspace.

Lemma crlftab_isspace c : is_crlftab c = true -> ws c = true.
Proof.
  unfold is_crlftab, Char.isspace, Char.between.
  intros H. repeat (apply orb_prop in H; destruct H as [H|H]);
    apply Z.eqb_eq in H; rewrite H; reflexivity.
Qed.

Lemma blank_eqb c : Ascii.eqb c " " = true -> c = " "%char.
Proof. apply Ascii.eqb_eq. Qed.

Lemma spaced_is_open s : forall b, spaced b s = true -> spaced_open b s = true.
Proof.
  induction s as [|c s IH]; intros b; simpl; [reflexivity|].
  destruct (ws c).
  - intros H. apply andb_prop in H as [H1 H2]. rewrite H1. simpl. now apply IH.
  - apply IH.
Qed.

(** The second substitution leaves a text in which blanks are single. *)
Lemma sub_runs_spaced s : forall b, spaced_open b (Str.sub_runs_from ws b s) = true.
Proof.
  induction s as [|c s IH]; intros b; simpl; [reflexivity|].
  destruct (ws c) eqn:E.
  - destruct b; [apply IH|]. simpl. apply IH.
  - simpl. rewrite E. apply IH.
Qed.

Lemma spaced_open_start s : forall b,
  spaced_open b s = true -> spaced_open true (Str.lstrip_by ws s) = true.
Proof.
  induction s as [|c s IH]; intros b; simpl; [reflexivity|].
  destruct (ws c) eqn:E.
  - intros H. apply andb_prop in H as [_ H]. now apply (IH true).
  - intros H. simpl. now rewrite E.
Qed.

Lemma spaced_open_end s : forall b,
  spaced_open b s = true ->
  Str.rstrip_by ws s = "" \/ spaced b (Str.rstrip_by ws s) = true.
Proof.
  induction s as [|c s IH]; intros b; simpl; [now left|].
  destruct (ws c) eqn:E.
  - intros H. apply andb_prop in H as [H1 H2].
    destruct (IH true H2) as [R|R].
    + rewrite R. simpl. now left.
    + right. destruct (Str.rstrip_by ws s) eqn:Er; [discriminate R|].
      cbn [Str.is_empty andb]. cbn [spaced]. rewrite E, H1. exact R.
  - intros H. right. rewrite andb_false_r. simpl. rewrite E.
    destruct (IH false H) as [R|R]; [now rewrite R|exact R].
Qed.

(** A text with single blanks is a fixed point of both substitutions and
    of the trimming. *)
Lemma spaced_sub_runs_ws s : forall b,
  spaced_open b s = true -> Str.sub_runs_from ws b s = s.
Proof.
  induction s as [|c s IH]; intros b; simpl; [reflexivity|].
  destruct (ws c) eqn:E.
  - intros H. apply andb_prop in H as [H1 H2]. apply andb_prop in H1 as [H0 H1].
    destruct b; [discriminate H1|].
    rewrite (IH true H2). now rewrite (blank_eqb _ H0).
  - intros H. now rewrite (IH false H).
Qed.

Lemma spaced_sub_runs_crlftab s : forall b b',
  spaced_open b s = true -> Str.sub_runs_from is_crlftab b' s = s.
Proof.
  induction s as [|c s IH]; intros b b'; simpl; [reflexivity|].
  destruct (ws c) eqn:E.
  - intros H. apply andb_prop in H as [H1 H2]. apply andb_prop in H1 as [H0 _].
    rewrite (blank_eqb _ H0). simpl. now rewrite (IH true false H2).
  - intros H. destruct (is_crlftab c) eqn:Ec.
    + apply crlftab_isspace in Ec. congruence.
    + now rewrite (IH false false H).
Qed.

Lemma spaced_lstrip s : spaced true s = true -> Str.lstrip_by ws s = s.
Proof.
  destruct s as [|c s]; simpl; [reflexivity|].
  destruct (ws c); [|reflexivity].
  rewrite andb_false_r. discriminate.
Qed.

Lemma spaced_rstrip s : forall b, spaced b s = true -> Str.rstrip_by ws s = s.
Proof.
  induction s as [|c s IH]; intros b; simpl; [reflexivity|].
  destruct (ws c) eqn:E.
  - intros H. apply andb_prop in H as [_ H]. rewrite (IH true H).
    destruct s; [discriminate H|reflexivity].
  - intros H. rewrite (IH false H). now rewrite andb_false_r.
Qed.

Lemma spaced_open_take k : forall s b,
  spaced_open b s = true -> spaced_open b (Str.take k s) = true.
Proof.
  induction k as [|k IH]; intros [|c s] b; simpl; try reflexivity.
  destruct (ws c).
  - intros H. apply andb_prop in H as [H1 H2]. rewrite H1. simpl. now apply IH.
  - apply IH.
Qed.

Lemma spaced_ellipsis s : forall b,
  spaced_open b s = true -> spaced b (s ++ "...") = true.
Proof.
  induction s as [|c s IH]; intros b; simpl; [reflexivity|].
  destruct (ws c).
  - intros H. apply andb_prop in H as [H1 H2]. rewrite H1. simpl. now apply IH.
  - apply IH.
Qed.

Lemma take_length k : forall s,
  (k <= String.length s)%nat -> String.length (Str.take k s) = k.
Proof.
  induction k as [|k IH]; intros [|c s]; simpl; intros H; try reflexivity; try lia.
  rewrite IH; lia.
Qed.

Lemma append_length (s t : string) :
  String.length (s ++ t) = (String.length s + String.length t)%nat.
Proof. induction s as [|c s IH]; simpl; [reflexivity|now rewrite IH]. Qed.

Lemma normalized_spaced t : normalized t = "" \/ spaced true (normalized t) = true.
Proof.
  unfold normalized, Str.strip, Str.strip_by, Str.sub_runs.
  apply spaced_open_end, (spaced_open_start _ false), sub_runs_spaced.
Qed.

Lemma spaced_normalized s : spaced true s = true -> normalized s = s.
Proof.
  intros H. unfold normalized, Str.strip, Str.strip_by, Str.sub_runs.
  pose proof (spaced_is_open _ _ H) as Ho.
  assert (Hf : spaced_open false s = true).
  { destruct s as [|c s]; [reflexivity|]. simpl in *.
    destruct (ws c); [now rewrite andb_false_r in Ho|exact Ho]. }
  rewrite (spaced_sub_runs_crlftab _ _ _ Hf), (spaced_sub_runs_ws _ _ Hf).
  rewrite (spaced_lstrip _ H). now apply spaced_rstrip with (b := true).
Qed.

Lemma clean_text_unbounded t :
  clean_text (Some t) None = if Str.is_empty t then "" else normalized t.
Proof. reflexivity. Qed.

Lemma clean_text_bounded t n :
  clean_text (Some t) (Some n) =
    if Str.is_empty t then ""
    else if negb (n =? 0) && (n <? Str.len (normalized t))
         then Str.slice_to (n - 3) (normalized t) ++ "..."
         else normalized t.
Proof. reflexivity. Qed.

(** The cleaner is bounded by its limit and idempotent, for every limit
    that leaves room for the ellipsis. *)
Lemma clean_text_bounded_idempotent (t : raw) (n : Z) :
  3 <= n -> clean_text_spec t n.
Proof.
  intros Hn. unfold clean_text_spec. cbv zeta.
  destruct t as [t|].
  2:{ unfold Str.len. simpl. repeat split; try lia; intros; lia. }
  rewrite clean_text_unbounded, clean_text_bounded.
  destruct (Str.is_empty t) eqn:Et.
  { unfold Str.len. simpl. repeat split; try lia; intros; lia. }
  set (u := normalized t).
  assert (Hz : (n =? 0) = false) by (apply Z.eqb_neq; lia).
  rewrite Hz. cbn [negb andb].
  destruct (n <? Str.len u) eqn:Hlt.
  - apply Z.ltb_lt in Hlt.
    assert (Hu : spaced true u = true).
    { destruct (normalized_spaced t) as [E|E]; [|exact E].
      fold u in E. rewrite E in Hlt. unfold Str.len in Hlt. simpl in Hlt. lia. }
    unfold Str.slice_to. replace (n - 3 <? 0) with false by (symmetry; apply Z.ltb_ge; lia).
    set (r := Str.take (Z.to_nat (n - 3)) u ++ "...").
    assert (Hlen : Str.len r = n).
    { unfold r, Str.len. rewrite append_length, take_length.
      - simpl. lia.
      - unfold Str.len in Hlt. lia. }
    assert (Hr : spaced true r = true).
    { apply spaced_ellipsis, spaced_open_take, spaced_is_open, Hu. }
    split; [lia|]. split; [intros _; split; [exact Hlen|reflexivity]|].
    rewrite clean_text_bounded, (spaced_normalized _ Hr), Hz, Hlen.
    rewrite Z.ltb_irrefl. cbn [negb andb].
    destruct r; [discriminate Hr|reflexivity].
  - apply Z.ltb_ge in Hlt. split; [exact Hlt|]. split; [intros; lia|].
    rewrite clean_text_bounded.
    destruct (normalized_spaced t) as [E|E]; fold u in E.
    + rewrite E. reflexivity.
    + rewrite (spaced_normalized _ E), Hz.
      replace (n <? Str.len u) with false by (symmetry; apply Z.ltb_ge; lia).
      destruct u; [discriminate E|reflexivity].
Qed.

End CleanText.

(** ** Rounding to the nearest float *)

Section Rounding.

Lemma pow2_pos e : 0 <= e -> 0 < 2 ^ e.
Proof. intros. apply Z.pow_pos_nonneg; lia. Qed.

Lemma pow2_succ e : 0 <= e -> 2 ^ (e + 1) = 2 * 2 ^ e.
Proof. intros. rewrite Z.pow_add_r by lia. change (2 ^ 1) with 2. lia. Qed.

Lemma pow2_le a b : 0 <= a <= b -> 2 ^ a <= 2 ^ b.
Proof. intros. apply Z.pow_le_mono_r; lia. Qed.

Lemma pow2_lt a b : 0 <= a < b -> 2 ^ a < 2 ^ b.
Proof. intros. apply Z.pow_lt_mono_r; lia. Qed.

Lemma log2_ratio_spec P q :
  0 < q <= P ->
  0 <= PyFloat.log2_ratio P q /\ q * 2 ^ PyFloat.log2_ratio P q <= P < q * 2 ^ (PyFloat.log2_ratio P q + 1).
Proof.
  intros [Hq HP]. unfold PyFloat.log2_ratio.
  assert (HP0 : 0 < P) by lia.
  destruct (Z.log2_spec P HP0) as [P1 P2]. destruct (Z.log2_spec q Hq) as [Q1 Q2].
  pose proof (Z.log2_nonneg P) as LP. pose proof (Z.log2_nonneg q) as LQ.
  assert (Hle : Z.log2 q <= Z.log2 P) by (apply Z.log2_le_mono; lia).
  set (lp := Z.log2 P) in *. set (lq := Z.log2 q) in *.
  set (d := lp - lq).
  assert (Hd : 0 <= d) by (unfold d; lia).
  assert (Elp : 2 ^ lp = 2 ^ lq * 2 ^ d).
  { rewrite <- Z.pow_add_r by lia. f_equal. unfold d. lia. }
  replace (Z.succ lp) with (lp + 1) in P2 by lia.
  replace (Z.succ lq) with (lq + 1) in Q2 by lia.
  rewrite pow2_succ in P2, Q2 by lia.
  pose proof (pow2_pos d Hd) as Dp. pose proof (pow2_pos lq LQ) as Qp.
  destruct (q * 2 ^ d <=? P) eqn:E.
  - apply Z.leb_le in E. split; [exact Hd|]. split; [exact E|].
    rewrite pow2_succ by lia. nia.
  - apply Z.leb_gt in E.
    assert (d <> 0) by (intros Hz; rewrite Hz in E; simpl in E; lia).
    assert (Hd1 : 0 <= d - 1) by lia.
    split; [exact Hd1|]. replace (d - 1 + 1) with d by lia. split; [|exact E].
    replace d with ((d - 1) + 1) in Elp by lia. rewrite pow2_succ in Elp by lia.
    pose proof (pow2_pos (d - 1) Hd1). nia.
Qed.

Lemma floor_log2_unique P q a b :
  0 < q -> 0 <= a -> 0 <= b ->
  q * 2 ^ a <= P < q * 2 ^ (a + 1) -> q * 2 ^ b <= P < q * 2 ^ (b + 1) -> a = b.
Proof.
  intros Hq Ha Hb [A1 A2] [B1 B2].
  destruct (Z.lt_trichotomy a b) as [H|[H|H]]; [|exact H|]; exfalso.
  - assert (2 ^ (a + 1) <= 2 ^ b) by (apply pow2_le; lia).
    assert (q * 2 ^ (a + 1) <= q * 2 ^ b) by (apply Z.mul_le_mono_nonneg_l; lia). lia.
  - assert (2 ^ (b + 1) <= 2 ^ a) by (apply pow2_le; lia).
    assert (q * 2 ^ (b + 1) <= q * 2 ^ a) by (apply Z.mul_le_mono_nonneg_l; lia). lia.
Qed.

Lemma div_half_even_spec a b :
  0 < b -> near_above a b (PyFloat.div_half_even a b) /\ near_below a b (PyFloat.div_half_even a b).
Proof.
  intros Hb. unfold PyFloat.div_half_even, near_above, near_below.
  pose proof (Z.div_mod a b ltac:(lia)) as Hdm.
  pose proof (Z.mod_pos_bound a b Hb) as Hr.
  set (d := a / b) in *. set (r := a mod b) in *.
  assert (Hab : a - d * b = r) by lia.
  destruct (Z.compare_spec (2 * r) b) as [H|H|H].
  - destruct (Z.even d) eqn:Ev.
    + split; [right; split; [lia|exact Ev]|left; lia].
    + split; [left; nia|right]. split; [nia|].
      rewrite Z.even_add, Ev. reflexivity.
  - split; left; lia.
  - split; left; nia.
Qed.

Lemma nearest_integer_unique a b m m' :
  0 < b -> near_above a b m -> near_below a b m ->
  near_above a b m' -> near_below a b m' -> m = m'.
Proof.
  unfold near_above, near_below. intros Hb A B A' B'.
  assert (Hmm : m = m' \/ m' = m + 1 \/ m = m' + 1) by nia.
  destruct Hmm as [H|[H|H]]; [exact H| |]; exfalso; subst.
  - assert (Z.even m = true /\ Z.even (m + 1) = true) as [E1 E2].
    { split.
      - destruct A as [A|[_ A]]; [|exact A]. destruct B' as [B'|[B' _]]; nia.
      - destruct B' as [B'|[_ B']]; [|exact B']. destruct A as [A|[A _]]; nia. }
    rewrite Z.even_add, E1 in E2. discriminate.
  - assert (Z.even m' = true /\ Z.even (m' + 1) = true) as [E1 E2].
    { split.
      - destruct A' as [A'|[_ A']]; [|exact A']. destruct B as [B|[B _]]; nia.
      - destruct B as [B|[_ B]]; [|exact B]. destruct A' as [A'|[A' _]]; nia. }
    rewrite Z.even_add, E1 in E2. discriminate.
Qed.

Lemma div_half_even_cancel c a b :
  0 < c -> 0 < b ->
  PyFloat.div_half_even (c * a) (c * b) = PyFloat.div_half_even a b.
Proof.
  intros Hc Hb. unfold PyFloat.div_half_even.
  rewrite Z.div_mul_cancel_l by lia. rewrite Z.mul_mod_distr_l by lia.
  replace (2 * (c * (a mod b)) ?= c * b) with (2 * (a mod b) ?= b); [reflexivity|].
  destruct (Z.compare_spec (2 * (a mod b)) b) as [H|H|H]; symmetry.
  - apply Z.compare_eq_iff. nia.
  - apply Z.compare_lt_iff. nia.
  - apply Z.compare_gt_iff. nia.
Qed.

Lemma unit_ratio_spec p q E :
  0 <= E -> 0 < q ->
  PyFloat.div_half_even (PyFloat.unit_ratio p q E).1 (PyFloat.unit_ratio p q E).2
  = PyFloat.div_half_even (p * 2 ^ 1074) (q * 2 ^ E).
Proof.
  intros HE Hq. unfold PyFloat.unit_ratio.
  destruct (E <=? 1074) eqn:Hc; cbn [fst snd].
  - apply Z.leb_le in Hc.
    replace (p * 2 ^ 1074) with (2 ^ E * (p * 2 ^ (1074 - E))).
    + rewrite (Z.mul_comm q), div_half_even_cancel; [reflexivity|apply Z.pow_pos_nonneg; lia|lia].
    + replace 1074 with (E + (1074 - E)) at 2 by lia.
      rewrite Z.pow_add_r by lia. ring.
  - apply Z.leb_gt in Hc.
    replace (q * 2 ^ E) with (2 ^ 1074 * (q * 2 ^ (E - 1074))).
    + rewrite (Z.mul_comm p), div_half_even_cancel; [reflexivity|reflexivity|].
      assert (0 < 2 ^ (E - 1074)) by (apply Z.pow_pos_nonneg; lia). nia.
    + replace E with (1074 + (E - 1074)) at 2 by lia.
      rewrite Z.pow_add_r by lia. ring.
Qed.

Lemma pow2_double a c : 0 <= a -> a + 1 <= c -> 2 * 2 ^ a <= 2 ^ c.
Proof.
  intros Ha Hc. rewrite <- pow2_succ by lia. apply pow2_le. lia.
Qed.

Lemma exponent_of_spec P q :
  0 <= P -> 0 < q ->
  let E := PyFloat.exponent_of P q in
  let b := q * 2 ^ E in
  0 <= E /\ 0 < b /\ P < 2 ^ 53 * b /\ (0 < E -> 2 ^ 52 * b <= P).
Proof.
  intros HP Hq. cbv zeta. unfold PyFloat.exponent_of.
  destruct (P <? q) eqn:Hlt.
  - apply Z.ltb_lt in Hlt. rewrite Z.pow_0_r. repeat split; lia.
  - apply Z.ltb_ge in Hlt.
    destruct (log2_ratio_spec P q ltac:(lia)) as (HL & L1 & L2).
    set (L := PyFloat.log2_ratio P q) in *.
    destruct (Z.max_spec (L - 52) 0) as [[Hc ->]|[Hc ->]].
    + rewrite Z.pow_0_r. split; [lia|]. split; [lia|]. split; [|lia].
      assert (2 ^ (L + 1) <= 2 ^ 52) by (apply pow2_le; lia).
      assert (q * 2 ^ (L + 1) <= q * 2 ^ 52) by (apply Z.mul_le_mono_nonneg_l; lia).
      assert (2 ^ 52 < 2 ^ 53) by (apply pow2_lt; lia). nia.
    + assert (HE : 0 <= L - 52) by lia.
      pose proof (pow2_pos (L - 52) HE) as Hp.
      assert (EL : 2 ^ L = 2 ^ 52 * 2 ^ (L - 52)).
      { rewrite <- Z.pow_add_r by lia. f_equal. lia. }
      assert (EL1 : 2 ^ (L + 1) = 2 ^ 53 * 2 ^ (L - 52)).
      { rewrite <- Z.pow_add_r by lia. f_equal. lia. }
      rewrite EL in L1. rewrite EL1 in L2.
      split; [lia|]. split; [nia|]. split; [nia|]. intros _. nia.
Qed.

Lemma exponent_of_nonneg P q : 0 <= PyFloat.exponent_of P q.
Proof. unfold PyFloat.exponent_of. destruct (P <? q); lia. Qed.

Lemma round_ratio_unfold s p q :
  0 < q ->
  PyFloat.round_ratio s p q =
    let P := p * 2 ^ 1074 in
    let E := PyFloat.exponent_of P q in
    if 2045 <? E then S754_infinity s
    else
      let m := PyFloat.div_half_even P (q * 2 ^ E) in
      let '(m, E) := if m =? 2 ^ 53 then (2 ^ 52, E + 1) else (m, E) in
      if 2045 <? E then S754_infinity s
      else
        match m with
        | Zpos mm => S754_finite s mm (E - 1074)
        | _ => S754_zero s
        end.
Proof.
  intros Hq. unfold PyFloat.round_ratio. cbv zeta.
  destruct (2045 <? _); [reflexivity|].
  rewrite <- (unit_ratio_spec p q _ (exponent_of_nonneg _ _) Hq).
  destruct (PyFloat.unit_ratio _ _ _). reflexivity.
Qed.

Lemma mul_lt_cancel b m k : 0 < b -> m * b < k * b -> m < k.
Proof. intros Hb H. apply (Z.mul_lt_mono_pos_r b); assumption. Qed.

Lemma mul_le_cancel b m k : 0 < b -> m * b <= k * b -> m <= k.
Proof. intros Hb H. apply (Z.mul_le_mono_pos_r _ _ b); assumption. Qed.

Lemma round_ratio_sound s p q s' mm e :
  0 <= p -> 0 < q ->
  PyFloat.round_ratio s p q = S754_finite s' mm e ->
  s' = s /\ canonical (Zpos mm) (e + 1074)
  /\ nearest (p * 2 ^ 1074) q (Zpos mm) (e + 1074).
Proof.
  intros Hp Hq. rewrite round_ratio_unfold by exact Hq. cbv zeta.
  set (P := p * 2 ^ 1074).
  assert (HP : 0 <= P) by (unfold P; pose proof (pow2_pos 1074); lia).
  destruct (exponent_of_spec P q HP Hq) as (HE & Hb & Hup & Hlow).
  set (E := PyFloat.exponent_of P q) in *. set (b := q * 2 ^ E) in *.
  destruct (2045 <? E) eqn:HE1; [discriminate|]. apply Z.ltb_ge in HE1.
  destruct (div_half_even_spec P b Hb) as [Ha Hbl].
  set (m := PyFloat.div_half_even P b) in *.
  assert (T52 : 2 ^ 53 = 2 * 2 ^ 52) by reflexivity.
  assert (P52 : 0 < 2 ^ 52) by reflexivity.
  assert (Hm53 : m <= 2 ^ 53).
  { unfold near_below in Hbl.
    assert (m < 2 ^ 53 + 1); [|lia]. apply (mul_lt_cancel b); [exact Hb|]. nia. }
  assert (Hm0 : 0 <= m).
  { unfold near_above in Ha.
    assert (-1 < m); [|lia]. apply (mul_lt_cancel b); [exact Hb|]. nia. }
  assert (Hm52 : 0 < E -> 2 ^ 52 <= m).
  { intros H. specialize (Hlow H). unfold near_above in Ha.
    assert (2 ^ 52 - 1 < m); [|lia]. apply (mul_lt_cancel b); [exact Hb|]. nia. }
  destruct (m =? 2 ^ 53) eqn:Em.
  - apply Z.eqb_eq in Em.
    destruct (2045 <? E + 1) eqn:HE2; [discriminate|]. apply Z.ltb_ge in HE2.
    change (2 ^ 52) with (Zpos (Z.to_pos (2 ^ 52))).
    intros [= <- <- <-]. split; [reflexivity|].
    replace (E + 1 - 1074 + 1074) with (E + 1) by lia.
    split.
    + split; [lia|]. left. split; [reflexivity|reflexivity].
    + unfold nearest. cbv zeta. rewrite pow2_succ by lia.
      replace (q * (2 * 2 ^ E)) with (2 * b) by (unfold b; ring).
      change (Z.pos (Z.to_pos (2 ^ 52))) with (2 ^ 52).
      rewrite Z.eqb_refl. replace (0 <? E + 1) with true by (symmetry; apply Z.ltb_lt; lia).
      cbn [andb]. unfold near_above, near_below in *. rewrite Em in *.
      split; [left|]; lia.
  - apply Z.eqb_neq in Em.
    replace (2045 <? E) with false by (symmetry; apply Z.ltb_ge; lia).
    destruct m as [|mp|mp] eqn:Emp; [discriminate| |lia].
    intros [= <- <- <-]. split; [reflexivity|].
    replace (E - 1074 + 1074) with E by lia.
    split.
    + split; [lia|].
      destruct (Z.eq_dec E 0) as [Ez|Ez].
      * destruct (Z_lt_le_dec (Z.pos mp) (2 ^ 52)); [right|left]; lia.
      * left. split; [apply Hm52; lia|lia].
    + unfold nearest. cbv zeta. fold b. split; [exact Ha|].
      destruct ((Z.pos mp =? 2 ^ 52) && (0 <? E)) eqn:Ec; [|exact Hbl].
      apply andb_prop in Ec as [Ec1 Ec2]. apply Z.eqb_eq in Ec1. apply Z.ltb_lt in Ec2.
      specialize (Hlow Ec2). rewrite Ec1. lia.
Qed.

Lemma near_below_of_quarter P b m :
  0 < b -> 4 * (m * b - P) <= b -> near_below P b m.
Proof. intros Hb H. left. lia. Qed.

Lemma round_ratio_complete s p q m E :
  0 <= p -> 0 < q ->
  canonical m E -> nearest (p * 2 ^ 1074) q m E ->
  PyFloat.round_ratio s p q = S754_finite s (Z.to_pos m) (E - 1074).
Proof.
  intros Hp Hq [HE Hm] Hn. rewrite round_ratio_unfold by exact Hq. cbv zeta.
  set (P := p * 2 ^ 1074) in *.
  assert (HP : 0 <= P) by (unfold P; pose proof (pow2_pos 1074); lia).
  destruct (exponent_of_spec P q HP Hq) as (HE0 & Hb0 & Hup & Hlow).
  set (E0 := PyFloat.exponent_of P q) in *. set (b0 := q * 2 ^ E0) in *.
  unfold nearest in Hn. cbv zeta in Hn.
  set (b := q * 2 ^ E) in *.
  assert (Hb : 0 < b) by (unfold b; pose proof (pow2_pos E); nia).
  destruct Hn as [Ha Hl].
  assert (T53 : 2 ^ 53 = 9007199254740992) by reflexivity.
  assert (T52 : 2 ^ 52 = 4503599627370496) by reflexivity.
  assert (Hm0 : 0 < m < 2 ^ 53) by lia.
  (* the value is below 2^53 * b *)
  assert (HPup : 2 * P <= (2 * m + 1) * b) by (unfold near_above in Ha; nia).
  assert (HPup' : P < 2 ^ 53 * b) by nia.
  (* the computed exponent is not above E *)
  assert (HE0le : E0 <= E).
  { destruct (Z_le_gt_dec E0 E) as [H|H]; [exact H|exfalso].
    specialize (Hlow ltac:(lia)).
    assert (2 * 2 ^ E <= 2 ^ E0) by (apply pow2_double; lia).
    assert (2 * b <= b0) by (unfold b, b0; nia). nia. }
  destruct (Z.eq_dec E0 E) as [Heq|Hne].
  - (* same exponent *)
    assert (Eb : b0 = b) by (unfold b0, b; now rewrite Heq).
    replace (2045 <? E0) with false by (symmetry; apply Z.ltb_ge; lia).
    rewrite Eb.
    assert (Hbl : near_below P b m).
    { destruct ((m =? 2 ^ 52) && (0 <? E)); [now apply near_below_of_quarter|exact Hl]. }
    destruct (div_half_even_spec P b Hb) as [Ha' Hbl'].
    rewrite (nearest_integer_unique P b _ m Hb Ha' Hbl' Ha Hbl).
    replace (m =? 2 ^ 53) with false by (symmetry; apply Z.eqb_neq; lia).
    replace (2045 <? E0) with false by (symmetry; apply Z.ltb_ge; lia).
    rewrite Heq. destruct m; try lia. reflexivity.
  - (* one exponent below: the value is just under a power of two *)
    assert (HE1 : 0 < E) by lia.
    assert (Hm52 : 2 ^ 52 <= m) by (destruct Hm as [Hm|[_ Hm]]; lia).
    assert (H2 : 2 * 2 ^ E0 <= 2 ^ E) by (apply pow2_double; lia).
    assert (Hbb : 2 * b0 <= b) by (unfold b, b0; nia).
    assert (Hmeq : m = 2 ^ 52).
    { destruct (Z.eq_dec m (2 ^ 52)) as [H|H]; [exact H|exfalso].
      replace ((m =? 2 ^ 52) && (0 <? E)) with false in Hl
        by (symmetry; apply andb_false_iff; left; apply Z.eqb_neq; exact H).
      unfold near_below in Hl. nia. }
    replace ((m =? 2 ^ 52) && (0 <? E)) with true in Hl
      by (symmetry; apply andb_true_iff; split; [apply Z.eqb_eq; exact Hmeq|apply Z.ltb_lt; exact HE1]).
    assert (HE0eq : E0 = E - 1).
    { destruct (Z.eq_dec E0 (E - 1)) as [H|H]; [exact H|exfalso].
      assert (2 * 2 ^ (E0 + 1) <= 2 ^ E) by (apply pow2_double; lia).
      rewrite pow2_succ in H0 by lia.
      assert (4 * b0 <= b) by (unfold b, b0; nia). nia. }
    assert (Ebb : b = 2 * b0).
    { unfold b, b0. replace E with (E0 + 1) by lia. rewrite pow2_succ by lia. ring. }
    replace (2045 <? E0) with false by (symmetry; apply Z.ltb_ge; lia).
    destruct (div_half_even_spec P b0 Hb0) as [Ha' Hbl'].
    assert (A53 : near_above P b0 (2 ^ 53)) by (left; nia).
    assert (B53 : near_below P b0 (2 ^ 53)).
    { unfold near_below. destruct (Z.eq_dec (2 * (2 ^ 53 * b0 - P)) b0) as [H|H].
      - right. split; [exact H|reflexivity].
      - left. nia. }
    rewrite (nearest_integer_unique P b0 _ (2 ^ 53) Hb0 Ha' Hbl' A53 B53).
    rewrite Z.eqb_refl.
    replace (2045 <? E0 + 1) with false by (symmetry; apply Z.ltb_ge; lia).
    rewrite Hmeq. replace (E0 + 1) with E by lia. reflexivity.
Qed.

(** The rounding keeps the sign. *)
Lemma round_ratio_sign s p q : has_sign s (PyFloat.round_ratio s p q) = true.
Proof.
  unfold PyFloat.round_ratio. cbv zeta.
  destruct (2045 <? _); [now destruct s|].
  destruct (PyFloat.unit_ratio _ _ _).
  destruct (_ =? 2 ^ 53).
  - destruct (2045 <? _); now destruct s.
  - destruct (2045 <? _); [now destruct s|].
    destruct (PyFloat.div_half_even _ _); now destruct s.
Qed.

Lemma of_decimal_sign s d k : has_sign s (PyFloat.of_decimal s d k) = true.
Proof. unfold PyFloat.of_decimal. destruct (0 <=? k); apply round_ratio_sign. Qed.

Lemma of_digits_sign s d k len : has_sign s (PyFloat.of_digits s d k len) = true.
Proof.
  unfold PyFloat.of_digits.
  destruct (d =? 0); [now destruct s|].
  destruct (310 <? k); [now destruct s|].
  destruct (_ <? -330); [now destruct s|].
  apply of_decimal_sign.
Qed.

Lemma div_half_even_nonneg p q : 0 <= p -> 0 < q -> 0 <= PyFloat.div_half_even p q.
Proof.
  intros Hp Hq. unfold PyFloat.div_half_even.
  assert (0 <= p / q) by (apply Z.div_pos; lia).
  destruct (2 * (p mod q) ?= q); [destruct (Z.even _)| |]; lia.
Qed.

Lemma round2_sign s x y :
  has_sign s x = true -> PyFloat.round2 x = Ok y -> has_sign s y = true.
Proof.
  intros Hx. destruct x as [s'|s'| |s' m e]; simpl; try (intros [= <-]; exact Hx).
  simpl in Hx. apply eqb_prop in Hx. subst s'.
  set (c := if 0 <=? e then _ else _).
  pose proof (round_ratio_sign s c 100) as Hr.
  destruct (PyFloat.round_ratio s c 100); try discriminate; intros [= <-]; exact Hr.
Qed.

(** A value that rounds to zero is at most half the least positive
    float. *)
Lemma round_ratio_zero_inv s p q z :
  0 <= p -> 0 < q ->
  PyFloat.round_ratio s p q = S754_zero z -> 2 * (p * 2 ^ 1074) <= q.
Proof.
  intros Hp Hq. rewrite round_ratio_unfold by exact Hq. cbv zeta.
  set (P := p * 2 ^ 1074).
  assert (HP : 0 <= P) by (unfold P; pose proof (pow2_pos 1074); lia).
  destruct (exponent_of_spec P q HP Hq) as (HE & Hb & Hup & Hlow).
  set (E := PyFloat.exponent_of P q) in *. set (b := q * 2 ^ E) in *.
  destruct (2045 <? E); [discriminate|].
  destruct (div_half_even_spec P b Hb) as [Ha Hbl].
  set (m := PyFloat.div_half_even P b) in *.
  destruct (m =? 2 ^ 53) eqn:Em.
  - destruct (2045 <? E + 1); discriminate.
  - destruct (2045 <? E); [discriminate|].
    assert (Hm0 : 0 <= m).
    { unfold near_above in Ha.
      assert (-1 < m); [|lia]. apply (mul_lt_cancel b); [exact Hb|]. nia. }
    destruct m as [|mp|mp] eqn:Emp; [|discriminate|lia]. intros _.
    destruct (Z.eq_dec E 0) as [Ez|Ez].
    + unfold b in Ha. rewrite Ez, Z.pow_0_r in Ha. unfold near_above in Ha. lia.
    + specialize (Hlow ltac:(lia)). unfold near_above in Ha.
      assert (0 < 2 ^ 52) by reflexivity. nia.
Qed.

End Rounding.

(** ** The currency parser returns a number that is not negative *)

Section CleanPrice.

Lemma all_filter p s : Str.all p (Str.filter p s) = true.
Proof.
  induction s as [|c s IH]; simpl; [reflexivity|].
  destruct (p c) eqn:E; simpl; [now rewrite E|exact IH].
Qed.

Lemma all_filter_other p q s : Str.all p s = true -> Str.all p (Str.filter q s) = true.
Proof.
  induction s as [|c s IH]; simpl; [reflexivity|].
  intros H. apply andb_prop in H as [H1 H2].
  destruct (q c); simpl; [rewrite H1|]; now apply IH.
Qed.

Lemma all_lstrip p q s : Str.all p s = true -> Str.all p (Str.lstrip_by q s) = true.
Proof.
  induction s as [|c s IH]; simpl; [reflexivity|].
  intros H. destruct (q c); [|exact H].
  apply andb_prop in H as [_ H]. now apply IH.
Qed.

Lemma all_rstrip p q s : Str.all p s = true -> Str.all p (Str.rstrip_by q s) = true.
Proof.
  induction s as [|c s IH]; simpl; [reflexivity|].
  intros H. apply andb_prop in H as [H1 H2].
  destruct (Str.is_empty _ && q c); simpl; [reflexivity|].
  rewrite H1. now apply IH.
Qed.

Lemma all_append p s t :
  Str.all p s = true -> Str.all p t = true -> Str.all p (s ++ t) = true.
Proof.
  induction s as [|c s IH]; simpl; [trivial|].
  intros H Ht. apply andb_prop in H as [H1 H2]. rewrite H1. now apply IH.
Qed.

Lemma span_all p s : Str.all p (fst (PyFloat.span p s)) = true.
Proof.
  induction s as [|c s IH]; simpl; [reflexivity|].
  destruct (p c) eqn:E; [|reflexivity].
  destruct (PyFloat.span p s). simpl in *. now rewrite E.
Qed.

Lemma digits_value_nonneg s : forall acc,
  0 <= acc -> Str.all Char.isdecimal s = true -> 0 <= PyFloat.digits_value acc s.
Proof.
  induction s as [|c s IH]; simpl; intros acc Ha H; [exact Ha|].
  apply andb_prop in H as [H1 H2]. apply IH; [|exact H2].
  unfold Char.isdecimal, Char.between in H1. apply andb_prop in H1 as [H1 _].
  apply Z.leb_le in H1. unfold Char.digit_value. lia.
Qed.

(** A price character is no sign and starts none of the words that
    [float] reads. *)
Lemma price_char_plain c :
  is_price_char c = true ->
  (forall r, PyFloat.split_sign (String c r) = (false, String c r))
  /\ Ascii.eqb (Char.lower c) "i" = false
  /\ Ascii.eqb (Char.lower c) "n" = false.
Proof.
  destruct c as [[] [] [] [] [] [] [] []]; intros H;
    try discriminate H; repeat split.
Qed.

Lemma of_string_unsigned s x :
  Str.all is_price_char s = true ->
  PyFloat.of_string s = Ok x -> has_sign false x = true.
Proof.
  intros Hs. unfold PyFloat.of_string.
  set (t := Str.strip_by Char.isspace_num s).
  assert (Ht : Str.all is_price_char (Str.remove "_" t) = true).
  { apply all_filter_other, all_rstrip, all_lstrip, Hs. }
  destruct (negb (PyFloat.underscores_ok None t)); [discriminate|].
  destruct (Str.remove "_" t) as [|c r] eqn:Er.
  - simpl. discriminate.
  - simpl in Ht. apply andb_prop in Ht as [Hc Hr].
    destruct (price_char_plain c Hc) as (Hsign & Hi & Hn).
    rewrite Hsign. cbn [Str.lower Str.map String.eqb]. rewrite Hi, Hn.
    cbn [andb orb].
    destruct (PyFloat.span Char.isdecimal (String c r)) as [ip r1] eqn:Eip.
    pose proof (span_all Char.isdecimal (String c r)) as Hip. rewrite Eip in Hip.
    simpl in Hip.
    set (frac := match r1 with String "." r' => _ | _ => _ end).
    assert (Hfp : Str.all Char.isdecimal (fst frac) = true).
    { unfold frac. destruct r1 as [|d r']; [reflexivity|].
      destruct (Ascii.eqb d ".") eqn:Ed.
      - apply Ascii.eqb_eq in Ed. subst d. apply span_all.
      - destruct d as [[] [] [] [] [] [] [] []]; try reflexivity; discriminate Ed. }
    destruct frac as [fp r2]. simpl in Hfp.
    destruct (Str.is_empty ip && Str.is_empty fp); [discriminate|].
    destruct (PyFloat.parse_exponent r2); [|discriminate].
    intros [= <-]. apply of_digits_sign.
Qed.

Lemma clean_price_try_sign s x :
  clean_price_try s = Ok x -> has_sign false x = true.
Proof.
  unfold clean_price_try. destruct (negb _); [|now intros [= <-]].
  destruct (PyFloat.of_string _) as [y|] eqn:E; simpl; [|discriminate].
  apply round2_sign. apply (of_string_unsigned _ _ (all_filter _ _) E).
Qed.

(** [clean_price] returns zero, a positive number or infinity. *)
Lemma clean_price_sign v : has_sign false (clean_price v) = true.
Proof.
  unfold clean_price. destruct (falsy v); [reflexivity|].
  destruct v as [s|]; [|reflexivity].
  destruct (clean_price_try s) as [x|] eqn:E; simpl; [|reflexivity].
  now apply clean_price_try_sign with (s := s).
Qed.

Lemma sign_not_le_gt x n :
  has_sign false x = true ->
  PyFloat.le_int x n = false -> PyFloat.gt_int x n = true.
Proof.
  unfold PyFloat.le_int, PyFloat.gt_int.
  destruct x as [[]|[]| |[] m e]; simpl; try discriminate; intros _;
    try reflexivity;
    try (destruct n; simpl; try discriminate; reflexivity).
  destruct (if 0 <=? e then _ else _); simpl; try discriminate; reflexivity.
Qed.

Lemma sign_not_gt_le x n :
  has_sign false x = true ->
  PyFloat.gt_int x n = false -> PyFloat.le_int x n = true.
Proof.
  unfold PyFloat.le_int, PyFloat.gt_int.
  destruct x as [[]|[]| |[] m e]; simpl; try discriminate; intros _;
    try (destruct n; simpl; try discriminate; reflexivity).
  destruct (if 0 <=? e then _ else _); simpl; try discriminate; reflexivity.
Qed.

(** [x >= 0] holds of a number that is not negative. *)
Lemma sign_ge_zero x : has_sign false x = true -> PyFloat.ge_int x 0 = true.
Proof.
  unfold PyFloat.ge_int.
  destruct x as [[]|[]| |[] m e]; simpl; try discriminate; intros _;
    try reflexivity.
  destruct (0 <=? e) eqn:E.
  - apply Z.leb_le in E.
    assert (0 < Z.pos m * 2 ^ e) by (apply Z.mul_pos_pos; [lia|apply Z.pow_pos_nonneg; lia]).
    destruct (Z.compare_spec (Z.pos m * 2 ^ e) 0); try reflexivity; lia.
  - reflexivity.
Qed.

End CleanPrice.

(** ** An integer that is not zero converts to a float that is not zero *)

Section NonZero.

Lemma of_int_nonzero n z : n <> 0 -> PyFloat.of_int n <> Ok (S754_zero z).
Proof.
  intros Hn. unfold PyFloat.of_int.
  destruct (PyFloat.round_ratio (n <? 0) (Z.abs n) 1) as [z'| | |] eqn:E;
    try discriminate.
  apply round_ratio_zero_inv in E; [|lia|lia].
  pose proof (pow2_pos 1074). nia.
Qed.

(** The division by [max(n, 1)] never divides by zero. *)
Lemma div_int_max_no_zero_division x n :
  PyFloat.div_int x (Z.max n 1) <> Raise ZeroDivisionError.
Proof.
  unfold PyFloat.div_int.
  pose proof (of_int_nonzero (Z.max n 1)) as Hz.
  destruct (PyFloat.of_int (Z.max n 1)) as [[z| | |]|e] eqn:E;
    cbn [mbind result_bind]; try discriminate.
  - exfalso. apply (Hz z); [lia|reflexivity].
  - unfold PyFloat.of_int in E.
    destruct (PyFloat.round_ratio _ _ _); try discriminate; injection E as <-; discriminate.
Qed.

End NonZero.

(** ** The row loop *)

Section Driver.

Variable D : string -> string -> result string.

Lemma loop_fold rows : forall acc n,
  fold_left (loop_step D) rows (acc, n)
  = ((acc ++ flat_map (appended D) rows)%list, n + count_rows D is_errored rows).
Proof.
  unfold count_rows.
  induction rows as [|row rows IH]; intros acc n; simpl.
  - rewrite app_nil_r. f_equal. lia.
  - unfold appended at 1. destruct (process_row D row) eqn:E; simpl;
      rewrite IH; f_equal; try (rewrite <- app_assoc; reflexivity);
      try rewrite app_nil_l; try reflexivity; try lia.
Qed.

(** The loop keeps the records of the accepted rows, in the order of the
    rows, and counts the rows that raised. *)
Lemma transform_rows_eq rows :
  transform_rows D rows = (flat_map (appended D) rows, count_rows D is_errored rows).
Proof. unfold transform_rows. rewrite loop_fold. reflexivity. Qed.

Lemma appended_length rows :
  Z.of_nat (List.length (flat_map (appended D) rows)) = count_rows D is_accepted rows.
Proof.
  unfold count_rows. induction rows as [|row rows IH]; simpl; [reflexivity|].
  rewrite length_app. unfold appended at 1.
  destruct (process_row D row); simpl; lia.
Qed.

Lemma count_rows_total rows :
  Z.of_nat (List.length rows)
  = count_rows D is_accepted rows + count_rows D is_skipped rows
    + count_rows D is_errored rows.
Proof.
  unfold count_rows. induction rows as [|row rows IH]; simpl; [reflexivity|].
  destruct (process_row D row); simpl; lia.
Qed.

Lemma count_rows_snoc kind rows row :
  count_rows D kind (rows ++ [row])
  = count_rows D kind rows + (if kind (process_row D row) then 1 else 0).
Proof.
  unfold count_rows. rewrite List.filter_app, length_app. simpl.
  destruct (kind (process_row D row)); simpl; lia.
Qed.

(** The counts of a run in terms of the outcomes of its rows. *)
Lemma run_metrics_counts rows :
  let m := run_metrics D rows in
  raw_count m = Z.of_nat (List.length rows)
  /\ clean_count m = count_rows D is_accepted rows
  /\ removed_count m = count_rows D is_skipped rows + count_rows D is_errored rows
  /\ error_count m = count_rows D is_errored rows.
Proof.
  unfold run_metrics. rewrite transform_rows_eq. simpl.
  rewrite appended_length. pose proof (count_rows_total rows). repeat split; lia.
Qed.

Lemma counts_step_holds rows row : counts_step D rows row.
Proof.
  unfold counts_step. cbv zeta.
  destruct (run_metrics_counts rows) as (R & C & M & E).
  destruct (run_metrics_counts (rows ++ [row])) as (R' & C' & M' & E').
  rewrite R', C', M', E', R, C, M, E, !count_rows_snoc, length_app.
  destruct (process_row D row); simpl; lia.
Qed.

End Driver.

(** ** The record transformer *)

Section Transformer.

Variable D : string -> string -> result string.

Lemma rstrip_by_idempotent p s :
  Str.rstrip_by p (Str.rstrip_by p s) = Str.rstrip_by p s.
Proof.
  induction s as [|c s IH]; simpl; [reflexivity|].
  destruct (Str.is_empty (Str.rstrip_by p s) && p c) eqn:E; [reflexivity|].
  simpl. rewrite IH, E. reflexivity.
Qed.

Lemma lstrip_by_rstrip_by p s :
  Str.lstrip_by p (Str.rstrip_by p (Str.lstrip_by p s))
  = Str.rstrip_by p (Str.lstrip_by p s).
Proof.
  induction s as [|c s IH]; simpl; [reflexivity|].
  destruct (p c) eqn:E; [exact IH|].
  simpl. rewrite E, andb_false_r. simpl. now rewrite E.
Qed.

Lemma strip_idempotent s : Str.strip (Str.strip s) = Str.strip s.
Proof.
  unfold Str.strip, Str.strip_by.
  now rewrite lstrip_by_rstrip_by, rstrip_by_idempotent.
Qed.

(** The entries of a record that was built. *)
Lemma build_record_fields row price r :
  build_record D row price = Ok r ->
  (exists s, get row "id" "" = Some s /\ dict_get r "id" = Some (VStr (Str.strip s)))
  /\ dict_get r "price" = Some (VFloat price)
  /\ dict_get r "accommodates" = Some (VInt (clean_int (get row "accommodates" "0")))
  /\ exists ppg,
       price_per_guest price (clean_int (get row "accommodates" "1")) = Ok ppg
       /\ dict_get r "price_per_guest" = Some (VFloat ppg).
Proof.
  unfold build_record. bind_cases.
  destruct (price_per_guest price _) as [ppg|] eqn:Ep;
    cbn [mbind result_bind]; [|discriminate].
  intros [= <-]. repeat split.
  - eexists. split; reflexivity.
  - exists ppg. split; reflexivity.
Qed.

(** An accepted row passed the three checks of the pre-validation. *)
Lemma process_row_accepted row r :
  process_row D row = Accepted r ->
  exists s,
    get row "id" "" = Some s
    /\ Str.is_empty (Str.strip s) = false
    /\ PyFloat.le_int (clean_price (get row "price" "0")) 0 = false
    /\ PyFloat.gt_int (clean_price (get row "price" "0")) 10000 = false
    /\ build_record D row (clean_price (get row "price" "0")) = Ok r.
Proof.
  unfold process_row, transform_row.
  destruct (get row "id" "") as [s|] eqn:Eid; cbn [strip_raw mbind result_bind];
    [|discriminate].
  destruct (Str.is_empty (Str.strip s)) eqn:Es.
  - destruct (strip_raw (get row "name" "")) as [name|]; cbn [mbind result_bind];
      [|discriminate].
    destruct (Str.is_empty name); [discriminate|].
    destruct (_ || _); [discriminate|]. discriminate.
  - destruct (PyFloat.le_int _ 0) eqn:E1; [discriminate|].
    destruct (PyFloat.gt_int _ 10000) eqn:E2; [discriminate|].
    cbn [orb].
    destruct (build_record D row _) as [r'|] eqn:Eb; cbn [mbind result_bind];
      [|discriminate].
    intros [= <-]. exists s. repeat split; assumption.
Qed.

Lemma process_row_accepted_valid row r :
  process_row D row = Accepted r -> row_valid row = true.
Proof.
  intros H. destruct (process_row_accepted _ _ H) as (s & Eid & Es & E1 & E2 & _).
  unfold row_valid. rewrite Eid, Es.
  rewrite (sign_not_le_gt _ _ (clean_price_sign _) E1).
  rewrite (sign_not_gt_le _ _ (clean_price_sign _) E2). reflexivity.
Qed.

Lemma process_row_accepted_record row r :
  process_row D row = Accepted r -> valid_record r.
Proof.
  intros H. destruct (process_row_accepted _ _ H) as (s & Eid & Es & E1 & E2 & Eb).
  destruct (build_record_fields _ _ _ Eb) as ((s' & Eid' & Hid) & Hp & _).
  rewrite Eid in Eid'. injection Eid' as <-.
  exists (Str.strip s), (clean_price (get row "price" "0")).
  repeat split; try assumption.
  - apply strip_idempotent.
  - intros E. rewrite E in Es. discriminate.
  - apply sign_not_le_gt; [apply clean_price_sign|exact E1].
  - apply sign_not_gt_le; [apply clean_price_sign|exact E2].
Qed.

(** The default of [accommodates] differs between the record and the
    division, but not after [max(..., 1)]. *)
Lemma accommodates_default row :
  Z.max (clean_int (get row "accommodates" "1")) 1
  = Z.max (clean_int (get row "accommodates" "0")) 1.
Proof. unfold get. destruct (row !! "accommodates"); reflexivity. Qed.

Lemma process_row_accepted_ppg row r :
  process_row D row = Accepted r -> price_per_guest_ok r.
Proof.
  intros H. destruct (process_row_accepted _ _ H) as (s & _ & _ & _ & _ & Eb).
  destruct (build_record_fields _ _ _ Eb) as (_ & Hp & Ha & ppg & Hq & Hg).
  unfold price_per_guest in Hq. rewrite accommodates_default in Hq.
  destruct (PyFloat.div_int _ _) as [q|] eqn:Eq; cbn [mbind result_bind] in Hq;
    [|discriminate].
  exists (clean_price (get row "price" "0")), (clean_int (get row "accommodates" "0")), q, ppg.
  repeat split; assumption.
Qed.

Lemma Forall_appended (P : record -> Prop) rows :
  (forall row r, process_row D row = Accepted r -> P r) ->
  Forall P (flat_map (appended D) rows).
Proof.
  intros H. induction rows as [|row rows IH]; simpl; [constructor|].
  apply Forall_app. split; [|exact IH].
  unfold appended. destruct (process_row D row) eqn:E; constructor;
    [now apply (H row)|constructor].
Qed.

(** Rows that fail the pre-validation add nothing to the output. *)
Lemma appended_valid_rows rows :
  flat_map (appended D) rows = flat_map (appended D) (List.filter row_valid rows).
Proof.
  induction rows as [|row rows IH]; simpl; [reflexivity|].
  destruct (row_valid row) eqn:E; simpl; [now rewrite IH|].
  rewrite <- IH. unfold appended.
  destruct (process_row D row) eqn:Ep; try reflexivity.
  apply process_row_accepted_valid in Ep. congruence.
Qed.

End Transformer.

(** ** The stable sort *)

Section StableSort.

Context {A : Type}.

Lemma insert_by_key_perm k x (l : list (Z * A)) :
  Permutation (insert_by_key k x l) ((k, x) :: l).
Proof.
  induction l as [|[k' y] l IH]; simpl; [reflexivity|].
  destruct (k' <? k); [|reflexivity].
  rewrite IH. apply perm_swap.
Qed.

Lemma sort_keyed_perm (l : list (Z * A)) : Permutation (sort_keyed l) l.
Proof.
  induction l as [|[k x] l IH]; simpl; [reflexivity|].
  rewrite insert_by_key_perm. now constructor.
Qed.

Lemma insert_by_key_sorted k x (l : list (Z * A)) :
  Sorted key_le l -> Sorted key_le (insert_by_key k x l).
Proof.
  induction l as [|[k' y] l IH]; simpl; intros H.
  - repeat constructor.
  - inversion H as [|? ? Hs Hh]; subst.
    destruct (k' <? k) eqn:E.
    + apply Z.ltb_lt in E. constructor; [now apply IH|].
      destruct l as [|[k'' z] l]; simpl.
      * constructor. unfold key_le. simpl. lia.
      * destruct (k'' <? k); constructor; unfold key_le; simpl; [|lia].
        inversion Hh; subst. assumption.
    + apply Z.ltb_ge in E. constructor; [exact H|].
      constructor. unfold key_le. simpl. lia.
Qed.

Lemma sort_keyed_sorted (l : list (Z * A)) : Sorted key_le (sort_keyed l).
Proof.
  induction l as [|[k x] l IH]; simpl; [constructor|].
  now apply insert_by_key_sorted.
Qed.

(** An inserted element passes only elements of smaller key, so the
    elements of each key keep their order. *)
Lemma insert_by_key_stable j k x (l : list (Z * A)) :
  List.filter (fun p => fst p =? j) (insert_by_key k x l)
  = List.filter (fun p => fst p =? j) ((k, x) :: l).
Proof.
  induction l as [|[k' y] l IH]; [reflexivity|].
  cbn [insert_by_key]. destruct (k' <? k) eqn:E; [|reflexivity].
  apply Z.ltb_lt in E. cbn [List.filter fst] in *.
  rewrite IH.
  destruct (k =? j) eqn:Ek, (k' =? j) eqn:Ek'; try reflexivity.
  apply Z.eqb_eq in Ek, Ek'. lia.
Qed.

Lemma sort_keyed_stable j (l : list (Z * A)) :
  List.filter (fun p => fst p =? j) (sort_keyed l)
  = List.filter (fun p => fst p =? j) l.
Proof.
  induction l as [|[k x] l IH]; [reflexivity|].
  cbn [sort_keyed]. rewrite insert_by_key_stable.
  cbn [List.filter]. now rewrite IH.
Qed.

Lemma sort_keyed_length (l : list (Z * A)) :
  List.length (sort_keyed l) = List.length l.
Proof. apply Permutation_length, sort_keyed_perm. Qed.

End StableSort.

(** ** The post-processing stage *)

Section Stage.

Lemma keys_defined_mapM rows :
  keys_defined rows = true -> mapM_result sort_key rows = Ok (List.map key_of rows).
Proof.
  induction rows as [|r rows IH]; simpl; [reflexivity|].
  intros H. apply andb_prop in H as [H1 H2]. rewrite (IH H2).
  unfold key_of. destruct (sort_key r); [reflexivity|discriminate].
Qed.

Lemma keys_undefined_mapM rows :
  keys_defined rows = false -> exists e, mapM_result sort_key rows = Raise e.
Proof.
  induction rows as [|r rows IH]; simpl; [discriminate|].
  destruct (sort_key r) as [k|e]; simpl; [|exists e; reflexivity].
  intros H. destruct (IH H) as [e He]. rewrite He. now exists e.
Qed.

Lemma combine_keys rows : List.combine (List.map key_of rows) rows = tagged rows.
Proof. induction rows as [|r rows IH]; simpl; [reflexivity|now rewrite IH]. Qed.

Lemma sort_rows_defined rows :
  keys_defined rows = true ->
  sort_rows rows = Ok (List.map snd (sort_keyed (tagged rows))).
Proof.
  intros H. unfold sort_rows. rewrite (keys_defined_mapM _ H).
  cbn [mbind result_bind]. now rewrite combine_keys.
Qed.

Lemma sort_rows_undefined rows :
  keys_defined rows = false -> exists e, sort_rows rows = Raise e.
Proof.
  intros H. destruct (keys_undefined_mapM _ H) as [e He].
  exists e. unfold sort_rows. now rewrite He.
Qed.

(** Every pair of the sorted list still carries the key of its record. *)
Lemma tagged_sorted_keys rows :
  Forall (fun p => fst p = key_of (snd p)) (sort_keyed (tagged rows)).
Proof.
  apply (Permutation_Forall (Permutation_sym (sort_keyed_perm (tagged rows)))).
  unfold tagged. apply Forall_map, Forall_forall. reflexivity.
Qed.

Lemma Forall_keys_map (l : list (Z * record)) :
  Forall (fun p => fst p = key_of (snd p)) l ->
  List.map key_of (List.map snd l) = List.map fst l.
Proof.
  induction 1 as [|p l Hp _ IH]; simpl; [reflexivity|]. now rewrite IH, Hp.
Qed.

Lemma Forall_keys_filter k (l : list (Z * record)) :
  Forall (fun p => fst p = key_of (snd p)) l ->
  of_key k (List.map snd l) = List.map snd (List.filter (fun p => fst p =? k) l).
Proof.
  unfold of_key. induction 1 as [|p l Hp _ IH]; simpl; [reflexivity|].
  rewrite IH, Hp. now destruct (key_of (snd p) =? k).
Qed.

Lemma sorted_keys (l : list (Z * record)) :
  Sorted key_le l -> Sorted Z.le (List.map fst l).
Proof.
  induction 1 as [|p l _ IH Hh]; simpl; constructor; [exact IH|].
  destruct Hh; simpl; constructor. assumption.
Qed.

(** The sort orders the records by key, keeps them all, and keeps the
    order of the records of each key. *)
Lemma sorted_rows_spec rows :
  let sorted := List.map snd (sort_keyed (tagged rows)) in
  Sorted Z.le (List.map key_of sorted)
  /\ Permutation sorted rows
  /\ forall k, of_key k sorted = of_key k rows.
Proof.
  cbv zeta. split; [|split].
  - rewrite (Forall_keys_map _ (tagged_sorted_keys rows)).
    apply sorted_keys, sort_keyed_sorted.
  - transitivity (List.map snd (tagged rows)).
    + apply Permutation_map, sort_keyed_perm.
    + unfold tagged. rewrite List.map_map. simpl. now rewrite List.map_id.
  - intros k. rewrite (Forall_keys_filter _ _ (tagged_sorted_keys rows)).
    rewrite sort_keyed_stable. unfold tagged, of_key.
    induction rows as [|r rows IH]; simpl; [reflexivity|].
    destruct (key_of r =? k); simpl; now rewrite IH.
Qed.

Lemma dict_get_set_same r k v : dict_get (dict_set r k v) k = Some v.
Proof.
  induction r as [|[k' v'] r IH]; simpl.
  - now rewrite String.eqb_refl.
  - destruct (String.eqb k' k) eqn:E; simpl; rewrite E; [reflexivity|exact IH].
Qed.

Lemma dict_get_set_other r k v k' :
  k <> k' -> dict_get (dict_set r k v) k' = dict_get r k'.
Proof.
  intros Hk. induction r as [|[k0 v0] r IH]; simpl.
  - destruct (String.eqb k k') eqn:E; [|reflexivity].
    apply String.eqb_eq in E. contradiction.
  - destruct (String.eqb k0 k) eqn:E; simpl.
    + apply String.eqb_eq in E. subst k0.
      destruct (String.eqb k k') eqn:E'; [|reflexivity].
      apply String.eqb_eq in E'. contradiction.
    + destruct (String.eqb k0 k'); [reflexivity|exact IH].
Qed.

Lemma key_of_numbered r v : key_of (dict_set r "sequential_id" v) = key_of r.
Proof.
  unfold key_of, sort_key. now rewrite dict_get_set_other by discriminate.
Qed.

Lemma unnumbered_set r v : unnumbered (dict_set r "sequential_id" v) = unnumbered r.
Proof.
  unfold unnumbered. induction r as [|[k' v'] r IH]; simpl; [reflexivity|].
  destruct (String.eqb k' "sequential_id") eqn:E; simpl; rewrite E; simpl;
    [reflexivity|now rewrite IH].
Qed.

Lemma number_rows_keys rows : forall i,
  List.map key_of (number_rows i rows) = List.map key_of rows.
Proof.
  induction rows as [|r rows IH]; intros i; simpl; [reflexivity|].
  now rewrite key_of_numbered, IH.
Qed.

Lemma number_rows_unnumbered rows : forall i,
  List.map unnumbered (number_rows i rows) = List.map unnumbered rows.
Proof.
  induction rows as [|r rows IH]; intros i; simpl; [reflexivity|].
  now rewrite unnumbered_set, IH.
Qed.

Lemma number_rows_ids rows : forall i,
  sequential_ids (number_rows i rows) = counting_from i (List.length rows).
Proof.
  induction rows as [|r rows IH]; intros i; simpl; [reflexivity|].
  rewrite dict_get_set_same. f_equal. apply IH.
Qed.

Lemma number_rows_app l1 l2 : forall i,
  number_rows i (l1 ++ l2)
  = (number_rows i l1 ++ number_rows (i + Z.of_nat (List.length l1)) l2)%list.
Proof.
  induction l1 as [|r l1 IH]; intros i; simpl.
  - now rewrite Z.add_0_r.
  - rewrite IH. do 3 f_equal. lia.
Qed.

Lemma number_rows_of_key k rows : forall i,
  Forall (fun r => key_of r = k) rows -> of_key k (number_rows i rows) = number_rows i rows.
Proof.
  unfold of_key. induction rows as [|r rows IH]; intros i H; simpl; [reflexivity|].
  inversion H; subst. rewrite key_of_numbered, Z.eqb_refl. now rewrite IH.
Qed.

Lemma number_rows_not_of_key k rows : forall i,
  Forall (fun r => key_of r <> k) rows -> of_key k (number_rows i rows) = [].
Proof.
  unfold of_key. induction rows as [|r rows IH]; intros i H; simpl; [reflexivity|].
  inversion H as [|? ? Hr Hrows]; subst. rewrite key_of_numbered.
  apply Z.eqb_neq in Hr. rewrite Hr. now apply IH.
Qed.

Lemma filter_none {B} (f : B -> bool) (l : list B) :
  Forall (fun x => f x = false) l -> List.filter f l = [].
Proof.
  induction 1 as [|x l Hx _ IH]; simpl; [reflexivity|]. now rewrite Hx.
Qed.

(** In a list sorted by key the records of one key stand together. *)
Lemma sorted_block k rows :
  Sorted Z.le (List.map key_of rows) ->
  rows = (List.filter (fun r => key_of r <? k) rows
          ++ of_key k rows
          ++ List.filter (fun r => k <? key_of r) rows)%list.
Proof.
  intros H. apply Sorted_StronglySorted in H; [|intros x y z; lia].
  unfold of_key. induction rows as [|r rows IH]; [reflexivity|].
  cbn [List.map] in H. inversion H as [|? ? Hs Hall]; subst.
  rewrite Forall_map in Hall. specialize (IH Hs). cbn [List.filter].
  destruct (Z.lt_trichotomy (key_of r) k) as [Hlt|[Heq|Hgt]].
  - replace (key_of r <? k) with true by (symmetry; apply Z.ltb_lt; lia).
    replace (key_of r =? k) with false by (symmetry; apply Z.eqb_neq; lia).
    replace (k <? key_of r) with false by (symmetry; apply Z.ltb_ge; lia).
    cbn [app]. f_equal. exact IH.
  - replace (key_of r <? k) with false by (symmetry; apply Z.ltb_ge; lia).
    replace (key_of r =? k) with true by (symmetry; apply Z.eqb_eq; lia).
    replace (k <? key_of r) with false by (symmetry; apply Z.ltb_ge; lia).
    rewrite (filter_none (fun r0 => key_of r0 <? k)) in *.
    + cbn [app] in *. f_equal. exact IH.
    + eapply Forall_impl; [exact Hall|]. simpl. intros. apply Z.ltb_ge. lia.
    + eapply Forall_impl; [exact Hall|]. simpl. intros. apply Z.ltb_ge. lia.
  - replace (key_of r <? k) with false by (symmetry; apply Z.ltb_ge; lia).
    replace (key_of r =? k) with false by (symmetry; apply Z.eqb_neq; lia).
    replace (k <? key_of r) with true by (symmetry; apply Z.ltb_lt; lia).
    rewrite (filter_none (fun r0 => key_of r0 <? k)) in *.
    + rewrite (filter_none (fun r0 => key_of r0 =? k)) in *.
      * cbn [app] in *. f_equal. exact IH.
      * eapply Forall_impl; [exact Hall|]. simpl. intros. apply Z.eqb_neq. lia.
      * eapply Forall_impl; [exact Hall|]. simpl. intros. apply Z.eqb_neq. lia.
    + eapply Forall_impl; [exact Hall|]. simpl. intros. apply Z.ltb_ge. lia.
    + eapply Forall_impl; [exact Hall|]. simpl. intros. apply Z.ltb_ge. lia.
Qed.

Lemma Forall_filter_holds {B} (f : B -> bool) (l : list B) :
  Forall (fun x => f x = true) (List.filter f l).
Proof.
  induction l as [|x l IH]; simpl; [constructor|].
  destruct (f x) eqn:E; [constructor; assumption|exact IH].
Qed.

(** After the numbering of a sorted list, the records of one key carry
    consecutive numbers. *)
Lemma numbered_block k rows :
  Sorted Z.le (List.map key_of rows) ->
  exists i,
    of_key k (number_rows 1 rows) = number_rows i (of_key k rows).
Proof.
  intros H. set (lt := List.filter (fun r => key_of r <? k) rows).
  set (gt := List.filter (fun r => k <? key_of r) rows).
  exists (1 + Z.of_nat (List.length lt)).
  rewrite (sorted_block k rows H) at 1. fold lt gt.
  rewrite !number_rows_app. unfold of_key at 1.
  rewrite !List.filter_app. fold (of_key k (number_rows 1 lt)).
  fold (of_key k (number_rows (1 + Z.of_nat (List.length lt)) (of_key k rows))).
  rewrite number_rows_not_of_key, number_rows_of_key.
  - cbn [app].
    match goal with |- (_ ++ ?x)%list = _ => replace x with (@nil record) end.
    + apply app_nil_r.
    + symmetry. apply (number_rows_not_of_key k gt).
      unfold gt. eapply Forall_impl; [apply Forall_filter_holds|].
      intros r Hr. simpl in Hr. apply Z.ltb_lt in Hr. lia.
  - unfold of_key. eapply Forall_impl; [apply Forall_filter_holds|].
    intros r Hr. simpl in Hr. apply Z.eqb_eq in Hr. exact Hr.
  - unfold lt. eapply Forall_impl; [apply Forall_filter_holds|].
    intros r Hr. simpl in Hr. apply Z.ltb_lt in Hr. lia.
Qed.

Lemma postprocess_eq rows :
  postprocess rows = sorted ← sort_rows rows; Ok (number_rows 1 sorted).
Proof. destruct rows; reflexivity. Qed.

(** When the key function returns on every record, the stage returns the
    records sorted by key and numbered from 1, and the records of each
    key are in their former order with consecutive numbers. *)
Lemma postprocess_defined rows :
  keys_defined rows = true ->
  exists out,
    postprocess rows = Ok out
    /\ Sorted Z.le (List.map key_of out)
    /\ sequential_ids out = counting_from 1 (List.length rows)
    /\ Permutation (List.map unnumbered out) (List.map unnumbered rows)
    /\ forall k,
         List.map unnumbered (of_key k out) = List.map unnumbered (of_key k rows)
         /\ exists i,
              sequential_ids (of_key k out)
              = counting_from i (List.length (of_key k rows)).
Proof.
  intros H. rewrite postprocess_eq, (sort_rows_defined _ H).
  cbn [mbind result_bind].
  destruct (sorted_rows_spec rows) as (Hs & Hp & Hk).
  set (sorted := List.map snd (sort_keyed (tagged rows))) in *.
  exists (number_rows 1 sorted). split; [reflexivity|].
  split; [now rewrite number_rows_keys|].
  split; [rewrite number_rows_ids; f_equal; now apply Permutation_length|].
  split; [rewrite number_rows_unnumbered; now apply Permutation_map|].
  intros k. destruct (numbered_block k sorted Hs) as [i Hi].
  rewrite Hi, Hk. split; [apply number_rows_unnumbered|].
  exists i. apply number_rows_ids.
Qed.

(** When the key function raises on a record, so does the stage, and no
    record is numbered. *)
Lemma postprocess_undefined rows :
  keys_defined rows = false -> exists e, postprocess rows = Raise e.
Proof.
  intros H. rewrite postprocess_eq.
  destruct (sort_rows_undefined _ H) as [e He]. exists e. now rewrite He.
Qed.

End Stage.

(** ** When the sort key is defined *)

Section SortKey.

Lemma rstrip_by_none p s :
  Str.all (fun c => negb (p c)) s = true -> Str.rstrip_by p s = s.
Proof.
  induction s as [|c s IH]; simpl; [reflexivity|].
  intros H. apply andb_prop in H as [H1 H2]. rewrite (IH H2).
  destruct (p c); [discriminate|]. now rewrite andb_false_r.
Qed.

Lemma strip_by_none p s :
  Str.all (fun c => negb (p c)) s = true -> Str.strip_by p s = s.
Proof.
  intros H. unfold Str.strip_by.
  replace (Str.lstrip_by p s) with s; [now apply rstrip_by_none|].
  destruct s as [|c s]; simpl in *; [reflexivity|].
  apply andb_prop in H as [H1 _]. now destruct (p c).
Qed.

Lemma all_impl (p q : ascii -> bool) s :
  (forall c, p c = true -> q c = true) -> Str.all p s = true -> Str.all q s = true.
Proof.
  intros Hpq. induction s as [|c s IH]; simpl; [reflexivity|].
  intros H. apply andb_prop in H as [H1 H2]. now rewrite (Hpq _ H1), IH.
Qed.


Lemma underscores_ok_none s : forall prev,
  Str.all (fun c => negb (Ascii.eqb c "_")) s = true ->
  PyFloat.underscores_ok prev s = true.
Proof.
  induction s as [|c s IH]; intros prev; simpl; [reflexivity|].
  intros H. apply andb_prop in H as [H1 H2].
  destruct (Ascii.eqb c "_"); [discriminate|]. now apply IH.
Qed.

Lemma remove_none c s :
  Str.all (fun d => negb (Ascii.eqb d c)) s = true -> Str.remove c s = s.
Proof.
  unfold Str.remove. induction s as [|d s IH]; simpl; [reflexivity|].
  intros H. apply andb_prop in H as [H1 H2]. rewrite H1. now rewrite IH.
Qed.



End SortKey.

(** ** The handler *)

Section HandlerFacts.

Variable D : string -> string -> result string.
Variable csv_rows : string -> list (gmap string raw).
Variable csv_text : list record -> string.
Variable strftime : Z -> string.

Local Abbreviation handler := (lambda_handler D csv_rows csv_text strftime).

(** The handler does not touch the object it reads. *)
Lemma handler_keeps_source w :
  objects (snd (handler w)) !! (SOURCE_BUCKET, SOURCE_KEY)
  = objects w !! (SOURCE_BUCKET, SOURCE_KEY).
Proof.
  unfold lambda_handler, now. cbn [objects].
  destruct (objects w !! (SOURCE_BUCKET, SOURCE_KEY)) as [raw_data|] eqn:E;
    [|exact E].
  destruct (transform_rows D (csv_rows raw_data)) as [[|r rows] errors];
    cbn [snd objects put_object]; [exact E|].
  rewrite lookup_insert_ne; [exact E|]. unfold DEST_BUCKET, SOURCE_BUCKET. congruence.
Qed.

(** What the handler writes and reports depends on the object it reads
    only: not on the clock, and not on the other objects. *)
Lemma handler_output_source w w' :
  objects w !! (SOURCE_BUCKET, SOURCE_KEY) = objects w' !! (SOURCE_BUCKET, SOURCE_KEY) ->
  let r := fst (handler w) in
  let r' := fst (handler w') in
  statusCode r = statusCode r'
  /\ written_rows r = written_rows r'
  /\ written_body r = written_body r'
  /\ counts r = counts r'.
Proof.
  intros H. unfold lambda_handler, now. cbn [objects]. rewrite <- H.
  destruct (objects w !! (SOURCE_BUCKET, SOURCE_KEY)) as [raw_data|];
    [|repeat split].
  destruct (transform_rows D (csv_rows raw_data)) as [[|r rows] errors];
    repeat split.
Qed.

End HandlerFacts.

(** ** The floats that a ratio rounds to *)

Section RoundingMore.

Lemma log2_ratio_scale c P q :
  0 < c -> 0 < q <= P -> PyFloat.log2_ratio (c * P) (c * q) = PyFloat.log2_ratio P q.
Proof.
  intros Hc Hq.
  destruct (log2_ratio_spec P q Hq) as (H0 & H1 & H2).
  destruct (log2_ratio_spec (c * P) (c * q) ltac:(nia)) as (H0' & H1' & H2').
  apply (floor_log2_unique (c * P) (c * q)); [nia|exact H0'|exact H0| |].
  - split; assumption.
  - split; nia.
Qed.

Lemma exponent_of_scale c P q :
  0 < c -> 0 < q -> PyFloat.exponent_of (c * P) (c * q) = PyFloat.exponent_of P q.
Proof.
  intros Hc Hq. unfold PyFloat.exponent_of.
  destruct (P <? q) eqn:H.
  - apply Z.ltb_lt in H. replace (c * P <? c * q) with true; [reflexivity|].
    symmetry. apply Z.ltb_lt. nia.
  - apply Z.ltb_ge in H. replace (c * P <? c * q) with false.
    + rewrite log2_ratio_scale by lia. reflexivity.
    + symmetry. apply Z.ltb_ge. nia.
Qed.

Lemma round_ratio_scale s c p q :
  0 < c -> 0 < q ->
  PyFloat.round_ratio s (c * p) (c * q) = PyFloat.round_ratio s p q.
Proof.
  intros Hc Hq. rewrite !round_ratio_unfold by nia. cbv zeta.
  replace (c * p * 2 ^ 1074) with (c * (p * 2 ^ 1074)) by ring.
  rewrite exponent_of_scale by assumption.
  set (E := PyFloat.exponent_of _ _).
  replace (c * q * 2 ^ E) with (c * (q * 2 ^ E)) by ring.
  rewrite div_half_even_cancel; [reflexivity|exact Hc|].
  assert (0 < 2 ^ E) by (apply pow2_pos, exponent_of_nonneg). nia.
Qed.

(** Equal ratios round to the same float. *)
Lemma round_ratio_ext s p1 q1 p2 q2 :
  0 < q1 -> 0 < q2 -> p1 * q2 = p2 * q1 ->
  PyFloat.round_ratio s p1 q1 = PyFloat.round_ratio s p2 q2.
Proof.
  intros H1 H2 He.
  rewrite <- (round_ratio_scale s q2 p1 q1) by assumption.
  rewrite <- (round_ratio_scale s q1 p2 q2) by assumption.
  f_equal; lia.
Qed.

Lemma round_ratio_iff p q mm e :
  0 <= p -> 0 < q ->
  PyFloat.round_ratio false p q = S754_finite false mm e
  <-> rounds_to p q (Zpos mm) (e + 1074).
Proof.
  intros Hp Hq. split.
  - intros H. apply round_ratio_sound in H as (_ & Hc & Hn); [|assumption..].
    split; assumption.
  - intros [Hc Hn].
    rewrite (round_ratio_complete false p q _ _ Hp Hq Hc Hn).
    simpl. f_equal. lia.
Qed.

(** A float is the nearest one to its own value. *)
Lemma rounds_to_exact p q m E :
  0 < q -> canonical m E -> p * 2 ^ 1074 = m * (q * 2 ^ E) -> rounds_to p q m E.
Proof.
  intros Hq Hc He. split; [exact Hc|].
  destruct Hc as [HE _].
  assert (0 < q * 2 ^ E) by (pose proof (pow2_pos E); nia).
  unfold nearest. cbv zeta. rewrite He. split.
  - left. lia.
  - destruct (_ && _); [lia|left; lia].
Qed.

(** The ratios that round to one float form an interval. *)
Lemma rounds_to_between p1 q1 p2 q2 p q m E :
  0 < q1 -> 0 < q2 -> 0 < q ->
  rounds_to p1 q1 m E -> rounds_to p2 q2 m E ->
  p1 * q <= p * q1 -> p * q2 <= p2 * q ->
  rounds_to p q m E.
Proof.
  intros H1 H2 Hq [Hc [_ L1]] [_ [U2 _]] Hlo Hhi.
  split; [exact Hc|]. destruct Hc as [HE _].
  pose proof (pow2_pos E ltac:(lia)) as HpE.
  pose proof (pow2_pos 1074 ltac:(lia)) as Hp.
  unfold nearest in *. cbv zeta in *.
  set (T := 2 ^ 1074) in *. set (B := 2 ^ E) in *.
  split.
  - unfold near_above in *.
    destruct U2 as [U|[U Ev]].
    + left. 
      assert (2 * (p2 * T - m * (q2 * B)) * q < q2 * B * q) by nia.
      assert (p * T * q2 <= p2 * T * q) by nia.
      apply (mul_lt_cancel q2); [exact H2|]. nia.
    + destruct (Z.eq_dec (p * q2) (p2 * q)) as [He|Hne].
      * right. split; [|exact Ev].
        apply (Z.mul_cancel_r _ _ q2); [lia|]. nia.
      * left. apply (mul_lt_cancel q2); [exact H2|]. 
        assert (p * q2 < p2 * q) by lia.
        assert (p * q2 * T < p2 * q * T) by nia. nia.
  - destruct ((m =? 2 ^ 52) && (0 <? E)).
    + apply (mul_le_cancel q1); [exact H1|].
      assert (p1 * q * T <= p * q1 * T) by nia. nia.
    + unfold near_below in *.
      destruct L1 as [L|[L Ev]].
      * left. apply (mul_lt_cancel q1); [exact H1|].
        assert (p1 * q * T <= p * q1 * T) by nia. nia.
      * destruct (Z.eq_dec (p1 * q) (p * q1)) as [He|Hne].
        -- right. split; [|exact Ev].
           apply (Z.mul_cancel_r _ _ q1); [lia|]. nia.
        -- left. apply (mul_lt_cancel q1); [exact H1|].
           assert (p1 * q < p * q1) by lia.
           assert (p1 * q * T < p * q1 * T) by nia. nia.
Qed.

End RoundingMore.

(** ** [round(x, 2)] of a float nearest to a decimal with two fractional digits *)

Section RoundTwo.

Lemma near_above_scale K a b m :
  0 < K -> near_above (a * K) (b * K) m <-> near_above a b m.
Proof.
  intros HK. unfold near_above.
  replace (2 * (a * K - m * (b * K))) with (2 * (a - m * b) * K) by ring.
  split; (intros [H|[H Ev]]; [left|right; split; [|exact Ev]]).
  - apply (mul_lt_cancel K); assumption.
  - apply (Z.mul_cancel_r _ _ K); [lia|exact H].
  - apply Z.mul_lt_mono_pos_r; assumption.
  - rewrite H. reflexivity.
Qed.

Lemma near_below_scale K a b m :
  0 < K -> near_below (a * K) (b * K) m <-> near_below a b m.
Proof.
  intros HK. unfold near_below.
  replace (2 * (m * (b * K) - a * K)) with (2 * (m * b - a) * K) by ring.
  split; (intros [H|[H Ev]]; [left|right; split; [|exact Ev]]).
  - apply (mul_lt_cancel K); assumption.
  - apply (Z.mul_cancel_r _ _ K); [lia|exact H].
  - apply Z.mul_lt_mono_pos_r; assumption.
  - rewrite H. reflexivity.
Qed.

(** Nearness in units of the float's own exponent, for an exponent [-t]
    below zero. *)
Lemma nearest_units c q m t :
  0 <= t <= 1074 ->
  nearest (c * 2 ^ 1074) q m (1074 - t) <->
  near_above (c * 2 ^ t) q m
  /\ (if (m =? 2 ^ 52) && (0 <? 1074 - t) then 4 * (m * q - c * 2 ^ t) <= q
      else near_below (c * 2 ^ t) q m).
Proof.
  intros Ht. unfold nearest. cbv zeta.
  set (K := 2 ^ (1074 - t)).
  assert (HK : 0 < K) by (apply pow2_pos; lia).
  assert (E : c * 2 ^ 1074 = c * 2 ^ t * K).
  { unfold K. rewrite <- Z.mul_assoc, <- Z.pow_add_r by lia. do 2 f_equal. lia. }
  rewrite E, near_above_scale by exact HK.
  destruct (_ && _).
  - split; intros [A B]; (split; [exact A|]).
    + apply (mul_le_cancel K); [exact HK|]. lia.
    + replace (4 * (m * (q * K) - c * 2 ^ t * K)) with (4 * (m * q - c * 2 ^ t) * K) by ring.
      apply Z.mul_le_mono_nonneg_r; lia.
  - rewrite near_below_scale by exact HK. reflexivity.
Qed.

Lemma pow2_small t : 1 <= t <= 6 -> t = 1 \/ t = 2 \/ t = 3 \/ t = 4 \/ t = 5 \/ t = 6.
Proof. lia. Qed.

(** A float nearest to a decimal with two fractional digits is its own
    [round(x, 2)]. *)
Lemma round2_fixed mm e c :
  0 <= c -> rounds_to c 100 (Zpos mm) (e + 1074) ->
  PyFloat.round2 (S754_finite false mm e) = Ok (S754_finite false mm e).
Proof.
  intros Hc [Hcan Hn]. unfold PyFloat.round2.
  set (c2 := if 0 <=? e then _ else _).
  assert (Hc2 : 0 <= c2).
  { unfold c2. destruct (0 <=? e) eqn:He.
    - apply Z.leb_le in He. pose proof (pow2_pos e He). nia.
    - apply div_half_even_nonneg; [lia|]. apply Z.leb_gt in He. apply pow2_pos. lia. }
  assert (Hr : rounds_to c2 100 (Zpos mm) (e + 1074)); cycle 1.
  { apply round_ratio_iff in Hr; [|exact Hc2|lia]. rewrite Hr. reflexivity. }
  unfold c2. clear c2 Hc2.
  destruct (0 <=? e) eqn:He.
  - apply Z.leb_le in He. apply rounds_to_exact; [lia|exact Hcan|].
    rewrite Z.pow_add_r by lia. ring.
  - apply Z.leb_gt in He. split; [exact Hcan|].
    destruct Hcan as [HE Hm].
    set (t := - e) in *.
    replace (e + 1074) with (1074 - t) in * by (unfold t; lia).
    assert (Ht : 1 <= t <= 1074) by (unfold t; lia).
    apply nearest_units in Hn; [|lia]. apply nearest_units; [lia|].
    destruct Hn as [Ha Hl].
    assert (HT : 0 < 2 ^ t) by (apply pow2_pos; lia).
    destruct (div_half_even_spec (100 * Zpos mm) (2 ^ t) HT) as [Ha2 Hl2].
    set (c2 := PyFloat.div_half_even _ _) in *.
    destruct (Z_le_gt_dec t 6) as [Hs|Hs].
    + assert (T52 : 2 ^ 52 = 4503599627370496) by reflexivity.
      unfold near_above, near_below in *.
      destruct (Z.eqb_spec (Zpos mm) (2 ^ 52)) as [Em|Em]; cbn [andb];
        [destruct (Z.ltb_spec 0 (1074 - t)); [|lia]|].
      * rewrite Em, T52 in *.
        destruct (pow2_small t ltac:(lia)) as [-> | [-> | [-> | [-> | [-> | ->]]]]];
          cbn in Ha2, Hl2 |- *; (split; [left|]); lia.
      * destruct (pow2_small t ltac:(lia)) as [-> | [-> | [-> | [-> | [-> | ->]]]]];
          cbn in Ha2, Hl2 |- *; split; left; lia.
    + assert (H128 : 2 ^ 7 <= 2 ^ t) by (apply pow2_le; lia).
      change (2 ^ 7) with 128 in H128.
      assert (Hlow : 2 * (Zpos mm * 100 - c * 2 ^ t) <= 100).
      { destruct (_ && _); [lia|]. unfold near_below in Hl. lia. }
      assert (Hup : 2 * (c * 2 ^ t - Zpos mm * 100) <= 100).
      { unfold near_above in Ha. lia. }
      assert (Ec : c2 = c).
      { apply (nearest_integer_unique (100 * Zpos mm) (2 ^ t)); [exact HT|exact Ha2|exact Hl2| |].
        - left. lia.
        - left. lia. }
      rewrite Ec. split; assumption.
Qed.

End RoundTwo.

(** ** The shortest decimal of a float *)

Section Shortest.

Lemma pow10_pos k : 0 <= k -> 0 < 10 ^ k.
Proof. intros. apply Z.pow_pos_nonneg; lia. Qed.

(** [p / q < 10^d], with both sides scaled by [10^s]. *)
Lemma below_pow10_iff p q d s :
  0 < q -> 0 <= s -> d <= s ->
  FloatRepr.below_pow10 p q d = true <-> p * 10 ^ (s - d) < q * 10 ^ s.
Proof.
  intros Hq Hs Hd. unfold FloatRepr.below_pow10.
  destruct (0 <=? d) eqn:E.
  - apply Z.leb_le in E. rewrite Z.ltb_lt.
    replace s with (d + (s - d)) at 2 by lia. rewrite Z.pow_add_r by lia.
    pose proof (pow10_pos (s - d) ltac:(lia)). split; nia.
  - apply Z.leb_gt in E. rewrite Z.ltb_lt.
    replace (s - d) with (- d + s) by lia. rewrite Z.pow_add_r by lia.
    pose proof (pow10_pos s Hs). split; nia.
Qed.

Lemma below_pow10_mono p q d d' :
  0 <= p -> 0 < q -> d <= d' ->
  FloatRepr.below_pow10 p q d = true -> FloatRepr.below_pow10 p q d' = true.
Proof.
  intros Hp Hq Hd H.
  set (s := Z.max d' 0).
  apply (below_pow10_iff p q d s) in H; [|lia..].
  apply (below_pow10_iff p q d' s); [lia..|].
  assert (10 ^ (s - d') <= 10 ^ (s - d)) by (apply Z.pow_le_mono_r; lia).
  nia.
Qed.

Lemma point_from_le fuel p q d0 D :
  d0 <= D <= d0 + Z.of_nat fuel -> FloatRepr.below_pow10 p q D = true ->
  d0 <= FloatRepr.point_from fuel p q d0 <= D.
Proof.
  revert d0. induction fuel as [|f IH]; intros d0 HD Hb.
  - assert (d0 = D) by lia. subst. simpl. rewrite Hb. lia.
  - cbn [FloatRepr.point_from].
    destruct (FloatRepr.below_pow10 p q d0) eqn:E; [lia|].
    assert (d0 <> D) by (intros ->; congruence).
    specialize (IH (d0 + 1) ltac:(lia) Hb). lia.
Qed.

Lemma point_from_below fuel p q d0 D :
  d0 <= D <= d0 + Z.of_nat fuel -> FloatRepr.below_pow10 p q D = true ->
  FloatRepr.below_pow10 p q (FloatRepr.point_from fuel p q d0) = true.
Proof.
  revert d0. induction fuel as [|f IH]; intros d0 HD Hb.
  - assert (d0 = D) by lia. subst. simpl. rewrite Hb. exact Hb.
  - cbn [FloatRepr.point_from].
    destruct (FloatRepr.below_pow10 p q d0) eqn:E; [exact E|].
    assert (d0 <> D) by (intros ->; congruence).
    apply IH; [lia|exact Hb].
Qed.

(** The decimal point of a value from 0.01 up to 10^16. *)
Lemma decimal_point_bounds p q :
  0 <= p -> 0 < q -> q <= 100 * p -> p < q * 10 ^ 16 ->
  - 1 <= FloatRepr.decimal_point p q <= 16.
Proof.
  intros Hp Hq Hlo Hhi.
  assert (H16 : FloatRepr.below_pow10 p q 16 = true).
  { unfold FloatRepr.below_pow10. simpl (0 <=? 16). apply Z.ltb_lt. exact Hhi. }
  assert (Hm2 : forall d, FloatRepr.below_pow10 p q d = true -> - 1 <= d).
  { intros d Hd. destruct (Z_le_gt_dec (- 1) d) as [H|H]; [exact H|exfalso].
    apply (below_pow10_mono p q d (- 2)) in Hd; [|lia..].
    unfold FloatRepr.below_pow10 in Hd. simpl in Hd. apply Z.ltb_lt in Hd. lia. }
  unfold FloatRepr.decimal_point.
  set (d0 := Z.max (- 330) (Z.min 309 _)).
  destruct (FloatRepr.below_pow10 p q (d0 - 1)) eqn:E.
  - split.
    + apply Hm2. apply (point_from_below _ _ _ _ 16); [simpl; lia|exact H16].
    + apply point_from_le; [simpl; lia|exact H16].
  - assert (d0 <= 16).
    { destruct (Z_le_gt_dec d0 16) as [H|H]; [exact H|exfalso].
      rewrite (below_pow10_mono p q 16 (d0 - 1)) in E; [discriminate|lia..|exact H16]. }
    assert (- 330 <= d0) by (unfold d0; lia).
    split.
    + apply Hm2. apply (point_from_below _ _ _ _ 16); [simpl; lia|exact H16].
    + apply point_from_le; [simpl; lia|exact H16].
Qed.

Lemma exact_ratio_spec m e :
  canonical (Zpos m) (e + 1074) ->
  0 < (FloatRepr.exact_ratio m e).1 /\ 0 < (FloatRepr.exact_ratio m e).2
  /\ rounds_to (FloatRepr.exact_ratio m e).1 (FloatRepr.exact_ratio m e).2 (Zpos m) (e + 1074).
Proof.
  intros Hc. pose proof Hc as [HE _]. unfold FloatRepr.exact_ratio.
  destruct (0 <=? e) eqn:E; cbn [fst snd].
  - apply Z.leb_le in E. pose proof (pow2_pos e E).
    split; [nia|]. split; [lia|].
    apply rounds_to_exact; [lia|exact Hc|].
    rewrite Z.pow_add_r by lia. ring.
  - apply Z.leb_gt in E. pose proof (pow2_pos (- e) ltac:(lia)).
    split; [lia|]. split; [lia|].
    apply rounds_to_exact; [lia|exact Hc|].
    rewrite <- Z.pow_add_r by lia. do 2 f_equal. lia.
Qed.

Lemma float_eqb_eq x y : FloatRepr.eqb x y = true -> x = y.
Proof.
  destruct x as [a|a| |a m e], y as [b|b| |b m' e']; simpl; try discriminate.
  - intros H. apply eqb_prop in H. now subst.
  - intros H. apply eqb_prop in H. now subst.
  - reflexivity.
  - intros H. apply andb_prop in H as [H He]. apply andb_prop in H as [Hs Hm].
    apply eqb_prop in Hs. apply Pos.eqb_eq in Hm. apply Z.eqb_eq in He. now subst.
Qed.

Lemma float_eqb_refl x : FloatRepr.eqb x x = true.
Proof.
  destruct x as [a|a| |a m e]; simpl; try reflexivity; try (now destruct a).
  rewrite Pos.eqb_refl, Z.eqb_refl. now destruct a.
Qed.

(** A candidate reads back as the float. *)
Lemma candidate_sound m e d n c :
  canonical (Zpos m) (e + 1074) ->
  FloatRepr.candidate m e d n = Some c ->
  0 <= c /\ PyFloat.of_decimal false c (d - n) = S754_finite false m e.
Proof.
  intros Hc. destruct (exact_ratio_spec m e Hc) as (Hp & Hq & _).
  unfold FloatRepr.candidate. destruct (FloatRepr.exact_ratio m e) as [p q].
  cbn [fst snd] in Hp, Hq. cbv zeta.
  set (k := d - n).
  set (ab := if 0 <=? k then _ else _).
  assert (Hab : 0 <= ab.1 /\ 0 < ab.2).
  { unfold ab. destruct (0 <=? k) eqn:E; cbn [fst snd].
    - apply Z.leb_le in E. pose proof (pow10_pos k E). nia.
    - apply Z.leb_gt in E. pose proof (pow10_pos (- k) ltac:(lia)). nia. }
  destruct ab as [a b]. cbn [fst snd] in Hab.
  assert (Hlo : 0 <= a / b) by (apply Z.div_pos; lia).
  destruct (FloatRepr.eqb (PyFloat.of_decimal false (a / b) k) _) eqn:E1;
    destruct (FloatRepr.eqb (PyFloat.of_decimal false (a / b + 1) k) _) eqn:E2;
    cbn [andb].
  - apply float_eqb_eq in E1, E2.
    destruct (2 * (a mod b) ?= b); [destruct (Z.even _)| |];
      intros [= <-]; (split; [lia|assumption]).
  - apply float_eqb_eq in E1. intros [= <-]. split; [lia|assumption].
  - apply float_eqb_eq in E2. intros [= <-]. split; [lia|assumption].
  - discriminate.
Qed.

(** With two fractional digits there is a candidate for the float
    nearest to a decimal with two fractional digits. *)
Lemma candidate_two_decimals m e d c0 :
  0 <= c0 -> rounds_to c0 100 (Zpos m) (e + 1074) ->
  FloatRepr.candidate m e d (d + 2) <> None.
Proof.
  intros Hc0 Hr. pose proof Hr as [Hc _].
  destruct (exact_ratio_spec m e Hc) as (Hp & Hq & Hex).
  unfold FloatRepr.candidate. destruct (FloatRepr.exact_ratio m e) as [p q].
  cbn [fst snd] in Hp, Hq, Hex. cbv zeta.
  replace (d - (d + 2)) with (- 2) by lia.
  change (0 <=? - 2) with false. cbv iota. change (10 ^ (- - 2)) with 100.
  set (a := p * 100). 
  pose proof (Z.div_mod a q ltac:(lia)) as Hdm.
  pose proof (Z.mod_pos_bound a q Hq) as Hmod.
  assert (Hlo : 0 <= a / q) by (apply Z.div_pos; lia).
  set (lo := a / q) in *.
  assert (Hor : PyFloat.of_decimal false lo (- 2) = S754_finite false m e
                \/ PyFloat.of_decimal false (lo + 1) (- 2) = S754_finite false m e).
  { unfold PyFloat.of_decimal. change (0 <=? - 2) with false. cbv iota.
    change (10 ^ (- - 2)) with 100.
    destruct (Z_le_gt_dec c0 lo) as [H|H]; [left|right];
      (apply round_ratio_iff; [lia|lia|]).
    - apply (rounds_to_between c0 100 p q); [lia..|exact Hr|exact Hex| |]; lia.
    - apply (rounds_to_between p q c0 100); [lia..|exact Hex|exact Hr| |]; lia. }
  destruct Hor as [H|H]; rewrite H, float_eqb_refl.
  - destruct (FloatRepr.eqb _ _); cbn [andb]; [|discriminate].
    destruct (_ ?= _); [destruct (Z.even _)| |]; discriminate.
  - destruct (FloatRepr.eqb _ _); cbn [andb]; [|discriminate].
    destruct (_ ?= _); [destruct (Z.even _)| |]; discriminate.
Qed.

Lemma shortest_finds fuel m e d n0 n1 :
  n0 <= n1 <= n0 + Z.of_nat fuel ->
  FloatRepr.candidate m e d n1 <> None ->
  exists c n, FloatRepr.shortest fuel m e d n0 = (c, d - n)
              /\ FloatRepr.candidate m e d n = Some c.
Proof.
  revert n0. induction fuel as [|f IH]; intros n0 Hn Hc; cbn [FloatRepr.shortest].
  - assert (n0 = n1) by lia. subst.
    destruct (FloatRepr.candidate m e d n1) as [c|] eqn:E; [|congruence].
    exists c, n1. split; [reflexivity|exact E].
  - destruct (FloatRepr.candidate m e d n0) as [c|] eqn:E.
    + exists c, n0. split; [reflexivity|exact E].
    + assert (n0 <> n1) by (intros ->; congruence).
      apply IH; [lia|exact Hc].
Qed.

End Shortest.

(** ** Numerals *)

Section Numerals.

Lemma digit_char_spec d :
  0 <= d < 10 ->
  Char.isdecimal (FloatRepr.digit_char d) = true
  /\ Char.digit_value (FloatRepr.digit_char d) = d.
Proof.
  intros H.
  assert (Hd : d = 0 \/ d = 1 \/ d = 2 \/ d = 3 \/ d = 4 \/ d = 5 \/ d = 6
               \/ d = 7 \/ d = 8 \/ d = 9) by lia.
  repeat (destruct Hd as [-> | Hd]; [split; reflexivity|]). subst. split; reflexivity.
Qed.

Lemma numeral_decimal n c : Str.all Char.isdecimal (FloatRepr.numeral n c) = true.
Proof.
  induction n as [|n IH]; simpl; [reflexivity|].
  rewrite IH, andb_true_r. apply digit_char_spec. apply Z.mod_pos_bound. lia.
Qed.

Lemma numeral_length n c : String.length (FloatRepr.numeral n c) = n.
Proof. induction n as [|n IH]; simpl; [reflexivity|now rewrite IH]. Qed.

Lemma numeral_value n c : forall acc,
  PyFloat.digits_value acc (FloatRepr.numeral n c)
  = acc * 10 ^ Z.of_nat n + c mod 10 ^ Z.of_nat n.
Proof.
  induction n as [|n IH]; intros acc.
  - simpl. rewrite Z.mod_1_r. lia.
  - cbn [FloatRepr.numeral PyFloat.digits_value]. rewrite IH.
    destruct (digit_char_spec (c / 10 ^ Z.of_nat n mod 10)) as [_ ->].
    { apply Z.mod_pos_bound. lia. }
    replace (Z.of_nat (S n)) with (Z.of_nat n + 1) by lia.
    rewrite Z.pow_add_r by lia. change (10 ^ 1) with 10.
    pose proof (pow10_pos (Z.of_nat n) ltac:(lia)) as Hp.
    rewrite (Z.rem_mul_r c (10 ^ Z.of_nat n) 10) by lia. ring.
Qed.

Lemma count_digits_spec fuel c : forall n,
  c < 10 ^ Z.of_nat (n + fuel) ->
  let r := FloatRepr.count_digits fuel c n in
  (n <= r)%nat /\ c < 10 ^ Z.of_nat r /\ ((n < r)%nat -> 10 ^ (Z.of_nat r - 1) <= c).
Proof.
  induction fuel as [|f IH]; intros n H; cbn [FloatRepr.count_digits].
  - rewrite Nat.add_0_r in H.
    destruct (c <? 10 ^ Z.of_nat n); cbv zeta; (split; [lia|]); (split; [exact H|lia]).
  - destruct (c <? 10 ^ Z.of_nat n) eqn:E; cbv zeta.
    + apply Z.ltb_lt in E. split; [lia|]. split; [exact E|lia].
    + apply Z.ltb_ge in E.
      specialize (IH (S n)). replace (S n + f)%nat with (n + S f)%nat in IH by lia.
      destruct (IH H) as (I1 & I2 & I3). split; [lia|]. split; [exact I2|].
      intros _. destruct (Nat.eq_dec (FloatRepr.count_digits f c (S n)) (S n)) as [Heq|Hne].
      * rewrite Heq. replace (Z.of_nat (S n) - 1) with (Z.of_nat n) by lia. exact E.
      * apply I3. lia.
Qed.

(** The decimal numeral of a positive number: its digits, none of them
    a leading zero. *)
Lemma decimal_spec c :
  0 < c ->
  Str.all Char.isdecimal (FloatRepr.decimal c) = true
  /\ PyFloat.digits_value 0 (FloatRepr.decimal c) = c
  /\ 10 ^ (Str.len (FloatRepr.decimal c) - 1) <= c < 10 ^ Str.len (FloatRepr.decimal c).
Proof.
  intros Hc. unfold FloatRepr.decimal.
  set (fuel := Z.to_nat (Z.log2 c)).
  assert (Hf : c < 10 ^ Z.of_nat (1 + fuel)).
  { destruct (Z.log2_spec c Hc) as [_ H]. pose proof (Z.log2_nonneg c).
    replace (Z.of_nat (1 + fuel)) with (Z.succ (Z.log2 c)) by (unfold fuel; lia).
    eapply Z.lt_le_trans; [exact H|]. apply Z.pow_le_mono_l. lia. }
  destruct (count_digits_spec fuel c 1 Hf) as (H1 & H2 & H3).
  set (n := FloatRepr.count_digits fuel c 1) in *.
  split; [apply numeral_decimal|]. split.
  - rewrite numeral_value. rewrite Z.mod_small; lia.
  - unfold Str.len. rewrite numeral_length. split; [|exact H2].
    destruct (Nat.eq_dec n 1%nat) as [Hn|Hn]; [rewrite Hn; simpl; lia|]. apply H3. lia.
Qed.

Lemma digits_value_app a b : forall acc,
  PyFloat.digits_value acc (a ++ b) = PyFloat.digits_value (PyFloat.digits_value acc a) b.
Proof. induction a as [|c a IH]; intros acc; simpl; [reflexivity|apply IH]. Qed.

Lemma digits_value_zeros z : forall acc,
  PyFloat.digits_value acc (Str.repeat "0" z) = acc * 10 ^ Z.of_nat z.
Proof.
  induction z as [|z IH]; intros acc.
  - simpl. lia.
  - cbn [Str.repeat PyFloat.digits_value]. rewrite IH.
    replace (Z.of_nat (S z)) with (1 + Z.of_nat z) by lia.
    rewrite Z.pow_add_r by lia. change (Char.digit_value "0") with 0. lia.
Qed.

Lemma repeat_length c z : String.length (Str.repeat c z) = z.
Proof. induction z as [|z IH]; simpl; [reflexivity|now rewrite IH]. Qed.

Lemma all_repeat p c z : p c = true -> Str.all p (Str.repeat c z) = true.
Proof. intros H. induction z as [|z IH]; simpl; [reflexivity|now rewrite H, IH]. Qed.

Lemma len_app a b : Str.len (a ++ b) = Str.len a + Str.len b.
Proof. unfold Str.len. rewrite append_length. lia. Qed.

(** Stripping the zeros at the end leaves the text that they follow. *)
Lemma rstrip_zeros s :
  exists z, s = Str.rstrip_by (fun ch => Ascii.eqb ch "0") s ++ Str.repeat "0" z.
Proof.
  induction s as [|c s [z IH]]; [exists O; reflexivity|].
  cbn [Str.rstrip_by].
  destruct (Str.rstrip_by _ s) as [|d r] eqn:E; cbn [Str.is_empty andb].
  - destruct (Ascii.eqb c "0") eqn:Ec.
    + apply Ascii.eqb_eq in Ec. subst c. exists (S z). rewrite IH at 1. reflexivity.
    + exists z. rewrite IH at 1. reflexivity.
  - exists z. rewrite IH at 1. reflexivity.
Qed.

Lemma take_drop n : forall s, Str.take n s ++ FloatRepr.drop n s = s.
Proof.
  induction n as [|n IH]; intros [|c s]; try reflexivity.
  cbn [Str.take FloatRepr.drop].
  change (String c (Str.take n s ++ FloatRepr.drop n s) = String c s).
  now rewrite IH.
Qed.

Lemma drop_length n : forall s,
  String.length (FloatRepr.drop n s) = (String.length s - n)%nat.
Proof. induction n as [|n IH]; intros [|c s]; simpl; try reflexivity. apply IH. Qed.

Lemma all_app_inv p a b :
  Str.all p (a ++ b) = true -> Str.all p a = true /\ Str.all p b = true.
Proof.
  induction a as [|c a IH]; simpl; [now split|].
  intros H. apply andb_prop in H as [H1 H2]. rewrite H1. now apply IH.
Qed.

Lemma span_all_eq p s : Str.all p s = true -> PyFloat.span p s = (s, "").
Proof.
  induction s as [|c s IH]; simpl; [reflexivity|].
  intros H. apply andb_prop in H as [H1 H2]. now rewrite H1, IH.
Qed.

Lemma span_stop p a c b :
  Str.all p a = true -> p c = false ->
  PyFloat.span p (a ++ String c b) = (a, String c b).
Proof.
  intros Ha Hc. induction a as [|d a IH]; simpl; [now rewrite Hc|].
  simpl in Ha. apply andb_prop in Ha as [H1 H2]. now rewrite H1, IH.
Qed.

Lemma price_char_plain_more c :
  is_price_char c = true ->
  Char.isspace_num c = false /\ Ascii.eqb c "_" = false.
Proof.
  destruct c as [[] [] [] [] [] [] [] []]; intros H;
    try discriminate H; split; reflexivity.
Qed.

(** [float] on digits, a point and digits. *)
Lemma of_string_positional ip fp :
  Str.all Char.isdecimal ip = true -> Str.all Char.isdecimal fp = true ->
  ip <> "" ->
  PyFloat.of_string (ip ++ "." ++ fp)
  = Ok (PyFloat.of_digits false (PyFloat.digits_value 0 (ip ++ fp))
          (- Str.len fp) (String.length (ip ++ fp))).
Proof.
  intros Hip Hfp Hne.
  assert (Hd : forall c, Char.isdecimal c = true -> is_price_char c = true).
  { intros c H. unfold is_price_char. now rewrite H. }
  assert (Hall : Str.all is_price_char (ip ++ "." ++ fp) = true).
  { apply all_append; [now apply (all_impl _ _ _ Hd)|].
    simpl. now apply (all_impl _ _ _ Hd). }
  unfold PyFloat.of_string.
  rewrite strip_by_none.
  2:{ eapply all_impl; [|exact Hall]. intros c Hc.
      now destruct (price_char_plain_more c Hc) as [-> _]. }
  assert (Hu : Str.all (fun c => negb (Ascii.eqb c "_")) (ip ++ "." ++ fp) = true).
  { eapply all_impl; [|exact Hall]. intros c Hc.
    now destruct (price_char_plain_more c Hc) as [_ ->]. }
  rewrite underscores_ok_none, remove_none by exact Hu. cbn [negb].
  destruct ip as [|c r]; [congruence|].
  simpl in Hip. apply andb_prop in Hip as [Hc Hr].
  destruct (price_char_plain c (Hd c Hc)) as (Hsign & Hi & Hn).
  change (String c r ++ "." ++ fp) with (String c (r ++ "." ++ fp)).
  rewrite Hsign. cbn [Str.lower Str.map String.eqb]. rewrite Hi, Hn.
  cbn [orb].
  change (String c (r ++ "." ++ fp)) with (String c r ++ String "." fp).
  rewrite span_stop; [|simpl; now rewrite Hc, Hr|reflexivity].
  rewrite span_all_eq by exact Hfp.
  cbn [Str.is_empty andb PyFloat.parse_exponent].
  reflexivity.
Qed.

End Numerals.

(** ** The results of the currency parser *)

Section TwoDecimals.

Lemma round2_two_decimals x y :
  has_sign false x = true -> PyFloat.round2 x = Ok y -> two_decimals y.
Proof.
  destruct x as [[]|[]| |[] m e]; simpl; try discriminate; intros _.
  - intros [= <-]. right. exists 0. split; [lia|reflexivity].
  - intros [= <-]. now left.
  - set (c := if 0 <=? e then _ else _).
    assert (Hc : 0 <= c).
    { unfold c. destruct (0 <=? e) eqn:E.
      - apply Z.leb_le in E. apply Z.mul_nonneg_nonneg; [lia|]. apply Z.pow_nonneg. lia.
      - apply Z.leb_gt in E. apply div_half_even_nonneg; [lia|].
        apply Z.pow_pos_nonneg; lia. }
    destruct (PyFloat.round_ratio false c 100) eqn:E; try discriminate;
      intros [= <-]; right; exists c; split; try exact Hc; now rewrite E.
Qed.

Lemma clean_price_two_decimals v : two_decimals (clean_price v).
Proof.
  assert (Hz : two_decimals PyFloat.zero).
  { right. exists 0. split; [lia|reflexivity]. }
  unfold clean_price. destruct (falsy v); [exact Hz|].
  destruct v as [s|]; [|exact Hz].
  destruct (clean_price_try s) as [x|] eqn:E; simpl; [|exact Hz].
  revert E. unfold clean_price_try. destruct (negb _); [|now intros [= <-]].
  destruct (PyFloat.of_string _) as [y|] eqn:Ey; simpl; [|discriminate].
  apply round2_two_decimals. apply (of_string_unsigned _ _ (all_filter _ _) Ey).
Qed.

Lemma clean_price_catches s :
  clean_price (Some s) = try_except (clean_price_try s) PyFloat.zero.
Proof. destruct s; reflexivity. Qed.

End TwoDecimals.

(** ** Reading the positional text of a float *)

Section Reparse.

Lemma of_decimal_shift s d k j :
  0 <= j -> PyFloat.of_decimal s (d * 10 ^ j) (k - j) = PyFloat.of_decimal s d k.
Proof.
  intros Hj. unfold PyFloat.of_decimal.
  destruct (0 <=? k) eqn:Ek; destruct (0 <=? k - j) eqn:Ekj;
    try apply Z.leb_le in Ek; try apply Z.leb_gt in Ek;
    try apply Z.leb_le in Ekj; try apply Z.leb_gt in Ekj.
  - f_equal. rewrite <- Z.mul_assoc, <- Z.pow_add_r by lia. do 2 f_equal. lia.
  - apply round_ratio_ext; [apply pow10_pos; lia|lia|].
    rewrite <- !Z.mul_assoc, <- Z.pow_add_r by lia. rewrite Z.mul_1_r.
    do 2 f_equal. lia.
  - lia.
  - apply round_ratio_ext; [apply pow10_pos; lia|apply pow10_pos; lia|].
    rewrite <- Z.mul_assoc, <- Z.pow_add_r by lia. do 2 f_equal. lia.
Qed.

Lemma round_ratio_of_zero s q : 0 < q -> PyFloat.round_ratio s 0 q = S754_zero s.
Proof.
  intros Hq. unfold PyFloat.round_ratio. cbv zeta. rewrite Z.mul_0_l.
  unfold PyFloat.exponent_of. replace (0 <? q) with true by (symmetry; apply Z.ltb_lt; exact Hq).
  change (2045 <? 0) with false. cbv iota.
  unfold PyFloat.unit_ratio. change (0 <=? 1074) with true. cbv iota.
  rewrite Z.mul_0_l. unfold PyFloat.div_half_even.
  rewrite Z.div_0_l, Z.mod_0_l by lia. rewrite Z.mul_0_r.
  destruct q; try lia. reflexivity.
Qed.

Lemma of_decimal_of_zero s k : PyFloat.of_decimal s 0 k = S754_zero s.
Proof.
  unfold PyFloat.of_decimal. destruct (0 <=? k) eqn:E.
  - rewrite Z.mul_0_l. apply round_ratio_of_zero. lia.
  - apply round_ratio_of_zero. apply pow10_pos. apply Z.leb_gt in E. lia.
Qed.

(** The float nearest to a positive decimal with two fractional digits
    is at least 0.01. *)
Lemma two_decimals_least m e c0 :
  0 <= c0 -> rounds_to c0 100 (Zpos m) (e + 1074) ->
  (FloatRepr.exact_ratio m e).2 <= 100 * (FloatRepr.exact_ratio m e).1.
Proof.
  intros Hc0 Hr. pose proof Hr as [Hc _].
  destruct (exact_ratio_spec m e Hc) as (Hp & Hq & Hex).
  assert (Hc1 : 1 <= c0).
  { destruct (Z.eq_dec c0 0) as [->|]; [|lia].
    apply round_ratio_iff in Hr; [|lia..]. discriminate Hr. }
  destruct (Z_le_gt_dec (FloatRepr.exact_ratio m e).2 (100 * (FloatRepr.exact_ratio m e).1))
    as [H|H]; [exact H|exfalso].
  assert (H1 : rounds_to 1 100 (Zpos m) (e + 1074)).
  { eapply (rounds_to_between _ _ c0 100 1 100); [exact Hq|lia|lia|exact Hex|exact Hr|lia|lia]. }
  apply round_ratio_iff in H1; [|lia..].
  vm_compute in H1. injection H1 as <- <-. vm_compute in H. discriminate H.
Qed.

Lemma lt_int_exact m e n :
  PyFloat.lt_int (S754_finite false m e) n = true ->
  (FloatRepr.exact_ratio m e).1 < n * (FloatRepr.exact_ratio m e).2.
Proof.
  unfold PyFloat.lt_int, PyFloat.compare_int, FloatRepr.exact_ratio.
  destruct (0 <=? e); cbn [fst snd].
  - destruct (Z.compare_spec (Z.pos m * 2 ^ e) n); try discriminate. lia.
  - destruct (Z.compare_spec (Z.pos m) (n * 2 ^ (- e))); try discriminate. lia.
Qed.

(** The ratio that [of_decimal] rounds. *)
Lemma of_decimal_rounds c k m e :
  0 <= c -> PyFloat.of_decimal false c k = S754_finite false m e ->
  exists p q, 0 < q /\ rounds_to p q (Zpos m) (e + 1074)
    /\ forall s, 0 <= s -> 0 <= s + k -> p * 10 ^ s = c * 10 ^ (s + k) * q.
Proof.
  intros Hc. unfold PyFloat.of_decimal. destruct (0 <=? k) eqn:E.
  - apply Z.leb_le in E. intros H.
    pose proof (pow10_pos k E).
    apply round_ratio_iff in H; [|nia|lia].
    exists (c * 10 ^ k), 1. split; [lia|]. split; [exact H|].
    intros s Hs _. rewrite Z.pow_add_r by lia. ring.
  - apply Z.leb_gt in E. intros H.
    pose proof (pow10_pos (- k) ltac:(lia)).
    apply round_ratio_iff in H; [|lia|lia].
    exists c, (10 ^ (- k)). split; [lia|]. split; [exact H|].
    intros s Hs Hsk. rewrite <- Z.mul_assoc, <- Z.pow_add_r by lia.
    do 2 f_equal. lia.
Qed.

(** The decimal point of a decimal that reads as a float below 10^16 is
    at most 16 places to the right. *)
Lemma point_at_most_16 c k l m e :
  0 <= c -> PyFloat.of_decimal false c k = S754_finite false m e ->
  1 <= l -> 10 ^ (l - 1) <= c ->
  PyFloat.lt_int (S754_finite false m e) (10 ^ 16) = true ->
  k + l <= 16.
Proof.
  intros Hc Hd Hl Hlow Hlt.
  destruct (of_decimal_rounds c k m e Hc Hd) as (p & q & Hq & Hr & Hpq).
  pose proof Hr as [Hcan _].
  destruct (exact_ratio_spec m e Hcan) as (Hp' & Hq' & Hex).
  pose proof (lt_int_exact m e _ Hlt) as Hup.
  destruct (Z_le_gt_dec (k + l) 16) as [H|H]; [exact H|exfalso].
  assert (H16 : rounds_to (10 ^ 16) 1 (Zpos m) (e + 1074)).
  { eapply (rounds_to_between _ _ p q (10 ^ 16) 1); [exact Hq'|exact Hq|lia|exact Hex|exact Hr|lia|].
    rewrite Z.mul_1_r.
    set (s := Z.max 0 (- k)).
    specialize (Hpq s ltac:(lia) ltac:(lia)).
    pose proof (pow10_pos s ltac:(lia)) as Hs.
    apply (mul_le_cancel (10 ^ s)); [exact Hs|].
    replace (p * 10 ^ s) with (c * 10 ^ (s + k) * q) by lia.
    assert (10 ^ 16 * 10 ^ s <= c * 10 ^ (s + k)); [|nia].
    rewrite <- Z.pow_add_r by lia.
    pose proof (pow10_pos (s + k) ltac:(lia)).
    assert (10 ^ (16 + s) <= 10 ^ (l - 1) * 10 ^ (s + k)); [|nia].
    rewrite <- Z.pow_add_r by lia. apply Z.pow_le_mono_r; lia. }
  apply round_ratio_iff in H16; [|lia..].
  vm_compute in H16. injection H16 as <- <-. vm_compute in Hlt. discriminate Hlt.
Qed.

(** The decimal point of a decimal that reads as a float from 0.01 up is
    at most 3 places to the left. *)
Lemma point_at_least_m3 c k l m e :
  0 <= c -> PyFloat.of_decimal false c k = S754_finite false m e ->
  0 <= l -> c < 10 ^ l ->
  (FloatRepr.exact_ratio m e).2 <= 100 * (FloatRepr.exact_ratio m e).1 ->
  - 3 <= k + l.
Proof.
  intros Hc Hd Hl Hup Hlow.
  destruct (of_decimal_rounds c k m e Hc Hd) as (p & q & Hq & Hr & Hpq).
  pose proof Hr as [Hcan _].
  destruct (exact_ratio_spec m e Hcan) as (Hp' & Hq' & Hex).
  destruct (Z_le_gt_dec (- 3) (k + l)) as [H|H]; [exact H|exfalso].
  specialize (Hpq (- k) ltac:(lia) ltac:(lia)).
  replace (- k + k) with 0 in Hpq by lia. rewrite Z.pow_0_r, Z.mul_1_r in Hpq.
  assert (Hk : 10 ^ (l + 4) <= 10 ^ (- k)) by (apply Z.pow_le_mono_r; lia).
  rewrite Z.pow_add_r in Hk by lia. change (10 ^ 4) with 10000 in Hk.
  pose proof (pow10_pos l Hl) as Hpl.
  assert (Hsmall : p * 10000 <= q).
  { apply (mul_le_cancel (10 ^ l)); [exact Hpl|].
    assert (p * 10 ^ (- k) <= 10 ^ l * q) by nia. nia. }
  assert (Hp0 : 0 <= p) by nia.
  assert (H3 : rounds_to 1 1000 (Zpos m) (e + 1074)).
  { eapply (rounds_to_between p q _ _ 1 1000); [exact Hq|exact Hq'|lia|exact Hr|exact Hex|lia|lia]. }
  assert (H2 : rounds_to 1 100 (Zpos m) (e + 1074)).
  { eapply (rounds_to_between p q _ _ 1 100); [exact Hq|exact Hq'|lia|exact Hr|exact Hex|lia|lia]. }
  apply round_ratio_iff in H3; [|lia..]. apply round_ratio_iff in H2; [|lia..].
  rewrite <- H3 in H2. vm_compute in H2. discriminate H2.
Qed.

Lemma of_digits_plain s d k len :
  d <> 0 -> k <= 310 -> - 330 <= k + Z.of_nat len ->
  PyFloat.of_digits s d k len = PyFloat.of_decimal s d k.
Proof.
  intros Hd Hk Hl. unfold PyFloat.of_digits.
  replace (d =? 0) with false by (symmetry; apply Z.eqb_neq; exact Hd).
  replace (310 <? k) with false by (symmetry; apply Z.ltb_ge; exact Hk).
  replace (k + Z.of_nat len <? - 330) with false by (symmetry; apply Z.ltb_ge; exact Hl).
  reflexivity.
Qed.

Lemma append_assoc (a b c : string) : (a ++ b) ++ c = a ++ (b ++ c).
Proof.
  induction a as [|x a IH]; [reflexivity|].
  change (String x ((a ++ b) ++ c) = String x (a ++ (b ++ c))). now rewrite IH.
Qed.

Lemma take_nonempty n s : (0 < n)%nat -> s <> "" -> Str.take n s <> "".
Proof. destruct n, s; simpl; intros; try lia; congruence. Qed.

(** The positional layout of digits [ds], of value [V], with the
    decimal point at [point]: digits, a point and digits, which read as
    [V * 10^(point - n)]. *)
Lemma layout_positional ds point :
  Str.all Char.isdecimal ds = true -> 0 < PyFloat.digits_value 0 ds ->
  - 3 <= point <= 16 ->
  exists ip fp,
    FloatRepr.layout ds point = ip ++ "." ++ fp
    /\ Str.all Char.isdecimal ip = true /\ Str.all Char.isdecimal fp = true
    /\ ip <> ""
    /\ PyFloat.of_digits false (PyFloat.digits_value 0 (ip ++ fp))
         (- Str.len fp) (String.length (ip ++ fp))
       = PyFloat.of_decimal false (PyFloat.digits_value 0 ds) (point - Str.len ds).
Proof.
  intros Hds HV Hpt. unfold FloatRepr.layout.
  set (V := PyFloat.digits_value 0 ds) in *.
  set (n := Str.len ds).
  assert (Hn : 0 <= n) by (unfold n, Str.len; lia).
  assert (Hne : ds <> "") by (intros ->; unfold V in HV; simpl in HV; lia).
  replace ((point <=? - 4) || (16 <? point)) with false.
  2:{ symmetry. apply orb_false_iff. split; [apply Z.leb_gt|apply Z.ltb_ge]; lia. }
  destruct (point <=? 0) eqn:E0.
  - apply Z.leb_le in E0.
    exists "0", (Str.repeat "0" (Z.to_nat (- point)) ++ ds).
    split; [reflexivity|]. split; [reflexivity|].
    split; [apply all_append; [now apply all_repeat|exact Hds]|].
    split; [discriminate|].
    rewrite len_app. unfold Str.len at 1. rewrite repeat_length.
    change ("0" ++ ?x) with (String "0" x).
    change (PyFloat.digits_value 0 (String "0" ?x)) with (PyFloat.digits_value 0 x).
    rewrite digits_value_app, digits_value_zeros. rewrite Z.mul_0_l. fold V. fold n.
    rewrite of_digits_plain; [f_equal; lia|lia|lia|].
    cbn [String.length]. rewrite append_length, repeat_length.
    unfold n, Str.len in *. lia.
  - apply Z.leb_gt in E0. destruct (point <? n) eqn:E1.
    + apply Z.ltb_lt in E1.
      exists (Str.take (Z.to_nat point) ds), (FloatRepr.drop (Z.to_nat point) ds).
      pose proof (take_drop (Z.to_nat point) ds) as Htd.
      split; [reflexivity|].
      assert (Hall := Hds). rewrite <- Htd in Hall. apply all_app_inv in Hall as [Ha Hb].
      split; [exact Ha|]. split; [exact Hb|].
      split; [apply take_nonempty; [lia|exact Hne]|].
      rewrite Htd. fold V. unfold Str.len at 1. rewrite drop_length.
      rewrite of_digits_plain; [f_equal; unfold n, Str.len in *; lia|lia|unfold n, Str.len in *; lia|].
      unfold n, Str.len in *. lia.
    + apply Z.ltb_ge in E1.
      exists (ds ++ Str.repeat "0" (Z.to_nat (point - n))), "0".
      split; [now rewrite append_assoc|].
      split; [apply all_append; [exact Hds|now apply all_repeat]|].
      split; [reflexivity|].
      split; [destruct ds; [congruence|discriminate]|].
      rewrite !digits_value_app, digits_value_zeros. fold V.
      cbn [PyFloat.digits_value]. change (Char.digit_value "0") with 0.
      change (- Str.len "0") with (- 1).
      rewrite of_digits_plain.
      * rewrite <- (of_decimal_shift false V (point - n) (point - n + 1)) by lia.
        f_equal; [|lia].
        rewrite Z.pow_add_r by lia. rewrite Z2Nat.id by lia. change (10 ^ 1) with 10. lia.
      * pose proof (pow10_pos (Z.of_nat (Z.to_nat (point - n))) ltac:(lia)). nia.
      * lia.
      * lia.
Qed.

Lemma filter_all p s : Str.all p s = true -> Str.filter p s = s.
Proof.
  induction s as [|c s IH]; simpl; [reflexivity|].
  intros H. apply andb_prop in H as [H1 H2]. now rewrite H1, IH.
Qed.

(** The currency parser on digits, a point and digits. *)
Lemma clean_price_positional ip fp y :
  Str.all Char.isdecimal ip = true -> Str.all Char.isdecimal fp = true ->
  ip <> "" ->
  PyFloat.of_digits false (PyFloat.digits_value 0 (ip ++ fp))
    (- Str.len fp) (String.length (ip ++ fp)) = y ->
  PyFloat.round2 y = Ok y ->
  clean_price (Some (ip ++ "." ++ fp)) = y.
Proof.
  intros Hip Hfp Hne Hy Hr.
  assert (Hd : forall c, Char.isdecimal c = true -> is_price_char c = true).
  { intros c H. unfold is_price_char. now rewrite H. }
  assert (Hall : Str.all is_price_char (ip ++ "." ++ fp) = true).
  { apply all_append; [now apply (all_impl _ _ _ Hd)|].
    simpl. now apply (all_impl _ _ _ Hd). }
  rewrite clean_price_catches. unfold clean_price_try.
  rewrite (filter_all _ _ Hall).
  rewrite of_string_positional by assumption. rewrite Hy.
  destruct ip as [|c r]; [congruence|].
  cbn [Str.is_empty negb String.append]. cbn [mbind result_bind]. rewrite Hr. reflexivity.
Qed.

End Reparse.

(** ** The currency parser on the text of a result below 10^16 *)

Section Idempotent.

(** The text of a float below 10^16 that is nearest to a decimal with
    two fractional digits parses to the float again. *)
Lemma two_decimals_reparses m e c0 :
  0 <= c0 -> rounds_to c0 100 (Zpos m) (e + 1074) ->
  PyFloat.lt_int (S754_finite false m e) (10 ^ 16) = true ->
  reparses (S754_finite false m e).
Proof.
  intros Hc0 Hr Hlt. pose proof Hr as [Hcan _].
  pose proof (two_decimals_least m e c0 Hc0 Hr) as Hlow.
  pose proof (lt_int_exact m e _ Hlt) as Hup.
  destruct (exact_ratio_spec m e Hcan) as (Hp & Hq & _).
  unfold reparses, FloatRepr.repr, FloatRepr.digits.
  destruct (FloatRepr.exact_ratio m e) as [p q] eqn:Eex. cbn [fst snd] in *.
  pose proof (decimal_point_bounds p q ltac:(lia) Hq Hlow ltac:(lia)) as Hd.
  set (d := FloatRepr.decimal_point p q) in *.
  destruct (shortest_finds 800 m e d 1 (d + 2)) as (c & n & Es & Ec).
  { simpl. lia. }
  { apply (candidate_two_decimals m e d c0 Hc0 Hr). }
  rewrite Es.
  destruct (candidate_sound m e d n c Hcan Ec) as [Hc Hdec].
  assert (Hcpos : 0 < c).
  { destruct (Z.eq_dec c 0) as [->|]; [|lia].
    rewrite of_decimal_of_zero in Hdec. discriminate Hdec. }
  destruct (decimal_spec c Hcpos) as (Hall & Hval & Hlen).
  set (s := FloatRepr.decimal c) in *.
  set (k := d - n) in *.
  assert (Hl1 : 1 <= Str.len s).
  { destruct s; [simpl in Hval; lia|]. unfold Str.len. simpl. lia. }
  pose proof (point_at_most_16 c k (Str.len s) m e Hc Hdec Hl1 (proj1 Hlen) Hlt) as H16.
  assert (Hlow' : (FloatRepr.exact_ratio m e).2 <= 100 * (FloatRepr.exact_ratio m e).1)
    by (rewrite Eex; exact Hlow).
  pose proof (point_at_least_m3 c k (Str.len s) m e Hc Hdec ltac:(lia) (proj2 Hlen) Hlow') as H3.
  destruct (rstrip_zeros s) as [z Hz].
  set (ds := Str.rstrip_by _ s) in *.
  assert (Hds : Str.all Char.isdecimal ds = true) by (apply all_rstrip; exact Hall).
  assert (HV : c = PyFloat.digits_value 0 ds * 10 ^ Z.of_nat z).
  { rewrite <- Hval. rewrite Hz at 1. rewrite digits_value_app, digits_value_zeros. reflexivity. }
  assert (HVpos : 0 < PyFloat.digits_value 0 ds).
  { pose proof (pow10_pos (Z.of_nat z) ltac:(lia)).
    pose proof (digits_value_nonneg ds 0 ltac:(lia) Hds). nia. }
  assert (HL : Str.len s = Str.len ds + Z.of_nat z).
  { rewrite Hz at 1. rewrite len_app. unfold Str.len at 2. now rewrite repeat_length. }
  destruct (layout_positional ds (k + Str.len s) Hds HVpos ltac:(lia))
    as (ip & fp & El & Hip & Hfp & Hne & Hread).
  cbn [String.append]. rewrite El.
  apply clean_price_positional; [exact Hip|exact Hfp|exact Hne| |].
  - rewrite Hread, <- Hdec, HV.
    rewrite <- (of_decimal_shift false (PyFloat.digits_value 0 ds)
                  (k + Str.len s - Str.len ds) (Z.of_nat z)) by lia.
    f_equal. lia.
  - apply (round2_fixed m e c0 Hc0 Hr).
Qed.

Lemma clean_price_reparses v :
  PyFloat.lt_int (clean_price v) (10 ^ 16) = true -> reparses (clean_price v).
Proof.
  pose proof (clean_price_sign v) as Hs.
  pose proof (clean_price_two_decimals v) as Ht.
  destruct (clean_price v) as [[]|[]| |[] m e]; try discriminate Hs; intros Hlt.
  - reflexivity.
  - discriminate Hlt.
  - destruct Ht as [Ht|(c0 & Hc0 & Ht)]; [discriminate Ht|].
    symmetry in Ht. apply round_ratio_iff in Ht; [|lia..].
    apply (two_decimals_reparses m e c0 Hc0 Ht Hlt).
Qed.

End Idempotent.

(** ** Rounding is monotone *)

Section Monotone.

(** Rounding is monotone: of two ratios the greater rounds to the
    greater float. *)
Lemma rounds_to_mono p1 q1 p2 q2 m1 e1 m2 e2 :
  0 <= p1 -> 0 < q1 -> 0 < q2 -> p1 * q2 <= p2 * q1 ->
  rounds_to p1 q1 (Zpos m1) (e1 + 1074) -> rounds_to p2 q2 (Zpos m2) (e2 + 1074) ->
  (FloatRepr.exact_ratio m1 e1).1 * (FloatRepr.exact_ratio m2 e2).2
  <= (FloatRepr.exact_ratio m2 e2).1 * (FloatRepr.exact_ratio m1 e1).2.
Proof.
  intros Hp1 Hq1 Hq2 Hle R1 R2.
  assert (Hp2 : 0 <= p2) by nia.
  pose proof R1 as [C1 _]. pose proof R2 as [C2 _].
  destruct (exact_ratio_spec m1 e1 C1) as (Ha1 & Hb1 & X1).
  destruct (exact_ratio_spec m2 e2 C2) as (Ha2 & Hb2 & X2).
  set (a1 := (FloatRepr.exact_ratio m1 e1).1) in *.
  set (b1 := (FloatRepr.exact_ratio m1 e1).2) in *.
  destruct (Z_le_gt_dec (a1 * (FloatRepr.exact_ratio m2 e2).2)
              ((FloatRepr.exact_ratio m2 e2).1 * b1)) as [H|H]; [exact H|exfalso].
  assert (Heq : S754_finite false m1 e1 = S754_finite false m2 e2).
  { set (a2 := (FloatRepr.exact_ratio m2 e2).1) in *.
    set (b2 := (FloatRepr.exact_ratio m2 e2).2) in *.
    destruct (Z_le_gt_dec (a1 * q2) (p2 * b1)) as [G|G].
    - (* the first float lies between the second and its source *)
      assert (R : rounds_to a1 b1 (Zpos m2) (e2 + 1074)).
      { apply (rounds_to_between a2 b2 p2 q2); [lia..|exact X2|exact R2|lia|lia]. }
      apply round_ratio_iff in R; [|lia..]. apply round_ratio_iff in X1; [|lia..].
      congruence.
    - (* the second source lies between the first source and its float *)
      assert (R : rounds_to p2 q2 (Zpos m1) (e1 + 1074)).
      { apply (rounds_to_between p1 q1 a1 b1); [lia..|exact R1|exact X1|lia|lia]. }
      apply round_ratio_iff in R; [|lia..]. apply round_ratio_iff in R2; [|lia..].
      congruence. }
  injection Heq as Hm He. unfold a1, b1 in H. rewrite Hm, He in H. lia.
Qed.

End Monotone.

(** ** Floats from 10^16 on *)

Section Large.

(** Every float is below 10^309. *)
Lemma exact_ratio_below m e :
  canonical (Zpos m) (e + 1074) ->
  (FloatRepr.exact_ratio m e).1 < (FloatRepr.exact_ratio m e).2 * 10 ^ 309.
Proof.
  intros [HE Hm]. unfold FloatRepr.exact_ratio.
  assert (H53 : Zpos m < 2 ^ 53) by lia.
  assert (Hbig : 2 ^ 53 * 2 ^ 971 < 10 ^ 309) by (apply Z.ltb_lt; vm_compute; reflexivity).
  destruct (0 <=? e) eqn:E; cbn [fst snd].
  - apply Z.leb_le in E.
    assert (2 ^ e <= 2 ^ 971) by (apply pow2_le; lia).
    pose proof (pow2_pos e E). nia.
  - apply Z.leb_gt in E. pose proof (pow2_pos (- e) ltac:(lia)).
    assert (2 ^ 53 < 10 ^ 309) by (apply Z.ltb_lt; vm_compute; reflexivity). nia.
Qed.

Lemma lt_int_exact_ge m e n :
  PyFloat.lt_int (S754_finite false m e) n = false ->
  n * (FloatRepr.exact_ratio m e).2 <= (FloatRepr.exact_ratio m e).1.
Proof.
  unfold PyFloat.lt_int, PyFloat.compare_int, FloatRepr.exact_ratio.
  destruct (0 <=? e); cbn [fst snd].
  - destruct (Z.compare_spec (Z.pos m * 2 ^ e) n); try discriminate; lia.
  - destruct (Z.compare_spec (Z.pos m) (n * 2 ^ (- e))); try discriminate; lia.
Qed.

(** A float from 10^16 on is an integer. *)
Lemma large_exponent m e :
  canonical (Zpos m) (e + 1074) ->
  10 ^ 16 * (FloatRepr.exact_ratio m e).2 <= (FloatRepr.exact_ratio m e).1 ->
  0 <= e.
Proof.
  intros [HE Hm]. unfold FloatRepr.exact_ratio.
  destruct (0 <=? e) eqn:E; cbn [fst snd]; [intros _; now apply Z.leb_le|].
  apply Z.leb_gt in E. pose proof (pow2_pos (- e) ltac:(lia)).
  assert (2 ^ 53 < 10 ^ 16) by reflexivity. nia.
Qed.

(** The decimal point of a float from 10^16 on. *)
Lemma decimal_point_large p q :
  0 <= p -> 0 < q -> p < q * 10 ^ 309 -> q * 10 ^ 16 <= p ->
  17 <= FloatRepr.decimal_point p q <= 309.
Proof.
  intros Hp Hq Hhi Hlo.
  assert (H309 : FloatRepr.below_pow10 p q 309 = true).
  { unfold FloatRepr.below_pow10. change (0 <=? 309) with true. cbv iota.
    apply Z.ltb_lt. exact Hhi. }
  assert (H17 : forall d, FloatRepr.below_pow10 p q d = true -> 17 <= d).
  { intros d Hd. destruct (Z_le_gt_dec 17 d) as [H|H]; [exact H|exfalso].
    apply (below_pow10_mono p q d 16) in Hd; [|lia..].
    unfold FloatRepr.below_pow10 in Hd. change (0 <=? 16) with true in Hd. cbv iota in Hd.
    apply Z.ltb_lt in Hd. lia. }
  unfold FloatRepr.decimal_point.
  set (d0 := Z.max (- 330) (Z.min 309 _)).
  assert (- 330 <= d0 <= 309) by (unfold d0; lia).
  destruct (FloatRepr.below_pow10 p q (d0 - 1)); split.
  - apply H17. apply (point_from_below _ _ _ _ 309); [simpl; lia|exact H309].
  - apply point_from_le; [simpl; lia|exact H309].
  - apply H17. apply (point_from_below _ _ _ _ 309); [simpl; lia|exact H309].
  - apply point_from_le; [simpl; lia|exact H309].
Qed.

(** An integer float has a candidate without fractional digits. *)
Lemma candidate_integer m e d :
  canonical (Zpos m) (e + 1074) -> 0 <= e ->
  FloatRepr.candidate m e d d <> None.
Proof.
  intros Hc He. destruct (exact_ratio_spec m e Hc) as (Hp & Hq & Hex).
  unfold FloatRepr.candidate. unfold FloatRepr.exact_ratio in *.
  replace (0 <=? e) with true in * by (symmetry; apply Z.leb_le; exact He).
  cbn [fst snd] in *. cbv zeta.
  replace (d - d) with 0 by lia. change (0 <=? 0) with true. cbv iota.
  change (1 * 10 ^ 0) with 1. rewrite Z.div_1_r.
  replace (PyFloat.of_decimal false (Z.pos m * 2 ^ e) 0) with (S754_finite false m e).
  - rewrite float_eqb_refl. destruct (FloatRepr.eqb _ _); cbn [andb]; [|discriminate].
    destruct (_ ?= _); [destruct (Z.even _)| |]; discriminate.
  - symmetry. unfold PyFloat.of_decimal. change (0 <=? 0) with true. cbv iota.
    rewrite Z.pow_0_r, Z.mul_1_r. apply round_ratio_iff; [lia|lia|exact Hex].
Qed.

(** The decimal point of a decimal that reads as a float from 10^16 on
    is more than 16 places to the right, unless the float is 10^16. *)
Lemma point_above_16 c k l m e :
  0 <= c -> PyFloat.of_decimal false c k = S754_finite false m e ->
  0 <= l -> c < 10 ^ l ->
  10 ^ 16 * (FloatRepr.exact_ratio m e).2 <= (FloatRepr.exact_ratio m e).1 ->
  17 <= k + l \/ S754_finite false m e = PyFloat.round_ratio false (10 ^ 16) 1.
Proof.
  intros Hc Hd Hl Hup Hge.
  destruct (of_decimal_rounds c k m e Hc Hd) as (p & q & Hq & Hr & Hpq).
  pose proof Hr as [Hcan _].
  destruct (exact_ratio_spec m e Hcan) as (Hp' & Hq' & Hex).
  destruct (Z_le_gt_dec 17 (k + l)) as [H|H]; [left; exact H|right].
  assert (H16 : rounds_to (10 ^ 16) 1 (Zpos m) (e + 1074)).
  { eapply (rounds_to_between p q _ _ (10 ^ 16) 1); [exact Hq|exact Hq'|lia|exact Hr|exact Hex| |lia].
    rewrite Z.mul_1_r.
    set (s := Z.max 0 (- k)).
    specialize (Hpq s ltac:(lia) ltac:(lia)).
    pose proof (pow10_pos s ltac:(lia)) as Hs.
    apply (mul_le_cancel (10 ^ s)); [exact Hs|].
    rewrite Hpq.
    assert (c * 10 ^ (s + k) <= 10 ^ 16 * 10 ^ s); [|nia].
    rewrite <- Z.pow_add_r by lia.
    pose proof (pow10_pos (s + k) ltac:(lia)).
    assert (10 ^ l * 10 ^ (s + k) <= 10 ^ (16 + s)); [|nia].
    rewrite <- Z.pow_add_r by lia. apply Z.pow_le_mono_r; lia. }
  apply round_ratio_iff in H16; [|lia..]. now rewrite H16.
Qed.

(** No decimal that reads as a float has its point more than 309 places
    to the right. *)
Lemma point_at_most_309 c k l m e :
  0 <= c -> PyFloat.of_decimal false c k = S754_finite false m e ->
  1 <= l -> 10 ^ (l - 1) <= c ->
  k + l <= 309.
Proof.
  intros Hc Hd Hl Hlow.
  destruct (of_decimal_rounds c k m e Hc Hd) as (p & q & Hq & Hr & Hpq).
  pose proof Hr as [Hcan _].
  destruct (exact_ratio_spec m e Hcan) as (Hp' & Hq' & Hex).
  pose proof (exact_ratio_below m e Hcan) as Hup.
  destruct (Z_le_gt_dec (k + l) 309) as [H|H]; [exact H|exfalso].
  assert (H309 : rounds_to (10 ^ 309) 1 (Zpos m) (e + 1074)).
  { eapply (rounds_to_between _ _ p q (10 ^ 309) 1); [exact Hq'|exact Hq|lia|exact Hex|exact Hr|lia|].
    rewrite Z.mul_1_r.
    set (s := Z.max 0 (- k)).
    specialize (Hpq s ltac:(lia) ltac:(lia)).
    pose proof (pow10_pos s ltac:(lia)) as Hs.
    apply (mul_le_cancel (10 ^ s)); [exact Hs|].
    replace (p * 10 ^ s) with (c * 10 ^ (s + k) * q) by lia.
    assert (10 ^ 309 * 10 ^ s <= c * 10 ^ (s + k)); [|nia].
    rewrite <- Z.pow_add_r by lia.
    pose proof (pow10_pos (s + k) ltac:(lia)).
    assert (10 ^ (309 + s) <= 10 ^ (l - 1) * 10 ^ (s + k)); [|nia].
    rewrite <- Z.pow_add_r by lia. apply Z.pow_le_mono_r; lia. }
  apply round_ratio_iff in H309; [|lia..].
  vm_compute in H309. discriminate H309.
Qed.

End Large.

(** ** Reading the scientific text of a float *)

Section Scientific.

Lemma filter_app p a b : Str.filter p (a ++ b) = Str.filter p a ++ Str.filter p b.
Proof.
  induction a as [|c a IH]; [reflexivity|].
  change (String c a ++ b) with (String c (a ++ b)). cbn [Str.filter].
  destruct (p c); rewrite IH; reflexivity.
Qed.

Lemma digits_value_bound s : forall acc,
  0 <= acc -> Str.all Char.isdecimal s = true ->
  PyFloat.digits_value acc s < (acc + 1) * 10 ^ Str.len s.
Proof.
  induction s as [|c s IH]; intros acc Ha H.
  - change (acc < (acc + 1) * 1). lia.
  - simpl in H. apply andb_prop in H as [H1 H2].
    cbn [PyFloat.digits_value].
    unfold Char.isdecimal, Char.between in H1. apply andb_prop in H1 as [L U].
    apply Z.leb_le in L, U.
    assert (Hd : 0 <= Char.digit_value c <= 9) by (unfold Char.digit_value; lia).
    specialize (IH (10 * acc + Char.digit_value c) ltac:(lia) H2).
    replace (Str.len (String c s)) with (1 + Str.len s) by (unfold Str.len; simpl; lia).
    rewrite Z.pow_add_r by (unfold Str.len; lia). change (10 ^ 1) with 10.
    pose proof (pow10_pos (Str.len s) ltac:(unfold Str.len; lia)). nia.
Qed.

(** [float] on digits. *)
Lemma of_string_digits ip :
  Str.all Char.isdecimal ip = true -> ip <> "" ->
  PyFloat.of_string ip
  = Ok (PyFloat.of_digits false (PyFloat.digits_value 0 ip) 0 (String.length ip)).
Proof.
  intros Hip Hne.
  assert (Hd : forall c, Char.isdecimal c = true -> is_price_char c = true).
  { intros c H. unfold is_price_char. now rewrite H. }
  assert (Hall : Str.all is_price_char ip = true) by now apply (all_impl _ _ _ Hd).
  unfold PyFloat.of_string.
  rewrite strip_by_none.
  2:{ eapply all_impl; [|exact Hall]. intros c Hc.
      now destruct (price_char_plain_more c Hc) as [-> _]. }
  assert (Hu : Str.all (fun c => negb (Ascii.eqb c "_")) ip = true).
  { eapply all_impl; [|exact Hall]. intros c Hc.
    now destruct (price_char_plain_more c Hc) as [_ ->]. }
  rewrite underscores_ok_none, remove_none by exact Hu. cbn [negb].
  destruct ip as [|c r]; [congruence|].
  pose proof Hip as Hip'.
  simpl in Hip. apply andb_prop in Hip as [Hc Hr].
  destruct (price_char_plain c (Hd c Hc)) as (Hsign & Hi & Hn).
  rewrite Hsign. cbn [Str.lower Str.map String.eqb]. rewrite Hi, Hn.
  cbn [orb].
  rewrite span_all_eq by exact Hip'.
  cbn [Str.is_empty andb PyFloat.parse_exponent].
  replace (String c r ++ "") with (String c r); [reflexivity|].
  clear. generalize (String c r). intros s. induction s as [|x s IH]; [reflexivity|].
  change (String x s = String x (s ++ "")). now rewrite <- IH.
Qed.

(** A float read from a decimal of at most [N], where [N] is a float:
    the float is at most [N]. *)
Lemma of_digits_at_most D k len N mN eN m e :
  0 <= D -> k <= 0 -> D <= N * 10 ^ (- k) ->
  PyFloat.round_ratio false N 1 = S754_finite false mN eN ->
  PyFloat.of_digits false D k len = S754_finite false m e ->
  (FloatRepr.exact_ratio m e).1 * (FloatRepr.exact_ratio mN eN).2
  <= (FloatRepr.exact_ratio mN eN).1 * (FloatRepr.exact_ratio m e).2.
Proof.
  intros HD Hk Hle HN Hd.
  assert (Hdec : PyFloat.of_decimal false D k = S754_finite false m e).
  { revert Hd. unfold PyFloat.of_digits.
    destruct (D =? 0); [discriminate|]. destruct (310 <? k); [discriminate|].
    destruct (_ <? - 330); [discriminate|]. trivial. }
  destruct (of_decimal_rounds D k m e HD Hdec) as (p & q & Hq & Hr & Hpq).
  assert (HN0 : 0 <= N).
  { pose proof (pow10_pos (- k) ltac:(lia)). nia. }
  apply round_ratio_iff in HN; [|lia..].
  specialize (Hpq (- k) ltac:(lia) ltac:(lia)).
  replace (- k + k) with 0 in Hpq by lia. rewrite Z.pow_0_r, Z.mul_1_r in Hpq.
  pose proof (pow10_pos (- k) ltac:(lia)) as Hk10.
  assert (Hp0 : 0 <= p) by nia.
  apply (rounds_to_mono p q N 1); [exact Hp0|exact Hq|lia| |exact Hr|exact HN].
  rewrite Z.mul_1_r. apply (mul_le_cancel (10 ^ (- k))); [exact Hk10|]. nia.
Qed.

(** [round(x, 2)] of a float of at most 10^4 is at most 10^4. *)
Lemma round2_at_most m e m' e' :
  canonical (Zpos m) (e + 1074) ->
  (FloatRepr.exact_ratio m e).1 <= 10 ^ 4 * (FloatRepr.exact_ratio m e).2 ->
  PyFloat.round2 (S754_finite false m e) = Ok (S754_finite false m' e') ->
  (FloatRepr.exact_ratio m' e').1 <= 10 ^ 4 * (FloatRepr.exact_ratio m' e').2.
Proof.
  intros [HE _] Hle. unfold PyFloat.round2.
  set (c2 := if 0 <=? e then _ else _).
  assert (Hc2 : 0 <= c2 <= 10 ^ 6).
  { unfold c2. revert Hle. unfold FloatRepr.exact_ratio.
    change (10 ^ 4) with 10000. change (10 ^ 6) with 1000000.
    destruct (0 <=? e) eqn:Ee; cbn [fst snd]; intros Hle.
    - apply Z.leb_le in Ee. pose proof (pow2_pos e Ee). nia.
    - apply Z.leb_gt in Ee. pose proof (pow2_pos (- e) ltac:(lia)) as Hb.
      split; [apply div_half_even_nonneg; lia|].
      destruct (div_half_even_spec (100 * Zpos m) (2 ^ (- e)) Hb) as [_ Hl].
      set (c := PyFloat.div_half_even _ _) in *.
      assert (c < 1000000 + 1); [|lia].
      apply (mul_lt_cancel (2 ^ (- e))); [exact Hb|].
      unfold near_below in Hl. nia. }
  destruct (PyFloat.round_ratio false c2 100) as [| | |s mm ee] eqn:Er; try discriminate.
  intros [= -> -> ->].
  apply round_ratio_iff in Er; [|lia..].
  assert (H4 : rounds_to (10 ^ 4) 1 (Zpos 5497558138880000) (- 39 + 1074)).
  { apply round_ratio_iff; [lia|lia|]. vm_compute. reflexivity. }
  pose proof (rounds_to_mono c2 100 (10 ^ 4) 1 _ _ _ _ ltac:(lia) ltac:(lia) ltac:(lia)
                ltac:(lia) Er H4) as Hm.
  change (FloatRepr.exact_ratio 5497558138880000 (- 39))
    with (5497558138880000, 2 ^ 39) in Hm. cbn [fst snd] in Hm.
  change (10 ^ 4) with 10000. change (2 ^ 39) with 549755813888 in Hm. lia.
Qed.

End Scientific.

(** ** The currency parser on the text of a result from 10^16 on *)

Section NotIdempotent.

(** The currency parser on digits with at most four of them before the
    point returns at most 10^4. *)
Lemma clean_price_try_small D k len m' e' :
  0 <= D -> k <= 0 -> D <= 10 ^ 4 * 10 ^ (- k) ->
  (x ← Ok (PyFloat.of_digits false D k len); PyFloat.round2 x) = Ok (S754_finite false m' e') ->
  (FloatRepr.exact_ratio m' e').1 <= 10 ^ 4 * (FloatRepr.exact_ratio m' e').2.
Proof.
  intros HD Hk Hle. cbn [mbind result_bind].
  pose proof (of_digits_sign false D k len) as Hs.
  destruct (PyFloat.of_digits false D k len) as [s|s| |s m e] eqn:Ed;
    try (simpl; discriminate).
  destruct s; [discriminate Hs|].
  assert (H4 : PyFloat.round_ratio false (10 ^ 4) 1 = S754_finite false 5497558138880000 (- 39))
    by (vm_compute; reflexivity).
  pose proof (of_digits_at_most D k len _ _ _ m e HD Hk Hle H4 Ed) as Hm.
  change (FloatRepr.exact_ratio 5497558138880000 (- 39))
    with (5497558138880000, 2 ^ 39) in Hm. cbn [fst snd] in Hm.
  change (2 ^ 39) with 549755813888 in Hm.
  assert (Hcan : canonical (Zpos m) (e + 1074)).
  { revert Ed. unfold PyFloat.of_digits.
    destruct (D =? 0); [discriminate|]. destruct (310 <? k); [discriminate|].
    destruct (_ <? - 330); [discriminate|]. intros Ed.
    destruct (of_decimal_rounds D k m e HD Ed) as (p & q & _ & [Hc _] & _). exact Hc. }
  apply round2_at_most; [exact Hcan|]. change (10 ^ 4) with 10000. lia.
Qed.

Lemma exponent_digits x :
  16 <= x <= 308 ->
  exists a, FloatRepr.exponent_text x = String "+" a
            /\ Str.all Char.isdecimal a = true /\ Str.len a <= 3.
Proof.
  intros Hx. unfold FloatRepr.exponent_text.
  replace (x <? 0) with false by (symmetry; apply Z.ltb_ge; lia).
  rewrite Z.abs_eq by lia.
  destruct (decimal_spec x ltac:(lia)) as (Hall & _ & Hlen).
  set (a := FloatRepr.decimal x) in *.
  assert (Hl : Str.len a <= 3).
  { destruct (Z_le_gt_dec (Str.len a) 3) as [H|H]; [exact H|exfalso].
    assert (10 ^ 3 <= 10 ^ (Str.len a - 1)) by (apply Z.pow_le_mono_r; lia).
    change (10 ^ 3) with 1000 in *. lia. }
  destruct (Str.len a <? 2) eqn:E.
  - apply Z.ltb_lt in E. exists ("0" ++ a). split; [reflexivity|].
    split; [exact Hall|]. change ("0" ++ a) with (String "0" a).
    unfold Str.len in *. cbn [String.length]. lia.
  - exists a. split; [reflexivity|]. split; [exact Hall|exact Hl].
Qed.

(** The currency parser on the scientific layout of a float returns at
    most 10^4. *)
Lemma clean_price_scientific ds point m' e' :
  Str.all Char.isdecimal ds = true -> ds <> "" -> 16 < point <= 309 ->
  clean_price (Some (FloatRepr.layout ds point)) = S754_finite false m' e' ->
  (FloatRepr.exact_ratio m' e').1 <= 10 ^ 4 * (FloatRepr.exact_ratio m' e').2.
Proof.
  intros Hds Hne Hpt. unfold FloatRepr.layout.
  replace ((point <=? - 4) || (16 <? point)) with true.
  2:{ symmetry. apply orb_true_iff. right. apply Z.ltb_lt. lia. }
  destruct (exponent_digits (point - 1) ltac:(lia)) as (a & -> & Ha & Hla).
  destruct ds as [|c0 rest]; [congruence|].
  cbn [Str.take FloatRepr.drop].
  simpl in Hds. apply andb_prop in Hds as [Hc0 Hrest].
  assert (Hd : forall c, Char.isdecimal c = true -> is_price_char c = true).
  { intros c H. unfold is_price_char. now rewrite H. }
  assert (Fa : Str.filter is_price_char a = a)
    by (apply filter_all; now apply (all_impl _ _ _ Hd)).
  assert (Frest : Str.filter is_price_char rest = rest)
    by (apply filter_all; now apply (all_impl _ _ _ Hd)).
  pose proof (pow10_pos (Str.len a) ltac:(unfold Str.len; lia)) as Hpa.
  assert (H3 : 10 ^ Str.len a <= 10 ^ 3) by (apply Z.pow_le_mono_r; [lia|exact Hla]).
  change (10 ^ 3) with 1000 in H3.
  rewrite clean_price_catches. unfold clean_price_try.
  destruct rest as [|c1 rest'].
  - (* one digit: the digit and the exponent *)
    cbn [Str.is_empty].
    change (String c0 "" ++ "" ++ "e" ++ String "+" a) with (String c0 (String "e" (String "+" a))).
    cbn [Str.filter]. rewrite (Hd c0 Hc0). change (is_price_char "e") with false.
    change (is_price_char "+") with false. cbv iota. rewrite Fa.
    cbn [Str.is_empty negb].
    rewrite of_string_digits; [|simpl; now rewrite Hc0, Ha|discriminate].
    destruct (x ← Ok _; PyFloat.round2 x) as [y|] eqn:Ey; [|discriminate].
    cbn [try_except]. intros ->.
    apply clean_price_try_small in Ey; [exact Ey| | |].
    { apply digits_value_nonneg; [lia|simpl; now rewrite Hc0, Ha]. }
    { lia. }
    pose proof (digits_value_bound (String c0 a) 0 ltac:(lia)
                  ltac:(simpl; now rewrite Hc0, Ha)) as Hb.
    replace (Str.len (String c0 a)) with (1 + Str.len a) in Hb by (unfold Str.len; cbn [String.length]; lia).
    rewrite Z.pow_add_r in Hb by (unfold Str.len; lia).
    change (10 ^ 1) with 10 in Hb. change (10 ^ (- 0)) with 1. change (10 ^ 4) with 10000. lia.
  - (* more digits: a digit, a point, the digits and the exponent *)
    cbn [Str.is_empty].
    remember (String c1 rest') as fr eqn:Efr in *.
    change (String c0 "" ++ ("." ++ fr) ++ "e" ++ String "+" a)
      with (String c0 (String "." (fr ++ String "e" (String "+" a)))).
    cbn [Str.filter]. rewrite (Hd c0 Hc0). change (is_price_char ".") with true. cbv iota.
    rewrite filter_app, Frest.
    cbn [Str.filter]. change (is_price_char "e") with false.
    change (is_price_char "+") with false. cbv iota. rewrite Fa.
    cbn [Str.is_empty negb].
    change (String c0 (String "." (fr ++ a))) with (String c0 "" ++ "." ++ (fr ++ a)).
    assert (Hfp : Str.all Char.isdecimal (fr ++ a) = true) by (apply all_append; assumption).
    rewrite of_string_positional; [|simpl; now rewrite Hc0|exact Hfp|discriminate].
    destruct (x ← Ok _; PyFloat.round2 x) as [y|] eqn:Ey; [|discriminate].
    cbn [try_except]. intros ->.
    assert (Hall : Str.all Char.isdecimal (String c0 "" ++ fr ++ a) = true).
    { change (String c0 "" ++ fr ++ a) with (String c0 (fr ++ a)).
      cbn [Str.all]. rewrite Hc0. exact Hfp. }
    apply clean_price_try_small in Ey; [exact Ey| | |].
    { apply digits_value_nonneg; [lia|exact Hall]. }
    { unfold Str.len. lia. }
    pose proof (digits_value_bound _ 0 ltac:(lia) Hall) as Hb.
    replace (Str.len (String c0 "" ++ fr ++ a)) with (1 + Str.len (fr ++ a)) in Hb
      by (change (String c0 "" ++ fr ++ a) with (String c0 (fr ++ a));
          unfold Str.len; cbn [String.length]; lia).
    rewrite Z.pow_add_r in Hb by (unfold Str.len; lia).
    change (10 ^ 1) with 10 in Hb. rewrite Z.opp_involutive.
    pose proof (pow10_pos (Str.len (fr ++ a)) ltac:(unfold Str.len; lia)).
    change (10 ^ 4) with 10000. lia.
Qed.

(** The text of a float from 10^16 on that the parser returns does not
    parse to the float again. *)
Lemma large_not_reparses m e c0 :
  0 <= c0 -> rounds_to c0 100 (Zpos m) (e + 1074) ->
  PyFloat.lt_int (S754_finite false m e) (10 ^ 16) = false ->
  ~ reparses (S754_finite false m e).
Proof.
  intros Hc0 Hr Hlt.
  destruct (FloatRepr.eqb (S754_finite false m e) (PyFloat.round_ratio false (10 ^ 16) 1))
    eqn:E16.
  { apply float_eqb_eq in E16. vm_compute in E16. injection E16 as -> ->.
    intros H. vm_compute in H. discriminate H. }
  pose proof Hr as [Hcan _].
  pose proof (lt_int_exact_ge m e _ Hlt) as Hge.
  pose proof (large_exponent m e Hcan Hge) as He.
  pose proof (exact_ratio_below m e Hcan) as Hup.
  destruct (exact_ratio_spec m e Hcan) as (Hp & Hq & _).
  unfold reparses, FloatRepr.repr, FloatRepr.digits.
  destruct (FloatRepr.exact_ratio m e) as [p q] eqn:Eex. cbn [fst snd] in *.
  pose proof (decimal_point_large p q ltac:(lia) Hq Hup ltac:(lia)) as Hd.
  set (d := FloatRepr.decimal_point p q) in *.
  destruct (shortest_finds 800 m e d 1 d) as (c & n & Es & Ec).
  { simpl. lia. }
  { apply (candidate_integer m e d Hcan He). }
  rewrite Es.
  destruct (candidate_sound m e d n c Hcan Ec) as [Hc Hdec].
  assert (Hcpos : 0 < c).
  { destruct (Z.eq_dec c 0) as [->|]; [|lia].
    rewrite of_decimal_of_zero in Hdec. discriminate Hdec. }
  destruct (decimal_spec c Hcpos) as (Hall & Hval & Hlen).
  set (s := FloatRepr.decimal c) in *.
  set (k := d - n) in *.
  assert (Hl1 : 1 <= Str.len s).
  { destruct s; [simpl in Hval; lia|]. unfold Str.len. simpl. lia. }
  pose proof (point_at_most_309 c k (Str.len s) m e Hc Hdec Hl1 (proj1 Hlen)) as H309.
  assert (Hge' : 10 ^ 16 * (FloatRepr.exact_ratio m e).2 <= (FloatRepr.exact_ratio m e).1)
    by (rewrite Eex; exact Hge).
  destruct (point_above_16 c k (Str.len s) m e Hc Hdec ltac:(lia) (proj2 Hlen) Hge')
    as [H17|H16].
  - destruct (rstrip_zeros s) as [z Hz].
    set (ds := Str.rstrip_by _ s) in *.
    assert (Hds : Str.all Char.isdecimal ds = true) by (apply all_rstrip; exact Hall).
    assert (Hne : ds <> "").
    { intros E0. rewrite E0 in Hz. rewrite Hz in Hval.
      change ("" ++ ?x) with x in Hval. rewrite digits_value_zeros in Hval. lia. }
    cbn [String.append]. intros Hrep.
    pose proof (clean_price_scientific ds (k + Str.len s) m e Hds Hne ltac:(lia) Hrep) as Hsmall.
    rewrite Eex in Hsmall. cbn [fst snd] in Hsmall.
    change (10 ^ 16) with 10000000000000000 in Hge.
    change (10 ^ 4) with 10000 in Hsmall. lia.
  - rewrite <- H16, float_eqb_refl in E16. discriminate E16.
Qed.

(** The currency parser returns the same value on the text of its
    result exactly when the result is below 10^16. *)
Lemma clean_price_reparses_iff v :
  reparses (clean_price v) <-> PyFloat.lt_int (clean_price v) (10 ^ 16) = true.
Proof.
  split; [|apply clean_price_reparses].
  pose proof (clean_price_sign v) as Hs.
  pose proof (clean_price_two_decimals v) as Ht.
  destruct (clean_price v) as [[]|[]| |[] m e]; try discriminate Hs.
  - reflexivity.
  - intros H. vm_compute in H. discriminate H.
  - destruct Ht as [Ht|(c0 & Hc0 & Ht)]; [discriminate Ht|].
    symmetry in Ht. apply round_ratio_iff in Ht; [|lia..].
    destruct (PyFloat.lt_int (S754_finite false m e) (10 ^ 16)) eqn:E; [reflexivity|].
    intros H. exfalso. exact (large_not_reparses m e c0 Hc0 Ht E H).
Qed.

End NotIdempotent.

(** ** How the field normalizers compose *)

Section Helpers.

Lemma clean_int_of_clean_float v :
  clean_int v = try_except (PyFloat.to_int (clean_float v)) 0.
Proof.
  unfold clean_int, clean_float.
  destruct (falsy v || is_na v); [reflexivity|].
  destruct v as [s|]; [|reflexivity].
  destruct (PyFloat.of_string s) as [x|e]; reflexivity.
Qed.

Lemma is_empty_eq s : Str.is_empty s = true -> s = "".
Proof. destruct s; [reflexivity|discriminate]. Qed.

Lemma clean_percentage_of_clean_float s :
  clean_percentage (Some s) = clean_float (Some (Str.strip (Str.remove "%" s))).
Proof.
  unfold clean_percentage, clean_float, falsy, is_na.
  destruct (Str.is_empty s) eqn:Es.
  { apply is_empty_eq in Es. subst s. reflexivity. }
  destruct (String.eqb s "N/A") eqn:En.
  { apply String.eqb_eq in En. subst s. reflexivity. }
  cbn [orb].
  set (t := Str.strip (Str.remove "%" s)).
  destruct (Str.is_empty t) eqn:Et.
  { apply is_empty_eq in Et. rewrite Et. reflexivity. }
  destruct (String.eqb t "N/A") eqn:Ea.
  { apply String.eqb_eq in Ea. rewrite Ea. reflexivity. }
  reflexivity.
Qed.

Lemma filter_idempotent p s : Str.filter p (Str.filter p s) = Str.filter p s.
Proof. apply filter_all, all_filter. Qed.

Lemma clean_price_filtered s :
  clean_price (Some s) = clean_price (Some (Str.filter is_price_char s)).
Proof.
  rewrite !clean_price_catches. unfold clean_price_try.
  rewrite filter_idempotent. reflexivity.
Qed.

Lemma lower_idempotent_char c : Char.lower (Char.lower c) = Char.lower c.
Proof. destruct c as [[] [] [] [] [] [] [] []]; reflexivity. Qed.

Lemma lower_idempotent s : Str.lower (Str.lower s) = Str.lower s.
Proof.
  unfold Str.lower. induction s as [|c s IH]; [reflexivity|].
  cbn [Str.map]. now rewrite lower_idempotent_char, IH.
Qed.

Lemma lower_empty s : Str.is_empty (Str.lower s) = Str.is_empty s.
Proof. destruct s; reflexivity. Qed.

End Helpers.

(** ** Integers that are floats *)

Section Exact.

(** An integer below 2^53 is a float. *)
Lemma round_ratio_integer s n :
  0 < n < 2 ^ 53 ->
  exists m e, PyFloat.round_ratio s n 1 = S754_finite s m e
              /\ e <= 0 /\ Zpos m = n * 2 ^ (- e).
Proof.
  intros Hn.
  set (L := Z.log2 n).
  destruct (Z.log2_spec n ltac:(lia)) as [L1 L2]. fold L in L1, L2.
  pose proof (Z.log2_nonneg n) as L0. fold L in L0.
  assert (HL : L <= 52).
  { destruct (Z_le_gt_dec L 52) as [H|H]; [exact H|exfalso].
    assert (2 ^ 53 <= 2 ^ L) by (apply pow2_le; lia). lia. }
  set (m := n * 2 ^ (52 - L)).
  assert (Hp : 0 < 2 ^ (52 - L)) by (apply pow2_pos; lia).
  assert (Hm : 2 ^ 52 <= m < 2 ^ 53).
  { unfold m. replace (2 ^ 52) with (2 ^ L * 2 ^ (52 - L)).
    - replace (2 ^ 53) with (2 ^ Z.succ L * 2 ^ (52 - L)); [nia|].
      rewrite <- Z.pow_add_r by lia. f_equal. lia.
    - rewrite <- Z.pow_add_r by lia. f_equal. lia. }
  assert (Hcan : canonical m (1022 + L)).
  { split; [lia|]. left. exact Hm. }
  assert (Hr : rounds_to n 1 m (1022 + L)).
  { apply rounds_to_exact; [lia|exact Hcan|].
    unfold m. rewrite Z.mul_1_l, <- Z.mul_assoc, <- Z.pow_add_r by lia.
    do 2 f_equal. lia. }
  destruct Hr as [_ Hnear].
  assert (Hm0 : 0 < m) by (assert (0 < 2 ^ 52) by reflexivity; lia).
  exists (Z.to_pos m), (L - 52).
  rewrite (round_ratio_complete s n 1 m (1022 + L)) by (lia || assumption).
  split; [f_equal; lia|]. split; [lia|].
  rewrite Z2Pos.id by lia. unfold m. do 2 f_equal. lia.
Qed.

Lemma to_int_integer s m e n :
  e <= 0 -> Zpos m = n * 2 ^ (- e) ->
  PyFloat.to_int (S754_finite s m e) = Ok (if s then - n else n).
Proof.
  intros He Hm. unfold PyFloat.to_int.
  destruct (0 <=? e) eqn:E.
  - apply Z.leb_le in E. assert (e = 0) by lia. subst e.
    change (2 ^ (- 0)) with 1 in Hm. rewrite Z.pow_0_r. rewrite Hm.
    destruct s; f_equal; lia.
  - rewrite Hm. rewrite Z.div_mul; [reflexivity|].
    apply Z.leb_gt in E. pose proof (pow2_pos (- e) ltac:(lia)). lia.
Qed.

(** [int(float(s))] of a numeral of an integer below 2^53, and of the
    same with a fraction of zeros. *)
Lemma clean_int_numeral ip z :
  Str.all Char.isdecimal ip = true -> ip <> "" ->
  PyFloat.digits_value 0 ip < 2 ^ 53 ->
  clean_int (Some ip) = PyFloat.digits_value 0 ip
  /\ clean_int (Some (ip ++ "." ++ Str.repeat "0" z)) = PyFloat.digits_value 0 ip.
Proof.
  intros Hip Hne Hlt.
  pose proof (digits_value_nonneg ip 0 ltac:(lia) Hip) as H0.
  set (V := PyFloat.digits_value 0 ip) in *.
  assert (Hdec : (x ← Ok (PyFloat.of_decimal false V 0); PyFloat.to_int x) = Ok V).
  { cbn [mbind result_bind]. unfold PyFloat.of_decimal. change (0 <=? 0) with true. cbv iota.
    rewrite Z.pow_0_r, Z.mul_1_r.
    destruct (Z.eq_dec V 0) as [->|Hnz]; [reflexivity|].
    destruct (round_ratio_integer false V ltac:(lia)) as (m & e & -> & He & Hm).
    apply (to_int_integer false m e V He Hm). }
  assert (Hna : forall t, is_na (Some (ip ++ t)) = false).
  { intros t. destruct ip as [|c r]; [congruence|].
    simpl in Hip. apply andb_prop in Hip as [Hc _].
    unfold is_na. change (String c r ++ t) with (String c (r ++ t)).
    cbn [String.eqb]. destruct (Ascii.eqb c "N") eqn:Ec; [|reflexivity].
    apply Ascii.eqb_eq in Ec. subst c. discriminate Hc. }
  assert (Hfa : forall t, falsy (Some (ip ++ t)) = false).
  { intros t. destruct ip; [congruence|reflexivity]. }
  split.
  - unfold clean_int.
    replace ip with (ip ++ "") at 1 2 by (clear; induction ip as [|c s IH];
      [reflexivity|change (String c (s ++ "") = String c s); now rewrite IH]).
    rewrite Hfa, Hna. cbn [orb].
    replace (ip ++ "") with ip by (clear; induction ip as [|c s IH];
      [reflexivity|change (String c s = String c (s ++ "")); now rewrite <- IH]).
    rewrite of_string_digits by assumption. fold V.
    destruct (Z.eq_dec V 0) as [Hz|Hnz].
    + unfold PyFloat.of_digits. rewrite Hz. reflexivity.
    + rewrite of_digits_plain by lia. rewrite Hdec. reflexivity.
  - unfold clean_int. rewrite Hfa, Hna. cbn [orb].
    rewrite of_string_positional; [|exact Hip|now apply all_repeat|exact Hne].
    rewrite digits_value_app, digits_value_zeros. fold V.
    unfold Str.len. rewrite repeat_length.
    destruct (Z.eq_dec V 0) as [Hz|Hnz].
    + unfold PyFloat.of_digits. rewrite Hz. reflexivity.
    + pose proof (pow10_pos (Z.of_nat z) ltac:(lia)).
      rewrite of_digits_plain; [|nia|lia|rewrite append_length, repeat_length; lia].
      rewrite <- (Z.sub_0_l (Z.of_nat z)), of_decimal_shift by lia.
      rewrite Hdec. reflexivity.
Qed.

End Exact.

(** ** The currency parser on a plain price *)

Section ExactPrice.

(** A float read from a decimal with at most two fractional digits is
    its own [round(x, 2)]. *)
Lemma round2_of_two_decimals D k len :
  0 <= D -> - 2 <= k <= 0 ->
  PyFloat.round2 (PyFloat.of_digits false D k len) = Ok (PyFloat.of_digits false D k len).
Proof.
  intros HD Hk.
  pose proof (of_digits_sign false D k len) as Hs.
  destruct (PyFloat.of_digits false D k len) as [s|s| |s m e] eqn:Ed; try reflexivity.
  destruct s; [discriminate Hs|].
  assert (Hdec : PyFloat.of_decimal false D k = S754_finite false m e).
  { revert Ed. unfold PyFloat.of_digits.
    destruct (D =? 0); [discriminate|]. destruct (310 <? k); [discriminate|].
    destruct (_ <? - 330); [discriminate|]. trivial. }
  assert (Hc : PyFloat.round_ratio false (D * 10 ^ (k + 2)) 100 = S754_finite false m e).
  { rewrite <- Hdec. unfold PyFloat.of_decimal.
    pose proof (pow10_pos (k + 2) ltac:(lia)) as Hp.
    destruct (0 <=? k) eqn:E.
    - apply Z.leb_le in E. assert (k = 0) by lia. subst k.
      apply round_ratio_ext; [lia|lia|]. change (10 ^ (0 + 2)) with 100.
      rewrite Z.pow_0_r. ring.
    - apply Z.leb_gt in E. pose proof (pow10_pos (- k) ltac:(lia)) as Hq.
      apply round_ratio_ext; [lia|lia|].
      rewrite <- Z.mul_assoc, <- Z.pow_add_r by lia.
      replace (k + 2 + - k) with 2 by lia. reflexivity. }
  pose proof (pow10_pos (k + 2) ltac:(lia)) as Hp.
  apply round_ratio_iff in Hc; [|nia|lia].
  apply (round2_fixed m e (D * 10 ^ (k + 2))); [nia|exact Hc].
Qed.

(** The currency parser on a plain price with at most two decimals
    returns what [float] reads. *)
Lemma clean_price_plain ip fp :
  Str.all Char.isdecimal ip = true -> ip <> "" ->
  Str.all Char.isdecimal fp = true -> Str.len fp <= 2 ->
  clean_price (Some (ip ++ "." ++ fp)) = float_lit (ip ++ "." ++ fp)
  /\ clean_price (Some ip) = float_lit ip.
Proof.
  intros Hip Hne Hfp Hl.
  assert (Hl0 : 0 <= Str.len fp) by (unfold Str.len; lia).
  split.
  - unfold float_lit. rewrite of_string_positional by assumption. cbn [try_except].
    apply clean_price_positional; [exact Hip|exact Hfp|exact Hne|reflexivity|].
    apply round2_of_two_decimals; [|lia].
    apply digits_value_nonneg; [lia|]. now apply all_append.
  - unfold float_lit. rewrite of_string_digits by assumption. cbn [try_except].
    assert (Hd : forall c, Char.isdecimal c = true -> is_price_char c = true).
    { intros c H. unfold is_price_char. now rewrite H. }
    rewrite clean_price_catches. unfold clean_price_try.
    rewrite filter_all by (now apply (all_impl _ _ _ Hd)).
    rewrite of_string_digits by assumption.
    destruct ip as [|c r]; [congruence|]. cbn [Str.is_empty negb mbind result_bind].
    rewrite round2_of_two_decimals; [reflexivity| |lia].
    apply digits_value_nonneg; [lia|exact Hip].
Qed.

End ExactPrice.

(** ** The quotient and its rounding return *)

Section Quotient.

Lemma digits2_pos_spec p : Zpos p < 2 ^ Zpos (digits2_pos p).
Proof.
  induction p as [p IH|p IH|]; cbn [digits2_pos]; [| |reflexivity];
    rewrite Pos2Z.inj_succ, Z.pow_succ_r by lia; lia.
Qed.

Lemma shr_1_bound r k :
  0 <= k -> 0 <= shr_m r < 2 ^ (k + 1) -> 0 <= shr_m (shr_1 r) < 2 ^ k.
Proof.
  intros Hk. rewrite pow2_succ by exact Hk. pose proof (pow2_pos k Hk).
  destruct r as [m r s]. cbn [shr_m].
  destruct m as [|[p|p|]|p]; cbn [shr_1 shr_m]; lia.
Qed.

Lemma iter_shr_1_bound p : forall r k,
  0 <= k -> 0 <= shr_m r < 2 ^ (k + Zpos p) ->
  0 <= shr_m (SpecFloat.iter_pos shr_1 p r) < 2 ^ k.
Proof.
  induction p as [p IH|p IH|]; intros r k Hk H; cbn [SpecFloat.iter_pos].
  - apply IH; [exact Hk|]. apply IH; [lia|].
    apply shr_1_bound; [lia|]. replace (k + Z.pos p + Z.pos p + 1) with (k + Z.pos p~1) by lia.
    exact H.
  - apply IH; [exact Hk|]. apply IH; [lia|].
    replace (k + Z.pos p + Z.pos p) with (k + Z.pos p~0) by lia. exact H.
  - apply shr_1_bound; assumption.
Qed.

(** After the shift to the format the mantissa has at most 53 bits. *)
Lemma shr_fexp_bound m e l :
  0 <= m ->
  0 <= shr_m (fst (shr_fexp PyFloat.prec PyFloat.emax m e l)) < 2 ^ 53.
Proof.
  intros Hm. unfold shr_fexp, shr.
  assert (Hd : m < 2 ^ Zdigits2 m /\ 0 <= Zdigits2 m).
  { destruct m as [|p|p]; cbn [Zdigits2]; [split; [reflexivity|lia]| |lia].
    split; [apply digits2_pos_spec|lia]. }
  destruct Hd as [Hd Hd0].
  set (d := Zdigits2 m) in *.
  assert (Hn : d - 53 <= fexp PyFloat.prec PyFloat.emax (d + e) - e).
  { unfold fexp, PyFloat.prec. lia. }
  set (n := fexp PyFloat.prec PyFloat.emax (d + e) - e) in *.
  assert (Hrec : shr_m (shr_record_of_loc m l) = m) by (destruct l as [|[]]; reflexivity).
  destruct n as [|p|p] eqn:En; cbn [fst].
  - rewrite Hrec. split; [exact Hm|].
    assert (2 ^ d <= 2 ^ 53) by (apply pow2_le; lia). lia.
  - apply iter_shr_1_bound; [lia|]. rewrite Hrec. split; [exact Hm|].
    assert (2 ^ d <= 2 ^ (53 + Z.pos p)) by (apply pow2_le; lia). lia.
  - rewrite Hrec. split; [exact Hm|].
    assert (2 ^ d <= 2 ^ 53) by (apply pow2_le; lia). lia.
Qed.

(** A finite result of the rounding of the library has a mantissa of at
    most 53 bits and an exponent of at most 971. *)
Lemma binary_round_aux_bound s mx ex lx s' m e :
  0 <= mx ->
  binary_round_aux PyFloat.prec PyFloat.emax s mx ex lx = S754_finite s' m e ->
  Zpos m < 2 ^ 53 /\ e <= 971.
Proof.
  intros Hmx. unfold binary_round_aux.
  pose proof (shr_fexp_bound mx ex lx Hmx) as H1.
  destruct (shr_fexp PyFloat.prec PyFloat.emax mx ex lx) as [mrs' e']. cbn [fst] in H1.
  set (m2 := round_nearest_even _ _).
  assert (Hm2 : 0 <= m2).
  { unfold m2, round_nearest_even.
    destruct (loc_of_shr_record mrs') as [|[]]; [lia| |lia|lia].
    destruct (Z.even _); lia. }
  pose proof (shr_fexp_bound m2 e' loc_Exact Hm2) as H2.
  destruct (shr_fexp PyFloat.prec PyFloat.emax m2 e' loc_Exact) as [mrs'' e''].
  cbn [fst] in H2.
  destruct (shr_m mrs'') as [|p|p]; [discriminate| |discriminate].
  destruct (e'' <=? PyFloat.emax - PyFloat.prec) eqn:E; [|discriminate].
  intros [= <- <- <-]. apply Z.leb_le in E. unfold PyFloat.emax, PyFloat.prec in E.
  split; [apply H2|lia].
Qed.

Lemma SFdiv_bound x y s m e :
  SFdiv PyFloat.prec PyFloat.emax x y = S754_finite s m e ->
  Zpos m < 2 ^ 53 /\ e <= 971.
Proof.
  destruct x as [sx|sx| |sx mx ex], y as [sy|sy| |sy my ey]; cbn [SFdiv]; try discriminate.
  unfold SFdiv_core_binary.
  set (e' := Z.min _ _). set (sh := ex - ey - e').
  set (m' := match sh with 0 => Z.pos mx | Z.pos _ => Z.shiftl (Z.pos mx) sh | Z.neg _ => 0 end).
  assert (Hm' : 0 <= m').
  { unfold m'. destruct sh; [lia| |lia]. apply Z.shiftl_nonneg. lia. }
  pose proof (Z.div_pos m' (Z.pos my) Hm' ltac:(lia)) as Hq.
  unfold Z.div in Hq.
  destruct (Z.div_eucl m' (Z.pos my)) as [q r]. cbn [fst] in Hq.
  apply binary_round_aux_bound. exact Hq.
Qed.

(** A value that rounds to infinity is at least 2^1024 - 2^970. *)
Lemma round_ratio_inf_inv s p q s' :
  0 <= p -> 0 < q ->
  PyFloat.round_ratio s p q = S754_infinity s' ->
  (2 ^ 54 - 1) * 2 ^ 971 * q <= 2 * p.
Proof.
  intros Hp Hq. rewrite round_ratio_unfold by exact Hq. cbv zeta.
  set (P := p * 2 ^ 1074).
  assert (HP : 0 <= P) by (unfold P; pose proof (pow2_pos 1074); lia).
  destruct (exponent_of_spec P q HP Hq) as (HE & Hb & Hup & Hlow).
  set (E := PyFloat.exponent_of P q) in *. set (b := q * 2 ^ E) in *.
  assert (T : 2 ^ 2045 = 2 ^ 971 * 2 ^ 1074) by (rewrite <- Z.pow_add_r by lia; reflexivity).
  assert (P1074 : 0 < 2 ^ 1074) by (apply pow2_pos; lia).
  assert (P971 : 0 < 2 ^ 971) by (apply pow2_pos; lia).
  assert (T54 : 2 ^ 54 = 2 * 2 ^ 53) by reflexivity.
  assert (T53 : 2 ^ 53 = 2 * 2 ^ 52) by reflexivity.
  assert (P52 : 0 < 2 ^ 52) by reflexivity.
  destruct (2045 <? E) eqn:HE1.
  - intros _. apply Z.ltb_lt in HE1. specialize (Hlow ltac:(lia)).
    assert (2 * 2 ^ 2045 <= 2 ^ E) by (apply pow2_double; lia).
    assert (Hb2 : 2 * (q * 2 ^ 2045) <= b) by (unfold b; nia).
    apply (mul_le_cancel (2 ^ 1074)); [exact P1074|].
    fold P in Hlow |- *. 
    assert (2 ^ 52 * (2 * (q * 2 ^ 2045)) <= 2 ^ 52 * b)
      by (apply Z.mul_le_mono_nonneg_l; lia).
    rewrite T in *. nia.
  - apply Z.ltb_ge in HE1.
    destruct (div_half_even_spec P b Hb) as [Ha Hbl].
    set (m := PyFloat.div_half_even P b) in *.
    destruct (m =? 2 ^ 53) eqn:Em.
    + apply Z.eqb_eq in Em.
      destruct (2045 <? E + 1) eqn:HE2; [|discriminate]. intros _.
      apply Z.ltb_lt in HE2. assert (E = 2045) by lia.
      unfold near_below in Hbl. rewrite Em in Hbl.
      assert (Hb' : 2 * (2 ^ 53 * b - P) <= b) by lia.
      unfold b in Hb'. rewrite H in Hb'. rewrite T in Hb'.
      apply (mul_le_cancel (2 ^ 1074)); [exact P1074|]. fold P. nia.
    + replace (2045 <? E) with false by (symmetry; apply Z.ltb_ge; lia).
      destruct m; discriminate.
Qed.

(** [round(x, 2)] returns on a float of at most 53 bits and an exponent
    of at most 971. *)
Lemma round2_returns s m e :
  Zpos m < 2 ^ 53 -> e <= 971 -> is_ok (PyFloat.round2 (S754_finite s m e)) = true.
Proof.
  intros Hm He. unfold PyFloat.round2.
  set (c := if 0 <=? e then _ else _).
  assert (T53 : 2 ^ 53 = 9007199254740992) by reflexivity.
  assert (P971 : 2 <= 2 ^ 971).
  { assert (2 ^ 1 <= 2 ^ 971) by (apply pow2_le; lia). exact H. }
  assert (Hc : 0 <= c /\ 2 * c <= 200 * ((2 ^ 53 - 1) * 2 ^ 971)).
  { unfold c. destruct (0 <=? e) eqn:E.
    - apply Z.leb_le in E. pose proof (pow2_pos e E).
      assert (2 ^ e <= 2 ^ 971) by (apply pow2_le; lia).
      split; [nia|].
      assert (Z.pos m * 2 ^ e <= (2 ^ 53 - 1) * 2 ^ 971); [|lia].
      apply Z.mul_le_mono_nonneg; lia.
    - apply Z.leb_gt in E. pose proof (pow2_pos (- e) ltac:(lia)) as Hb.
      split; [apply div_half_even_nonneg; lia|].
      destruct (div_half_even_spec (100 * Zpos m) (2 ^ (- e)) Hb) as [_ Hl].
      set (d := PyFloat.div_half_even _ _) in *.
      assert (d < 100 * 2 ^ 53 + 1).
      { apply (mul_lt_cancel (2 ^ (- e))); [exact Hb|]. unfold near_below in Hl. nia. }
      nia. }
  destruct (PyFloat.round_ratio s c 100) as [| s'| |] eqn:Er; try reflexivity.
  exfalso. apply round_ratio_inf_inv in Er; [|lia..].
  assert (T54 : 2 ^ 54 = 18014398509481984) by reflexivity.
  rewrite T54, T53 in *. nia.
Qed.

End Quotient.

(** ** The price per guest returns *)

Section Returns.

Lemma of_digits_canonical s D k len s' m e :
  0 <= D -> PyFloat.of_digits s D k len = S754_finite s' m e ->
  canonical (Zpos m) (e + 1074).
Proof.
  intros HD. unfold PyFloat.of_digits.
  destruct (D =? 0); [discriminate|]. destruct (310 <? k); [discriminate|].
  destruct (_ <? - 330); [discriminate|]. unfold PyFloat.of_decimal.
  destruct (0 <=? k) eqn:E; intros H.
  - apply Z.leb_le in E. pose proof (pow10_pos k E).
    apply round_ratio_sound in H; [apply H|nia|lia].
  - apply Z.leb_gt in E. pose proof (pow10_pos (- k) ltac:(lia)).
    apply round_ratio_sound in H; [apply H|lia|lia].
Qed.

(** A finite float that [float] reads has 53 bits, or fewer at the least
    exponent. *)
Lemma of_string_canonical str s m e :
  PyFloat.of_string str = Ok (S754_finite s m e) -> canonical (Zpos m) (e + 1074).
Proof.
  unfold PyFloat.of_string.
  destruct (negb (PyFloat.underscores_ok None _)); [discriminate|].
  destruct (PyFloat.split_sign _) as [neg r].
  destruct (String.eqb _ "inf" || String.eqb _ "infinity"); [discriminate|].
  destruct (String.eqb _ "nan"); [discriminate|].
  destruct (PyFloat.span Char.isdecimal r) as [ip r1] eqn:Eip.
  pose proof (span_all Char.isdecimal r) as Hip. rewrite Eip in Hip. simpl in Hip.
  set (frac := match r1 with String "." r' => _ | _ => _ end).
  assert (Hfp : Str.all Char.isdecimal (fst frac) = true).
  { unfold frac. destruct r1 as [|d r']; [reflexivity|].
    destruct (Ascii.eqb d ".") eqn:Ed.
    - apply Ascii.eqb_eq in Ed. subst d. apply span_all.
    - destruct d as [[] [] [] [] [] [] [] []]; try reflexivity; discriminate Ed. }
  destruct frac as [fp r2]. simpl in Hfp.
  destruct (Str.is_empty ip && Str.is_empty fp); [discriminate|].
  destruct (PyFloat.parse_exponent r2); [|discriminate].
  intros [= H]. apply of_digits_canonical in H; [exact H|].
  apply digits_value_nonneg; [lia|now apply all_append].
Qed.

Lemma to_int_bound s m e n :
  canonical (Zpos m) (e + 1074) ->
  PyFloat.to_int (S754_finite s m e) = Ok n ->
  Z.abs n <= (2 ^ 53 - 1) * 2 ^ 971.
Proof.
  intros [HE Hm]. unfold PyFloat.to_int.
  assert (T53 : 2 ^ 53 = 9007199254740992) by reflexivity.
  assert (P971 : 1 <= 2 ^ 971) by (pose proof (pow2_pos 971); lia).
  assert (Hm53 : Zpos m <= 2 ^ 53 - 1) by lia.
  set (a := if 0 <=? e then _ else _).
  assert (Ha : 0 <= a <= (2 ^ 53 - 1) * 2 ^ 971).
  { unfold a. destruct (0 <=? e) eqn:E.
    - apply Z.leb_le in E. pose proof (pow2_pos e E).
      assert (2 ^ e <= 2 ^ 971) by (apply pow2_le; lia).
      split; [nia|]. apply Z.mul_le_mono_nonneg; lia.
    - apply Z.leb_gt in E. pose proof (pow2_pos (- e) ltac:(lia)) as Hb.
      split; [apply Z.div_pos; lia|].
      assert (Zpos m / 2 ^ (- e) <= Zpos m) by (apply Z.div_le_upper_bound; nia).
      nia. }
  intros [= <-]. destruct s; lia.
Qed.

(** [clean_int] returns an integer of the range of the floats. *)
Lemma clean_int_bound v : Z.abs (clean_int v) <= (2 ^ 53 - 1) * 2 ^ 971.
Proof.
  assert (H0 : Z.abs 0 <= (2 ^ 53 - 1) * 2 ^ 971).
  { pose proof (pow2_pos 971 ltac:(lia)). assert (2 ^ 53 = 9007199254740992) by reflexivity.
    simpl Z.abs. nia. }
  unfold clean_int. destruct (falsy v || is_na v); [exact H0|].
  destruct v as [s|]; [|exact H0].
  destruct (PyFloat.of_string s) as [x|] eqn:Ex; cbn [mbind result_bind try_except]; [|exact H0].
  destruct (PyFloat.to_int x) as [n|] eqn:En; cbn [try_except]; [|exact H0].
  destruct x as [sx|sx| |sx m e]; try discriminate En.
  - injection En as <-. exact H0.
  - pose proof (of_string_canonical _ _ _ _ Ex) as Hc.
    exact (to_int_bound _ _ _ _ Hc En).
Qed.

Lemma of_int_returns n :
  Z.abs n <= (2 ^ 53 - 1) * 2 ^ 971 -> is_ok (PyFloat.of_int n) = true.
Proof.
  intros Hn. unfold PyFloat.of_int.
  destruct (PyFloat.round_ratio (n <? 0) (Z.abs n) 1) as [| s'| |] eqn:Er; try reflexivity.
  exfalso. apply round_ratio_inf_inv in Er; [|lia..].
  assert (T54 : 2 ^ 54 = 18014398509481984) by reflexivity.
  assert (T53 : 2 ^ 53 = 9007199254740992) by reflexivity.
  pose proof (pow2_pos 971 ltac:(lia)). rewrite T54, T53 in *. nia.
Qed.

(** The price per guest is computed without an exception, whatever the
    price and the text of [accommodates]. *)
Lemma price_per_guest_returns price v :
  is_ok (price_per_guest price (clean_int v)) = true.
Proof.
  unfold price_per_guest, PyFloat.div_int.
  pose proof (clean_int_bound v) as Hb.
  assert (Hmax : Z.abs (Z.max (clean_int v) 1) <= (2 ^ 53 - 1) * 2 ^ 971).
  { assert (T53 : 2 ^ 53 = 9007199254740992) by reflexivity.
    pose proof (pow2_pos 971 ltac:(lia)). lia. }
  pose proof (of_int_returns _ Hmax) as Hok.
  pose proof (of_int_nonzero (Z.max (clean_int v) 1)) as Hnz.
  destruct (PyFloat.of_int (Z.max (clean_int v) 1)) as [y|] eqn:Ey; [|discriminate Hok].
  cbn [mbind result_bind].
  destruct y as [z| | |sy my ey]; cbn [mbind result_bind].
  - exfalso. apply (Hnz z); [lia|reflexivity].
  - destruct (SFdiv _ _ _ _) as [| | |sq mq eq] eqn:Ed; try reflexivity.
    destruct (SFdiv_bound _ _ _ _ _ Ed). now apply round2_returns.
  - destruct (SFdiv _ _ _ _) as [| | |sq mq eq] eqn:Ed; try reflexivity.
    destruct (SFdiv_bound _ _ _ _ _ Ed). now apply round2_returns.
  - destruct (SFdiv _ _ _ _) as [| | |sq mq eq] eqn:Ed; try reflexivity.
    destruct (SFdiv_bound _ _ _ _ _ Ed). now apply round2_returns.
Qed.

End Returns.

(** ** The sign of the quotient *)

Section QuotientSign.

(** The rounding of the library keeps the sign. *)
Lemma binary_round_aux_sign s mx ex lx :
  0 <= mx ->
  has_sign s (binary_round_aux PyFloat.prec PyFloat.emax s mx ex lx) = true.
Proof.
  intros Hmx. unfold binary_round_aux.
  pose proof (shr_fexp_bound mx ex lx Hmx) as H1.
  destruct (shr_fexp PyFloat.prec PyFloat.emax mx ex lx) as [mrs' e']. cbn [fst] in H1.
  set (m2 := round_nearest_even _ _).
  assert (Hm2 : 0 <= m2).
  { unfold m2, round_nearest_even.
    destruct (loc_of_shr_record mrs') as [|[]]; [lia| |lia|lia].
    destruct (Z.even _); lia. }
  pose proof (shr_fexp_bound m2 e' loc_Exact Hm2) as H2.
  destruct (shr_fexp PyFloat.prec PyFloat.emax m2 e' loc_Exact) as [mrs'' e''].
  cbn [fst] in H2.
  destruct (shr_m mrs'') as [|p|p]; [now destruct s| |lia].
  destruct (e'' <=? PyFloat.emax - PyFloat.prec); now destruct s.
Qed.

(** The quotient of two positive floats is not negative and not NaN. *)
Lemma SFdiv_sign mx ex my ey :
  has_sign false
    (SFdiv PyFloat.prec PyFloat.emax (S754_finite false mx ex) (S754_finite false my ey))
  = true.
Proof.
  cbn [SFdiv xorb]. unfold SFdiv_core_binary.
  set (e' := Z.min _ _). set (sh := ex - ey - e').
  set (m' := match sh with 0 => Z.pos mx | Z.pos _ => Z.shiftl (Z.pos mx) sh | Z.neg _ => 0 end).
  assert (Hm' : 0 <= m').
  { unfold m'. destruct sh; [lia| |lia]. apply Z.shiftl_nonneg. lia. }
  pose proof (Z.div_pos m' (Z.pos my) Hm' ltac:(lia)) as Hq.
  unfold Z.div in Hq.
  destruct (Z.div_eucl m' (Z.pos my)) as [q r]. cbn [fst] in Hq.
  apply binary_round_aux_sign. exact Hq.
Qed.

(** The float of a positive integer is positive and finite. *)
Lemma of_int_positive n y :
  1 <= n -> PyFloat.of_int n = Ok y -> exists m e, y = S754_finite false m e.
Proof.
  intros Hn H. pose proof (of_int_nonzero n) as Hz.
  revert H. unfold PyFloat.of_int in *.
  replace (n <? 0) with false in * by (symmetry; apply Z.ltb_ge; lia).
  pose proof (round_ratio_sign false (Z.abs n) 1) as Hs.
  destruct (PyFloat.round_ratio false (Z.abs n) 1) as [z|z| |s m e]; try discriminate.
  - exfalso. apply (Hz z); [lia|reflexivity].
  - intros [= <-]. destruct s; [discriminate Hs|]. now exists m, e.
Qed.

(** A price within the bounds of the row loop is a positive finite
    float. *)
Lemma price_within_bounds price :
  has_sign false price = true ->
  PyFloat.le_int price 0 = false -> PyFloat.gt_int price 10000 = false ->
  exists m e, price = S754_finite false m e.
Proof.
  destruct price as [[]|[]| |[] m e]; simpl; try discriminate; intros _ _ _.
  now exists m, e.
Qed.

(** The price per guest of a price within the bounds is an amount. *)
Lemma price_per_guest_amount price acc ppg :
  has_sign false price = true ->
  PyFloat.le_int price 0 = false -> PyFloat.gt_int price 10000 = false ->
  price_per_guest price acc = Ok ppg ->
  has_sign false ppg = true /\ two_decimals ppg.
Proof.
  intros Hs H0 H1. destruct (price_within_bounds price Hs H0 H1) as (m & e & ->).
  unfold price_per_guest, PyFloat.div_int.
  destruct (PyFloat.of_int (Z.max acc 1)) as [y|] eqn:Ey; cbn [mbind result_bind]; [|discriminate].
  destruct (of_int_positive (Z.max acc 1) y (Z.le_max_r acc 1) Ey) as (my & ey & ->).
  cbn [mbind result_bind]. intros Hr.
  pose proof (SFdiv_sign m e my ey) as Hq.
  split; [exact (round2_sign _ _ _ Hq Hr)|exact (round2_two_decimals _ _ Hq Hr)].
Qed.

End QuotientSign.

(** ** The exceptions of the loop body *)

Section Errors.

Variable D : string -> string -> result string.

Lemma get_none (row : gmap string raw) k d : get row k d = None -> row !! k = Some None.
Proof. unfold get. destruct (row !! k) as [v|]; [now intros ->|discriminate]. Qed.

(** A [strip] in front of the rest of a computation: it raises the
    error of a short row, or the rest decides. *)
Lemma strip_bind_raises {A} (row : gmap string raw) k d (f : string -> result A) e :
  In k stripped_columns ->
  (forall s, f s = Raise e -> short_row_error row e) ->
  (s ← strip_raw (get row k d); f s) = Raise e -> short_row_error row e.
Proof.
  intros Hk Hf. destruct (get row k d) as [s|] eqn:E; cbn [strip_raw mbind result_bind].
  - apply Hf.
  - intros [= <-]. split; [reflexivity|]. exists k. split; [exact Hk|].
    now apply get_none in E.
Qed.

Lemma build_record_raises row price e :
  build_record D row price = Raise e -> short_row_error row e.
Proof.
  unfold build_record.
  repeat (apply strip_bind_raises; [simpl; tauto|intros ?]).
  pose proof (price_per_guest_returns price (get row "accommodates" "1")) as Hp.
  destruct (price_per_guest price _) as [ppg|]; [|discriminate Hp].
  cbn [mbind result_bind]. discriminate.
Qed.

Lemma process_row_raises row e :
  process_row D row = Errored e -> short_row_error row e.
Proof.
  unfold process_row.
  destruct (transform_row D row) as [[r|]|e'] eqn:Et; try discriminate.
  intros [= <-]. revert Et. unfold transform_row.
  apply strip_bind_raises; [simpl; tauto|intros id].
  destruct (Str.is_empty id).
  - destruct (get row "name" "") as [name|] eqn:En; cbn [strip_raw mbind result_bind].
    2:{ intros [= <-]. split; [reflexivity|]. exists "name". split; [simpl; tauto|].
        now apply get_none in En. }
    destruct (Str.is_empty (Str.strip name)); [discriminate|].
    destruct (PyFloat.le_int _ _ || _); [discriminate|].
    apply strip_bind_raises; [simpl; tauto|intros id'].
    destruct (Str.is_empty id'); [discriminate|].
    destruct (build_record D row _) as [r|e''] eqn:Eb; cbn [mbind result_bind]; [discriminate|].
    intros [= <-]. exact (build_record_raises _ _ _ Eb).
  - cbn [mbind result_bind].
    destruct (PyFloat.le_int _ _ || _); [discriminate|].
    apply strip_bind_raises; [simpl; tauto|intros id'].
    destruct (Str.is_empty id'); [discriminate|].
    destruct (build_record D row _) as [r|e''] eqn:Eb; cbn [mbind result_bind]; [discriminate|].
    intros [= <-]. exact (build_record_raises _ _ _ Eb).
Qed.

End Errors.

(** ** The fields of a cleaned record *)

Section Schema.

Variable D : string -> string -> result string.

Lemma clean_text_spaced t n :
  clean_text t n = "" \/ spaced true (clean_text t n) = true.
Proof.
  destruct t as [t|]; [|now left].
  unfold clean_text. destruct (Str.is_empty t); [now left|].
  fold (normalized t).
  pose proof (normalized_spaced t) as Hn.
  destruct n as [n|]; [|exact Hn].
  destruct (negb (n =? 0) && (n <? Str.len (normalized t))); [|exact Hn].
  right. apply spaced_ellipsis.
  assert (Ho : spaced_open true (normalized t) = true).
  { destruct Hn as [->|Hn]; [reflexivity|now apply spaced_is_open]. }
  unfold Str.slice_to. destruct (n - 3 <? 0); now apply spaced_open_take.
Qed.

Lemma clean_text_field t n :
  3 <= n ->
  Str.len (clean_text t (Some n)) <= n
  /\ (clean_text t (Some n) = "" \/ spaced true (clean_text t (Some n)) = true).
Proof.
  intros Hn. split; [|apply clean_text_spaced].
  apply (clean_text_bounded_idempotent t n Hn).
Qed.

Lemma convert_boolean_flag v : convert_boolean v = 0 \/ convert_boolean v = 1.
Proof. unfold convert_boolean. destruct (_ || _); [now right|now left]. Qed.

Lemma clean_amenities_nonneg v : 0 <= clean_amenities v.
Proof.
  unfold clean_amenities. destruct v as [s|]; [|lia].
  destruct (Str.is_empty s); [lia|]. destruct (negb _); lia.
Qed.

(** A [strip] in front of the rest of a computation that returns. *)
Lemma strip_bind_ok {A} v (f : string -> result A) r :
  (s ← strip_raw v; f s) = Ok r -> exists s, Str.strip s = s /\ f s = Ok r.
Proof.
  destruct v as [t|]; cbn [strip_raw mbind result_bind]; [|discriminate].
  intros H. exists (Str.strip t). split; [apply strip_idempotent|exact H].
Qed.

Lemma build_record_schema row price r :
  build_record D row price = Ok r ->
  has_sign false price = true -> two_decimals price ->
  PyFloat.le_int price 0 = false -> PyFloat.gt_int price 10000 = false ->
  record_schema r.
Proof.
  unfold build_record. intros H Hs Ht Hlo Hhi.
  apply strip_bind_ok in H as (id & Eid & H).
  apply strip_bind_ok in H as (host_id & Ehost & H).
  apply strip_bind_ok in H as (n1 & En1 & H).
  apply strip_bind_ok in H as (n2 & En2 & H).
  apply strip_bind_ok in H as (n3 & En3 & H).
  apply strip_bind_ok in H as (city & Ecity & H).
  apply strip_bind_ok in H as (state & Estate & H).
  apply strip_bind_ok in H as (zipcode & Ezip & H).
  destruct (price_per_guest price _) as [ppg|] eqn:Ep;
    cbn [mbind result_bind] in H; [|discriminate].
  destruct (price_per_guest_amount _ _ _ Hs Hlo Hhi Ep) as [Hps Hpt].
  injection H as <-.
  split; [reflexivity|].
  split; [eexists; split; [reflexivity|apply clean_text_field; lia]|].
  split; [eexists; split; [reflexivity|apply clean_text_field; lia]|].
  split; [eexists; split; [reflexivity|apply clean_text_field; lia]|].
  split; [eexists; split; [reflexivity|apply clean_text_field; lia]|].
  split.
  { repeat (apply List.Forall_cons; [eexists; split; [reflexivity|assumption]|]).
    apply List.Forall_nil. }
  split.
  { repeat (apply List.Forall_cons;
      [eexists; split;
        [reflexivity|first [apply convert_boolean_flag
                           |destruct (3 <? _); [now right|now left]
                           |destruct (PyFloat.gt_int (clean_price _) 0); [now right|now left]]]|]).
    apply List.Forall_nil. }
  split.
  { repeat (apply List.Forall_cons;
      [eexists; split;
        [reflexivity|first [split; [apply clean_price_sign|apply clean_price_two_decimals]
                           |split; assumption]]|]).
    apply List.Forall_nil. }
  eexists. split; [reflexivity|apply clean_amenities_nonneg].
Qed.

Lemma categorize_price_known price :
  PyFloat.le_int price 0 = false -> categorize_price price <> "unknown".
Proof.
  intros H. unfold categorize_price. rewrite H.
  destruct (PyFloat.lt_int price 75); [discriminate|].
  destruct (PyFloat.lt_int price 150); [discriminate|].
  destruct (PyFloat.lt_int price 300); discriminate.
Qed.

Lemma build_record_features row price r :
  build_record D row price = Ok r ->
  PyFloat.le_int price 0 = false ->
  features_consistent r.
Proof.
  unfold build_record. bind_cases.
  destruct (price_per_guest price _) as [ppg|]; cbn [mbind result_bind]; [|discriminate].
  intros [= <-] Hp.
  do 7 eexists. repeat (split; [reflexivity|]).
  split; [exact (categorize_price_known _ Hp)|].
  repeat split; reflexivity.
Qed.

Lemma process_row_schema row r :
  process_row D row = Accepted r -> record_schema r /\ features_consistent r.
Proof.
  intros H. destruct (process_row_accepted _ _ _ H) as (s & _ & _ & E1 & E2 & Eb).
  split.
  - apply (build_record_schema _ _ _ Eb);
      [apply clean_price_sign|apply clean_price_two_decimals|exact E1|exact E2].
  - apply (build_record_features _ _ _ Eb E1).
Qed.

End Schema.

(** ** The row loop on a concatenation *)

Section Concatenation.

Variable D : string -> string -> result string.

Lemma count_rows_app kind (a b : list (gmap string raw)) :
  count_rows D kind (a ++ b) = count_rows D kind a + count_rows D kind b.
Proof.
  unfold count_rows. rewrite List.filter_app, List.length_app. lia.
Qed.

Lemma transform_rows_app (a b : list (gmap string raw)) :
  transform_rows D (a ++ b)
  = ((fst (transform_rows D a) ++ fst (transform_rows D b))%list,
     snd (transform_rows D a) + snd (transform_rows D b)).
Proof.
  rewrite !transform_rows_eq. cbn [fst snd].
  now rewrite List.flat_map_app, count_rows_app.
Qed.

Lemma count_rows_nonneg kind (rows : list (gmap string raw)) : 0 <= count_rows D kind rows.
Proof. unfold count_rows. lia. Qed.

End Concatenation.

(** ** Ids of ASCII characters *)

Section AsciiIds.

Variable D : string -> string -> result string.






End AsciiIds.

(** ** Letters of either case *)

Section Case.

Lemma simplify_room_type_lower s :
  simplify_room_type (Some (Str.lower s)) = simplify_room_type (Some s).
Proof.
  unfold simplify_room_type. now rewrite lower_empty, lower_idempotent.
Qed.

Lemma convert_boolean_lower s :
  convert_boolean (Some (Str.lower s)) = convert_boolean (Some s).
Proof. unfold convert_boolean, str_of_raw. now rewrite lower_idempotent. Qed.

End Case.

(** * The claims *)

(** ** C1: the accepted records are valid *)

(** C1. For every sequence of raw rows, every record that the pipeline
    accepts has an [id] that is trimmed and not empty and a [price] with
    [0 < price <= 10000]; and the rows that violate one of these
    conditions add nothing: the output is the output on the valid rows
    alone. *)
Theorem accepted_records_valid :
  forall (D : string -> string -> result string) (rows : list (gmap string raw)),
    Forall valid_record (fst (transform_rows D rows))
    /\ fst (transform_rows D rows)
       = fst (transform_rows D (List.filter row_valid rows)).
Proof.
  intros D rows. rewrite !transform_rows_eq. cbn [fst]. split.
  - apply Forall_appended. intros row r. apply process_row_accepted_record.
  - apply appended_valid_rows.
Qed.

(** ** C2: the amenity counter *)

(** C2, as the code has it. For every raw amenities text the counter
    removes all brace characters at both ends and returns 0 when nothing
    is left, and otherwise the number of comma-separated items of the
    rest, empty items included: one more than the number of commas. A
    missing or empty input gives 0. *)
Theorem clean_amenities_counts_all_items :
  clean_amenities None = 0
  /\ forall s : string,
       clean_amenities (Some s) =
         let cleaned := Str.strip_chars "{}" s in
         if Str.is_empty cleaned then 0
         else Z.of_nat (S (Str.count (fun c => Ascii.eqb c ",") cleaned)).
Proof. split; [reflexivity|]. apply clean_amenities_counts_items. Qed.

(** C2 as stated fails: the empty item of ["{TV,,Wifi}"] is counted, and
    so is the one of ["{TV,}"]. *)
Lemma clean_amenities_counts_empty_items :
  clean_amenities (Some "{TV,,Wifi}") = 3
  /\ spec_amenity_count "{TV,,Wifi}" = 2
  /\ clean_amenities (Some "{TV,}") = 2
  /\ spec_amenity_count "{TV,}" = 1.
Proof. repeat split; reflexivity. Qed.

(** ** C3: the currency parser *)

(** C3, as the code has it. For every raw price, text or missing, the
    currency parser returns: an exception inside it is caught and gives
    0.0. The result is never NaN and never negative ([x >= 0] holds): it
    is 0.0, plus infinity, or the float nearest to a decimal with two
    fractional digits. The parser returns the same value on the text of
    its result exactly when the result is below 10^16. *)
Theorem clean_price_nonneg_idempotent_below_1e16 :
  forall v : raw,
    (forall s, v = Some s -> clean_price v = try_except (clean_price_try s) PyFloat.zero)
    /\ has_sign false (clean_price v) = true
    /\ PyFloat.ge_int (clean_price v) 0 = true
    /\ two_decimals (clean_price v)
    /\ (reparses (clean_price v) <-> PyFloat.lt_int (clean_price v) (10 ^ 16) = true).
Proof.
  intros v. split; [|split; [|split; [|split]]].
  - intros s ->. apply clean_price_catches.
  - apply clean_price_sign.
  - apply sign_ge_zero, clean_price_sign.
  - apply clean_price_two_decimals.
  - apply clean_price_reparses_iff.
Qed.

(** C3 as stated fails: the parser is not idempotent. The price
    ["10000000000000000"] parses to 1e16, whose text is ["1e+16"], which
    parses to 116.0; a price of 310 digits parses to infinity, whose text
    ["inf"] parses to 0.0. *)
Lemma clean_price_not_idempotent :
  FloatRepr.repr (clean_price (Some "10000000000000000")) = "1e+16"
  /\ clean_price (Some "1e+16") = float_lit "116.0"
  /\ ~ reparses (clean_price (Some "10000000000000000"))
  /\ clean_price (Some (Str.repeat "9" 310)) = PyFloat.inf false
  /\ clean_price (Some (FloatRepr.repr (PyFloat.inf false))) = PyFloat.zero.
Proof.
  split; [vm_compute; reflexivity|]. split; [vm_compute; reflexivity|].
  split; [unfold reparses; vm_compute; discriminate|].
  split; vm_compute; reflexivity.
Qed.

(** ** C4: the end-to-end example *)

(** C4, as the code has it. Of the three rows the pipeline accepts
    exactly the first and rejects the other two, and the record of the
    first has [price] 1200.5, [price_category] luxury,
    [is_professional_host] 1 and [price_per_guest] 300.12: the quotient
    1200.5 / 4 is exactly 300.125, and [round] takes a tie to the even
    digit. *)
Theorem end_to_end_rows :
  forall D : string -> string -> result string, end_to_end D "300.12".
Proof.
  intros D. unfold end_to_end. eexists. split; [vm_compute; reflexivity|].
  vm_compute. repeat split.
Qed.

(** C4 as stated fails: [price_per_guest] is not 300.13. *)
Lemma end_to_end_price_per_guest_not_300_13 : ~ end_to_end no_dates "300.13".
Proof.
  unfold end_to_end. intros (r & H & _ & _ & _ & _ & _ & _ & H').
  vm_compute in H. injection H as <-. vm_compute in H'. discriminate.
Qed.

(** ** C5: the counts of a run *)

(** C5, as the code has it. The run reports [error_count], the rows
    dropped by an exception, and [removed_count], all rows that are not
    in the output. A row that fails the pre-validation adds 1 to
    [removed_count] and nothing to [error_count]; a row dropped by an
    exception adds 1 to both; an accepted row adds 1 to [clean_count]
    only. The number of rejections is [removed_count - error_count]. *)
Theorem removed_count_includes_errors :
  forall (D : string -> string -> result string)
         (rows : list (gmap string raw)) (row : gmap string raw),
    counts_step D rows row
    /\ removed_count (run_metrics D rows) - error_count (run_metrics D rows)
       = count_rows D is_skipped rows.
Proof.
  intros D rows row. split; [apply counts_step_holds|].
  destruct (run_metrics_counts D rows) as (_ & _ & -> & ->). lia.
Qed.

(** C5 as stated fails: the short row raises, and it is counted in
    [removed_count] as well as in [error_count]. *)
Lemma errored_row_counts_as_removed :
  process_row no_dates short_row = Errored AttributeError
  /\ removed_count (run_metrics no_dates [short_row]) = 1
  /\ error_count (run_metrics no_dates [short_row]) = 1
  /\ ~ rejections_apart_from_errors no_dates [] short_row.
Proof.
  split; [reflexivity|]. split; [reflexivity|]. split; [reflexivity|].
  unfold rejections_apart_from_errors. vm_compute. intros [_ H]. discriminate H.
Qed.

(** ** C6: the stage raises on an id of superscript digits *)

(** C6, at the failing input. The row with the [id] made of the
    superscript digit two is accepted; [isdigit] holds of that [id] and
    [int] rejects it, so the sort key raises [ValueError] and the stage
    returns no sorted collection. *)
Theorem postprocess_raises_superscript_id :
  forall D : string -> string -> result string,
    exists r,
      fst (transform_rows D [superscript_row]) = [r]
      /\ dict_get r "id" = Some (VStr (String "178" ""))
      /\ Str.isdigit (String "178" "") = true
      /\ PyInt.of_string (String "178" "") = Raise ValueError
      /\ postprocess [r] = Raise ValueError.
Proof.
  intros D. eexists. split; [vm_compute; reflexivity|].
  vm_compute. repeat split.
Qed.

(** ** C7: the price per guest *)

Lemma round2_no_zero_division x : PyFloat.round2 x <> Raise ZeroDivisionError.
Proof.
  destruct x as [s|s| |s m e]; simpl; try discriminate.
  destruct (PyFloat.round_ratio _ _ _); discriminate.
Qed.

(** C7. In every accepted record [price_per_guest] is
    [round(price / max(accommodates, 1), 2)] for the [price] and the
    [accommodates] of that record, the division and the rounding having
    returned; and for no price and no number of guests does the
    computation raise [ZeroDivisionError]. *)
Theorem price_per_guest_never_divides_by_zero :
  forall (D : string -> string -> result string) (rows : list (gmap string raw)),
    Forall price_per_guest_ok (fst (transform_rows D rows))
    /\ (forall price accommodates,
          PyFloat.div_int price (Z.max accommodates 1) <> Raise ZeroDivisionError
          /\ price_per_guest price accommodates <> Raise ZeroDivisionError).
Proof.
  intros D rows. split.
  - rewrite transform_rows_eq. cbn [fst]. apply Forall_appended.
    intros row r. apply process_row_accepted_ppg.
  - intros price acc. split; [apply div_int_max_no_zero_division|].
    unfold price_per_guest.
    pose proof (div_int_max_no_zero_division price acc) as H.
    destruct (PyFloat.div_int price (Z.max acc 1)) as [q|e]; cbn [mbind result_bind].
    + apply round2_no_zero_division.
    + exact H.
Qed.

(** ** C8: the handler is deterministic *)

(** C8. Two runs of the handler, the second in the world that the first
    leaves, write the same records and the same text and report the same
    counts and status, whatever the clock says; the first run leaves the
    object it reads as it was; and so do two runs in worlds that differ in
    their clocks only. Only the key of the written object depends on the
    time. *)
Theorem handler_deterministic :
  forall (D : string -> string -> result string)
         (csv_rows : string -> list (gmap string raw))
         (csv_text : list record -> string)
         (strftime : Z -> string) (w : world) (c : nat -> Z) (t : nat),
    let run := lambda_handler D csv_rows csv_text strftime in
    let first := run w in
    let second := run (snd first) in
    let other := run {| objects := objects w; clock := c; ticks := t |} in
    objects (snd first) !! (SOURCE_BUCKET, SOURCE_KEY)
      = objects w !! (SOURCE_BUCKET, SOURCE_KEY)
    /\ (statusCode (fst first) = statusCode (fst second)
        /\ written_rows (fst first) = written_rows (fst second)
        /\ written_body (fst first) = written_body (fst second)
        /\ counts (fst first) = counts (fst second))
    /\ (statusCode (fst first) = statusCode (fst other)
        /\ written_rows (fst first) = written_rows (fst other)
        /\ written_body (fst first) = written_body (fst other)
        /\ counts (fst first) = counts (fst other)).
Proof.
  intros D csv_rows csv_text strftime w c t. cbv zeta.
  split; [apply handler_keeps_source|]. split.
  - apply handler_output_source. symmetry. apply handler_keeps_source.
  - apply handler_output_source. reflexivity.
Qed.

(** ** C9: the text cleaner *)

(** C9. For every input, text or missing, and each of the limits 100,
    200 and 1000 the result of the text cleaner is no longer than the
    limit; when the cleaned text is longer than the limit the result has
    exactly as many characters as the limit, the last three being the
    ellipsis; and the cleaner returns its own result unchanged. *)
Theorem clean_text_idempotent_bounded :
  forall t : raw,
    clean_text_spec t 100 /\ clean_text_spec t 200 /\ clean_text_spec t 1000.
Proof.
  intros t. repeat split; apply clean_text_bounded_idempotent; lia.
Qed.

(** ** C10: no number is assigned when a key raises *)

(** C10, at the failing input. Of the three accepted rows with the ids
    [a], [b] and the superscript digit two, the first two have the sort
    key 0, but the key of the third raises, so the stage raises and
    neither record gets a [sequential_id]. *)
Theorem postprocess_numbers_nothing_when_key_raises :
  forall D : string -> string -> result string,
    exists ra rb rc,
      fst (transform_rows D [plain_row "a"; plain_row "b"; superscript_row]) = [ra; rb; rc]
      /\ sort_key ra = Ok 0 /\ sort_key rb = Ok 0
      /\ sort_key rc = Raise ValueError
      /\ keys_defined [ra; rb; rc] = false
      /\ postprocess [ra; rb; rc] = Raise ValueError.
Proof.
  intros D. do 3 eexists. split; [vm_compute; reflexivity|].
  vm_compute. repeat split.
Qed.

(** ** Beyond the claims: the stage where the key function returns *)

(** When the key function returns on every record, the stage returns the
    records ordered by key, each record once, numbered 1, 2, ... in that
    order. *)
Theorem postprocess_sorts_and_numbers :
  forall rows : list record,
    keys_defined rows = true ->
    exists out,
      postprocess rows = Ok out
      /\ Sorted Z.le (List.map key_of out)
      /\ Permutation (List.map unnumbered out) (List.map unnumbered rows)
      /\ sequential_ids out = counting_from 1 (List.length rows).
Proof.
  intros rows H. destruct (postprocess_defined rows H) as (out & Ho & Hs & Hn & Hp & _).
  exists out. repeat split; assumption.
Qed.

Lemma postprocess_sorts_and_numbers_witness :
  keys_defined [[("id", VStr "10")]; [("id", VStr "x")]; [("id", VStr "9")]] = true
  /\ exists out,
    postprocess [[("id", VStr "10")]; [("id", VStr "x")]; [("id", VStr "9")]] = Ok out
    /\ Sorted Z.le (List.map key_of out)
    /\ Permutation (List.map unnumbered out)
         (List.map unnumbered [[("id", VStr "10")]; [("id", VStr "x")]; [("id", VStr "9")]])
    /\ sequential_ids out = counting_from 1 3.
Proof.
  split; [reflexivity|].
  apply (postprocess_sorts_and_numbers
           [[("id", VStr "10")]; [("id", VStr "x")]; [("id", VStr "9")]]).
  reflexivity.
Defined.

(** When the key function returns on every record, the sort is stable:
    the records of each key come out in the order in which they were
    accepted, and they carry consecutive numbers. *)
Theorem postprocess_is_stable :
  forall (rows : list record) (k : Z),
    keys_defined rows = true ->
    exists out i,
      postprocess rows = Ok out
      /\ List.map unnumbered (of_key k out) = List.map unnumbered (of_key k rows)
      /\ sequential_ids (of_key k out) = counting_from i (List.length (of_key k rows)).
Proof.
  intros rows k H. destruct (postprocess_defined rows H) as (out & Ho & _ & _ & _ & Hk).
  destruct (Hk k) as (Hu & i & Hi). exists out, i. repeat split; assumption.
Qed.

Lemma postprocess_is_stable_witness :
  keys_defined [[("id", VStr "b")]; [("id", VStr "7")]; [("id", VStr "a")]] = true
  /\ exists out i,
    postprocess [[("id", VStr "b")]; [("id", VStr "7")]; [("id", VStr "a")]] = Ok out
    /\ List.map unnumbered (of_key 0 out)
       = List.map unnumbered
           (of_key 0 [[("id", VStr "b")]; [("id", VStr "7")]; [("id", VStr "a")]])
    /\ sequential_ids (of_key 0 out)
       = counting_from i
           (List.length (of_key 0 [[("id", VStr "b")]; [("id", VStr "7")]; [("id", VStr "a")]])).
Proof.
  split; [reflexivity|].
  apply (postprocess_is_stable
           [[("id", VStr "b")]; [("id", VStr "7")]; [("id", VStr "a")]] 0).
  reflexivity.
Defined.

(** ** Beyond the claims: the field normalizers *)

(** The text cleaner, with any limit or none, returns the empty text or
    a text whose only white space is the blank, with no blank at either
    end and no two blanks in a row: no line break, tab or other control
    white space is left. *)
Theorem clean_text_leaves_single_blanks :
  forall (t : raw) (n : option Z),
    clean_text t n = "" \/ spaced true (clean_text t n) = true.
Proof. intros t n. apply clean_text_spaced. Qed.

(** The currency parser sees only the digits and the points of its
    input: every other character, a minus sign or an exponent letter
    included, is dropped before the number is read. *)
Theorem clean_price_ignores_other_characters :
  forall s : string,
    clean_price (Some s) = clean_price (Some (Str.filter is_price_char s)).
Proof. intros s. apply clean_price_filtered. Qed.

(** On a plain price, digits with at most two digits after a point or
    with no point, the currency parser returns what [float] reads: the
    rounding to two digits changes nothing. *)
Theorem clean_price_reads_plain_prices :
  forall ip fp : string,
    Str.all Char.isdecimal ip = true -> ip <> "" ->
    Str.all Char.isdecimal fp = true -> Str.len fp <= 2 ->
    clean_price (Some (ip ++ "." ++ fp)) = float_lit (ip ++ "." ++ fp)
    /\ clean_price (Some ip) = float_lit ip.
Proof. intros ip fp. apply clean_price_plain. Qed.

Lemma clean_price_reads_plain_prices_witness :
  (Str.all Char.isdecimal "1200" = true /\ "1200" <> ""
   /\ Str.all Char.isdecimal "5" = true /\ Str.len "5" <= 2)
  /\ clean_price (Some ("1200" ++ "." ++ "5")) = float_lit ("1200" ++ "." ++ "5")
  /\ clean_price (Some "1200") = float_lit "1200".
Proof.
  assert (H : Str.all Char.isdecimal "1200" = true /\ "1200" <> ""
              /\ Str.all Char.isdecimal "5" = true /\ Str.len "5" <= 2).
  { split; [reflexivity|]. split; [discriminate|]. split; [reflexivity|].
    unfold Str.len. simpl. lia. }
  split; [exact H|].
  destruct H as (H1 & H2 & H3 & H4).
  exact (clean_price_reads_plain_prices "1200" "5" H1 H2 H3 H4).
Defined.

(** The integer cleaner is the truncation of the float cleaner: for every
    raw value it returns [int] of what [clean_float] returns, and 0 where
    that is infinite or NaN. *)
Theorem clean_int_truncates_clean_float :
  forall v : raw, clean_int v = try_except (PyFloat.to_int (clean_float v)) 0.
Proof. intros v. apply clean_int_of_clean_float. Qed.

(** The integer cleaner reads the numeral of an integer below 2^53
    exactly, also when a point and zeros follow it. *)
Theorem clean_int_reads_integers :
  forall (ip : string) (z : nat),
    Str.all Char.isdecimal ip = true -> ip <> "" ->
    PyFloat.digits_value 0 ip < 2 ^ 53 ->
    clean_int (Some ip) = PyFloat.digits_value 0 ip
    /\ clean_int (Some (ip ++ "." ++ Str.repeat "0" z)) = PyFloat.digits_value 0 ip.
Proof. intros ip z. apply clean_int_numeral. Qed.

Lemma clean_int_reads_integers_witness :
  (Str.all Char.isdecimal "365" = true /\ "365" <> ""
   /\ PyFloat.digits_value 0 "365" < 2 ^ 53)
  /\ clean_int (Some "365") = PyFloat.digits_value 0 "365"
  /\ clean_int (Some ("365" ++ "." ++ Str.repeat "0" 1)) = PyFloat.digits_value 0 "365".
Proof.
  assert (H : Str.all Char.isdecimal "365" = true /\ "365" <> ""
              /\ PyFloat.digits_value 0 "365" < 2 ^ 53).
  { split; [reflexivity|]. split; [discriminate|reflexivity]. }
  split; [exact H|].
  destruct H as (H1 & H2 & H3).
  exact (clean_int_reads_integers "365" 1 H1 H2 H3).
Defined.

(** The percentage cleaner is the float cleaner on the text without its
    percent signs and without white space at its ends. *)
Theorem clean_percentage_drops_percent_signs :
  clean_percentage None = clean_float None
  /\ forall s : string,
       clean_percentage (Some s) = clean_float (Some (Str.strip (Str.remove "%" s))).
Proof. split; [reflexivity|]. intros s. apply clean_percentage_of_clean_float. Qed.

(** The boolean converter returns 0 or 1, 0 for a missing value, and
    does not depend on the case of the letters. *)
Theorem convert_boolean_flag_of_either_case :
  forall (v : raw) (s : string),
    (convert_boolean v = 0 \/ convert_boolean v = 1)
    /\ convert_boolean None = 0
    /\ convert_boolean (Some (Str.lower s)) = convert_boolean (Some s).
Proof.
  intros v s. split; [apply convert_boolean_flag|].
  split; [reflexivity|apply convert_boolean_lower].
Qed.

(** The room type is simplified to one of four categories, ["Other"] for
    a missing or empty one, whatever the case of the letters. *)
Theorem simplify_room_type_category_of_either_case :
  forall (v : raw) (s : string),
    In (simplify_room_type v) ["Entire"; "Private"; "Shared"; "Other"]
    /\ simplify_room_type None = "Other" /\ simplify_room_type (Some "") = "Other"
    /\ simplify_room_type (Some (Str.lower s)) = simplify_room_type (Some s).
Proof.
  intros v s. split.
  - unfold simplify_room_type. destruct v as [t|]; [|simpl; tauto].
    destruct (Str.is_empty t); [simpl; tauto|].
    destruct (_ || _); [simpl; tauto|].
    destruct (Str.contains "private" _); [simpl; tauto|].
    destruct (Str.contains "shared" _); simpl; tauto.
  - split; [reflexivity|]. split; [reflexivity|apply simplify_room_type_lower].
Qed.

(** ** Beyond the claims: the row loop *)

(** The body of the row loop raises only on a short row: the exception
    is the [AttributeError] of [strip] on a column, of the nine that are
    stripped, which the row leaves out. No conversion, division or
    rounding raises. *)
Theorem row_errors_only_when_short :
  forall (D : string -> string -> result string) (row : gmap string raw) (e : exn),
    process_row D row = Errored e -> short_row_error row e.
Proof. intros D row e. apply process_row_raises. Qed.

Lemma row_errors_only_when_short_witness :
  process_row no_dates short_row = Errored AttributeError
  /\ short_row_error short_row AttributeError.
Proof.
  assert (H : process_row no_dates short_row = Errored AttributeError)
    by (vm_compute; reflexivity).
  split; [exact H|].
  exact (row_errors_only_when_short no_dates short_row AttributeError H).
Defined.

(** Every record that the row loop appends has the same 68 keys in the
    same order, texts within their limits and with single blanks only,
    stripped identifiers and places, flags that are 0 or 1, amounts that
    are not negative nor NaN, and a count of amenities that is not
    negative. *)
Theorem accepted_records_schema :
  forall (D : string -> string -> result string) (rows : list (gmap string raw)),
    Forall record_schema (fst (transform_rows D rows)).
Proof.
  intros D rows. rewrite transform_rows_eq. cbn [fst].
  apply Forall_appended. intros row r H. apply (process_row_schema D row r H).
Qed.

(** In every record that the row loop appends, each engineered feature
    is the function of the cleaned fields of the same record, and the
    category of the price is never ["unknown"]. *)
Theorem accepted_records_features_consistent :
  forall (D : string -> string -> result string) (rows : list (gmap string raw)),
    Forall features_consistent (fst (transform_rows D rows)).
Proof.
  intros D rows. rewrite transform_rows_eq. cbn [fst].
  apply Forall_appended. intros row r H. apply (process_row_schema D row r H).
Qed.

(** The row loop on two lists of rows, one after the other: the records
    are those of the first list followed by those of the second, and each
    of the four counts is the sum of the two. *)
Theorem transform_rows_concatenation :
  forall (D : string -> string -> result string) (a b : list (gmap string raw)),
    transform_rows D (a ++ b)
    = ((fst (transform_rows D a) ++ fst (transform_rows D b))%list,
       snd (transform_rows D a) + snd (transform_rows D b))
    /\ raw_count (run_metrics D (a ++ b))
       = raw_count (run_metrics D a) + raw_count (run_metrics D b)
    /\ clean_count (run_metrics D (a ++ b))
       = clean_count (run_metrics D a) + clean_count (run_metrics D b)
    /\ removed_count (run_metrics D (a ++ b))
       = removed_count (run_metrics D a) + removed_count (run_metrics D b)
    /\ error_count (run_metrics D (a ++ b))
       = error_count (run_metrics D a) + error_count (run_metrics D b).
Proof.
  intros D a b. split; [apply transform_rows_app|].
  destruct (run_metrics_counts D (a ++ b)) as (R & C & M & E).
  destruct (run_metrics_counts D a) as (Ra & Ca & Ma & Ea).
  destruct (run_metrics_counts D b) as (Rb & Cb & Mb & Eb).
  rewrite R, C, M, E, Ra, Ca, Ma, Ea, Rb, Cb, Mb, Eb.
  rewrite !count_rows_app, List.length_app. repeat split; lia.
Qed.

(** The counts of a run: the errors are among the removed rows, the
    removed rows among the raw rows, and the clean and the removed rows
    together are the raw rows. *)
Theorem run_counts_bounds :
  forall (D : string -> string -> result string) (rows : list (gmap string raw)),
    let m := run_metrics D rows in
    0 <= error_count m <= removed_count m
    /\ removed_count m <= raw_count m
    /\ 0 <= clean_count m
    /\ clean_count m + removed_count m = raw_count m.
Proof.
  intros D rows m. destruct (run_metrics_counts D rows) as (R & C & M & E).
  fold m in R, C, M, E. rewrite R, C, M, E.
  pose proof (count_rows_total D rows).
  pose proof (count_rows_nonneg D is_accepted rows).
  pose proof (count_rows_nonneg D is_skipped rows).
  pose proof (count_rows_nonneg D is_errored rows). lia.
Qed.

(** ** Beyond the claims: the stage on ids of ASCII characters *)



